(** * The scanner's store, cache coordinator and indicator engine

    A shallow embedding of [src/database.py], [src/cache_manager.py],
    [src/indicators.py] and [src/scanner.py], the properties the
    specification states about them, and further properties of the code.

    Conventions of the embedding:
    - a pandas [DataFrame] of daily bars is a [list bar] in row order, a
      [Series] a [list float]; [REAL] columns and Python/NumPy floats are
      IEEE binary64 numbers (Rocq's primitive [float]), a missing value is
      [nan] as pandas has it;
    - a calendar date is its day number (a [Z]), a [datetime] a day number
      with the microsecond of the day; the frames are frames of daily bars,
      whose [date] column holds [datetime.date] objects (as [util.df] gives
      for the daily bars of the broker) or timestamps at midnight (as
      [pd.date_range] and [parse_dates] give);
    - [price_data] holds a date as the text SQLite is given: ['YYYY-MM-DD']
      for a [datetime.date], ['YYYY-MM-DD 00:00:00'] for a timestamp; its
      comparisons, MIN, MAX and ORDER BY are those of the texts, in which
      ['YYYY-MM-DD'] comes before ['YYYY-MM-DD 00:00:00'] and both before the
      next day;
    - the SQLite file is a record of its tables, threaded explicitly;
      [to_sql] commits its own transaction, or raises and leaves the table
      as it was when a row violates a constraint;
    - [datetime.now()] is an argument of the functions that read the clock. *)

From Stdlib Require Import ZArith Floats Lia.
From stdpp Require Import gmap strings list sorting.

Open Scope Z_scope.

(** ** Python and pandas primitives used by the sources *)

Module Py.

(** [len(x)] as a Python integer. *)
Definition len {A} (l : list A) : Z := Z.of_nat (length l).

(** The clamped index of a slice bound, as [slice.indices] computes it. *)
Definition slice_index (n i : Z) : Z :=
  if i <? 0 then Z.max (n + i) 0 else Z.min i n.

(** [l[start:]] *)
Definition slice_from {A} (start : Z) (l : list A) : list A :=
  drop (Z.to_nat (slice_index (len l) start)) l.

(** [l[:stop]] *)
Definition slice_to {A} (stop : Z) (l : list A) : list A :=
  take (Z.to_nat (slice_index (len l) stop)) l.

(** The builtin [min(a, b)]: the later argument wins only when it compares
    strictly smaller. *)
Definition min (a b : float) : float := if (b <? a)%float then b else a.

(** The builtin [max(a, b)]: the later argument wins only when it compares
    strictly greater. *)
Definition max (a b : float) : float := if (a <? b)%float then b else a.

(** [float(z)] of a Python integer: round to nearest, ties to even. *)
Definition float_of_int (z : Z) : float :=
  SF2Prim (binary_normalize prec emax z 0 false).

End Py.

Module Pd.

(** [x.empty] *)
Definition empty {A} (l : list A) : bool :=
  match l with [] => true | _ :: _ => false end.

(** [pd.isna(x)] on a float. *)
Definition isna (x : float) : bool := PrimFloat.is_nan x.

(** [series.dropna()] *)
Definition dropna (s : list float) : list float :=
  List.filter (fun x => negb (isna x)) s.

(** [series.min()]: missing values are skipped; [nan] when nothing is left. *)
Definition min (s : list float) : float :=
  match dropna s with
  | [] => nan
  | x :: xs => foldl (fun m y => if (y <? m)%float then y else m) x xs
  end.

(** [series.max()]: missing values are skipped; [nan] when nothing is left. *)
Definition max (s : list float) : float :=
  match dropna s with
  | [] => nan
  | x :: xs => foldl (fun m y => if (m <? y)%float then y else m) x xs
  end.

End Pd.

(** ** config/settings.py *)

Module Settings.
Definition RSI_WINDOW : Z := 14.
Definition ATR_WINDOW : Z := 14.
Definition RSI_LOOKBACK_DAYS : Z := 7.
Definition RSI_HIGH_THRESHOLD : Z := 90.
Definition RSI_LOW_THRESHOLD : Z := 10.
Definition OVEREXTENDED_LOOKBACK_DAYS : Z := 5.
Definition OVEREXTENDED_ATR_MULTIPLIER : Z := 5.
Definition HIST_DAYS : Z := 30.
Definition MAX_CACHE_AGE_DAYS : Z := 1.
End Settings.

(** ** Daily bars *)

Record bar := Bar {
  date : Z;
  open : float;
  high : float;
  low : float;
  close : float;
  volume : Z
}.

(** ** Time, exceptions and outcomes *)

(** A [datetime]: the day number and the microsecond within the day. *)
Record datetime := Datetime {
  dt_date : Z;
  dt_usec : Z
}.

Module Time.

(** [datetime.combine(d, datetime.min.time())] *)
Definition at_midnight (d : Z) : datetime := Datetime d 0.

(** [t - timedelta(days=n)] *)
Definition minus_days (t : datetime) (n : Z) : datetime :=
  Datetime (dt_date t - n) (dt_usec t).

(** [(a - b).days]: a [timedelta] keeps its seconds and microseconds
    non-negative, so the day count is the floor of the difference. *)
Definition delta_days (a b : datetime) : Z :=
  if dt_usec a <? dt_usec b then dt_date a - dt_date b - 1
  else dt_date a - dt_date b.

End Time.

(** A raised exception: its class and [str(e)].  [Exception] stands for
    any instance of (a subclass of) Python's [Exception]; [BaseException]
    for the ones outside it ([KeyboardInterrupt], [SystemExit]). *)
Inductive exn :=
  | Exception (cls msg : string)
  | BaseException (cls msg : string).

Definition str (e : exn) : string :=
  match e with
  | Exception _ msg => msg
  | BaseException _ msg => msg
  end.

Definition is_Exception (e : exn) : bool :=
  match e with
  | Exception _ _ => true
  | BaseException _ _ => false
  end.

(** What a call does: it returns a value or raises. *)
Inductive outcome (A : Type) :=
  | Returned (a : A)
  | Raised (e : exn).
Arguments Returned {A} a.
Arguments Raised {A} e.

(** ** src/indicators.py *)

Module Indicators.

(** The measurement dictionary of [check_overextended], one field per key. *)
Record measurement := Measurement {
  is_overextended : bool;
  swing_low : option float;
  swing_high : option float;
  atr : option float;
  atr_contribution : option float;
  threshold : option float;
  current_price : option float;
  distance_from_threshold : option float;
  distance_pct : option float;
  proximity_pct : option float;
  price_range : option float;
  calculation_valid : bool
}.

(** The "empty result structure" the function starts from. *)
Definition initial_result (atr_value : option float) : measurement :=
  {| is_overextended := false;
     swing_low := None;
     swing_high := None;
     atr := atr_value;
     atr_contribution := None;
     threshold := None;
     current_price := None;
     distance_from_threshold := None;
     distance_pct := None;
     proximity_pct := None;
     price_range := None;
     calculation_valid := false |}.

(** [atr_value is None or pd.isna(atr_value)] *)
Definition atr_missing (atr_value : option float) : bool :=
  match atr_value with
  | None => true
  | Some a => Pd.isna a
  end.

(** Line 96, "clamp to 0-100": [max(0, min(100, x))], here for any bounds. *)
Definition clamp (x lo hi : float) : float := Py.max lo (Py.min hi x).

(** The proximity computation of lines 94-98. *)
Definition proximity (current swing overextended_threshold : float) : float :=
  if (swing <? overextended_threshold)%float then
    let p := ((current - swing) / (overextended_threshold - swing) * 100)%float in
    clamp p 0 100
  else 0%float.

(** Lines 76-79, "populate basic values": the four keys assigned in place. *)
Definition populate_basic (result : measurement) (sl sh cp : float) : measurement :=
  {| is_overextended := is_overextended result;
     swing_low := Some sl;
     swing_high := Some sh;
     atr := atr result;
     atr_contribution := atr_contribution result;
     threshold := threshold result;
     current_price := Some cp;
     distance_from_threshold := distance_from_threshold result;
     distance_pct := distance_pct result;
     proximity_pct := proximity_pct result;
     price_range := Some (sh - sl)%float;
     calculation_valid := calculation_valid result |}.

(** Lines 104-112, [result.update({...})]. *)
Definition populate_complete (result : measurement) (over : bool)
    (contribution thr distance pct prox : float) : measurement :=
  {| is_overextended := over;
     swing_low := swing_low result;
     swing_high := swing_high result;
     atr := atr result;
     atr_contribution := Some contribution;
     threshold := Some thr;
     current_price := current_price result;
     distance_from_threshold := Some distance;
     distance_pct := Some pct;
     proximity_pct := Some prox;
     price_range := price_range result;
     calculation_valid := true |}.

(** Lines 85-112: the part of the measurement that needs the volatility. *)
Definition complete (result : measurement) (sl cp atr_ : float)
    (atr_multiplier : Z) : measurement :=
  let atr_contribution_ := (atr_ * Py.float_of_int atr_multiplier)%float in
  let overextended_threshold := (sl + atr_contribution_)%float in
  let distance_from_threshold_ := (cp - overextended_threshold)%float in
  let distance_pct_ :=
    (distance_from_threshold_ / overextended_threshold * 100)%float in
  let proximity_pct_ := proximity cp sl overextended_threshold in
  let is_overextended_ := (overextended_threshold <? cp)%float in
  populate_complete result is_overextended_ atr_contribution_
    overextended_threshold distance_from_threshold_ distance_pct_ proximity_pct_.

(** [df.iloc[-(lookback_days + 1):].iloc[:-1]]: the rows the swing low and
    the swing high are taken from. *)
Definition prev_days (df : list bar) (lookback_days : Z) : list bar :=
  Py.slice_to (-1) (Py.slice_from (- (lookback_days + 1)) df).

Definition check_overextended (df : list bar) (atr_value : option float)
    (lookback_days atr_multiplier : Z) : measurement :=
  let result := initial_result atr_value in
  if Pd.empty df || (Py.len df <? lookback_days + 1) then result else
  let recent_data := Py.slice_from (- (lookback_days + 1)) df in
  if Pd.empty recent_data then result else
  let prev_days_data := Py.slice_to (-1) recent_data in
  let sl := Pd.min (low <$> prev_days_data) in
  let sh := Pd.max (high <$> prev_days_data) in
  match last (close <$> df) with
  | None => result (* [df] is not empty here: the first guard returned *)
  | Some cp =>
    let result := populate_basic result sl sh cp in
    match atr_value with
    | None => result
    | Some atr_ =>
      if Pd.isna atr_ then result
      else complete result sl cp atr_ atr_multiplier
    end
  end.

(** [check_rsi_extremes]: the tuple [(hit_high, hit_low, max_rsi, min_rsi)]. *)
Definition check_rsi_extremes (rsi_series : list float) (lookback_days : Z)
    (high_threshold low_threshold : float)
    : bool * bool * option float * option float :=
  if Pd.empty rsi_series || (Py.len rsi_series <? lookback_days)
  then (false, false, None, None) else
  let recent_rsi := Py.slice_from (- lookback_days) (Pd.dropna rsi_series) in
  if Pd.empty recent_rsi then (false, false, None, None) else
  let max_rsi := Pd.max recent_rsi in
  let min_rsi := Pd.min recent_rsi in
  let hit_high := (high_threshold <=? max_rsi)%float in
  let hit_low := (min_rsi <=? low_threshold)%float in
  (hit_high, hit_low, Some max_rsi, Some min_rsi).

Section compute.

(** The two calls into the [ta] package, which is not part of this
    repository: [RSIIndicator(close, window).rsi()] and
    [AverageTrueRange(high, low, close, window).average_true_range()]. *)
Variable ta_rsi : list float -> Z -> outcome (list float).
Variable ta_atr : list float -> list float -> list float -> Z -> outcome (list float).

(** [compute_indicators]: [(rsi_series, atr_series, (latest_rsi, latest_atr))]. *)
Definition compute_indicators (df : list bar)
    : outcome (option (list float) * option (list float)
               * (option float * option float)) :=
  if Pd.empty df
     || (Py.len df <? Z.max Settings.RSI_WINDOW Settings.ATR_WINDOW + 1)
  then Returned (None, None, (None, None)) else
  match ta_rsi (close <$> df) Settings.RSI_WINDOW with
  | Raised e => Raised e
  | Returned rsi_series =>
    match ta_atr (high <$> df) (low <$> df) (close <$> df) Settings.ATR_WINDOW with
    | Raised e => Raised e
    | Returned atr_series =>
      (* [s.iloc[-1] if not s.empty else None] *)
      let latest_rsi := last rsi_series in
      let latest_atr := last atr_series in
      Returned (Some rsi_series, Some atr_series, (latest_rsi, latest_atr))
    end
  end.

End compute.

End Indicators.

(** ** src/database.py *)

Module Database.

(** What the [date] column of a frame holds: [datetime.date] objects or
    timestamps at midnight. *)
Inductive date_column := Dates | Timestamps.

(** The text of a stored date: ['YYYY-MM-DD'], followed by [' 00:00:00']
    when [time_part] is set. *)
Record date_text := DateText {
  day : Z;
  time_part : bool
}.

(** The text SQLite is given for the date of a frame. *)
Definition text_of (dates : date_column) (d : Z) : date_text :=
  match dates with
  | Dates => DateText d false
  | Timestamps => DateText d true
  end.

(** The text of a [datetime.date] parameter. *)
Definition date_param (d : Z) : date_text := DateText d false.

(** [a <= b] on the texts. *)
Definition text_leb (a b : date_text) : bool :=
  (day a <? day b) || ((day a =? day b) && implb (time_part a) (time_part b)).

(** [a < b] on the texts. *)
Definition text_ltb (a b : date_text) : bool := negb (text_leb b a).

(** [MIN] and [MAX] of two texts. *)
Definition text_min (a b : date_text) : date_text := if text_leb a b then a else b.
Definition text_max (a b : date_text) : date_text := if text_leb a b then b else a.

(** A row of [price_data]. *)
Record price_row := PriceRow {
  pr_id : Z;
  pr_symbol : string;
  pr_date : date_text;
  pr_open : float;
  pr_high : float;
  pr_low : float;
  pr_close : float;
  pr_volume : Z;
  pr_created_at : datetime
}.

(** A row of [cache_metadata], keyed by its symbol. *)
Record cache_row := CacheRow {
  last_updated : datetime;
  last_date : option Z;
  record_count : Z
}.

(** The tables these functions touch.  [price_seq] is the AUTOINCREMENT
    counter of [price_data]. *)
Record db := Db {
  price_data : list price_row;
  price_seq : Z;
  cache_metadata : gmap string cache_row
}.

Definition empty_db : db := Db [] 0 ∅.

(** The two clocks a write reads: Python's [datetime.now()] and SQLite's
    [CURRENT_TIMESTAMP] (the default of [created_at]). *)
Record clock := Clock {
  now : datetime;
  current_timestamp : datetime
}.

#[global] Instance date_text_eq_dec : EqDecision date_text.
Proof. solve_decision. Defined.

Definition same_key (symbol : string) (t : date_text) (r : price_row) : bool :=
  bool_decide (pr_symbol r = symbol) && bool_decide (pr_date r = t).

(** The [(symbol, date)] pairs of a table, for [UNIQUE(symbol, date)]. *)
Definition price_keys (tbl : list price_row) : list (string * date_text) :=
  (fun r => (pr_symbol r, pr_date r)) <$> tbl.

(** The bar of a row as [parse_dates] reads it: the day of its text. *)
Definition row_bar (r : price_row) : bar :=
  Bar (day (pr_date r)) (pr_open r) (pr_high r) (pr_low r) (pr_close r)
    (pr_volume r).

(** [df.to_sql('price_data', conn, if_exists='append', ...)]: a plain
    INSERT of every row; [None] when a row violates [UNIQUE(symbol, date)]
    (against a stored row or an earlier row of the batch). *)
Fixpoint to_sql_append (ts : datetime) (symbol : string) (dates : date_column)
    (df : list bar) (tbl : list price_row) (seq : Z)
    : option (list price_row * Z) :=
  match df with
  | [] => Some (tbl, seq)
  | b :: rest =>
    if existsb (same_key symbol (text_of dates (date b))) tbl then None
    else
      let r := PriceRow (seq + 1) symbol (text_of dates (date b)) (open b)
                        (high b) (low b) (close b) (volume b) ts in
      to_sql_append ts symbol dates rest (tbl ++ [r]) (seq + 1)
  end.

(** [df['date'].max()] *)
Definition max_date (df : list bar) : option Z :=
  match df with
  | [] => None
  | b :: rest => Some (foldl (fun m x => Z.max m (date x)) (date b) rest)
  end.

Definition IntegrityError : exn :=
  Exception "IntegrityError" "UNIQUE constraint failed: price_data.symbol, price_data.date".

(** What [df['date'].max().date()] raises on a column of [datetime.date]. *)
Definition AttributeError : exn :=
  Exception "AttributeError" "'datetime.date' object has no attribute 'date'".

(** [save_price_data]: the outcome and the database afterwards.  When the
    INSERT raises, nothing is stored.  When it succeeds [to_sql] has
    committed the rows before the metadata row is built, and building it
    raises on a column of [datetime.date]: the rows stay, no metadata is
    written. *)
Definition save_price_data (clk : clock) (symbol : string) (dates : date_column)
    (df : list bar) (s : db) : outcome unit * db :=
  if Pd.empty df then (Returned (), s) else
  match to_sql_append (current_timestamp clk) symbol dates df (price_data s)
          (price_seq s) with
  | None => (Raised IntegrityError, s)
  | Some (tbl, seq) =>
    match dates with
    | Dates => (Raised AttributeError, Db tbl seq (cache_metadata s))
    | Timestamps =>
      let meta := CacheRow (now clk) (max_date df) (Py.len df) in
      (Returned (), Db tbl seq (<[symbol := meta]> (cache_metadata s)))
    end
  end.

(** The rows of a symbol, as the WHERE clauses select them. *)
Definition rows_of (symbol : string) (s : db) : list price_row :=
  List.filter (fun r => bool_decide (pr_symbol r = symbol)) (price_data s).

(** [date >= ? AND date <= ?] with the texts of two [datetime.date]
    parameters. *)
Definition in_range (start_date end_date : datetime) (r : price_row) : bool :=
  text_leb (date_param (dt_date start_date)) (pr_date r)
  && text_leb (pr_date r) (date_param (dt_date end_date)).

(** The order of [ORDER BY date]. *)
Definition row_le (a b : price_row) : Prop :=
  text_leb (pr_date a) (pr_date b) = true.

#[global] Instance row_le_dec : RelDecision row_le :=
  fun a b => decide (text_leb (pr_date a) (pr_date b) = true).

(** [get_cached_price_data]: the bars of the symbol whose date text lies
    between those of [start.date()] and [end.date()], ordered by date;
    [None] when there is none. *)
Definition get_cached_price_data (symbol : string) (start_date end_date : datetime)
    (s : db) : option (list bar) :=
  let selected := List.filter (in_range start_date end_date) (rows_of symbol s) in
  let df := row_bar <$> merge_sort row_le selected in
  if Pd.empty df then None else Some df.

(** [is_data_fresh] *)
Definition is_data_fresh (now_ : datetime) (symbol : string) (s : db) : bool :=
  match cache_metadata s !! symbol with
  | None => false
  | Some m => Time.delta_days now_ (last_updated m) <? Settings.MAX_CACHE_AGE_DAYS
  end.

(** [SELECT MIN(date), MAX(date) FROM price_data WHERE symbol = ?] *)
Definition min_max_date (symbol : string) (s : db) : option (date_text * date_text) :=
  match pr_date <$> rows_of symbol s with
  | [] => None
  | t :: ts => Some (foldl text_min t ts, foldl text_max t ts)
  end.

Definition ValueError : exn :=
  Exception "ValueError" "unconverted data remains:  00:00:00".

(** [datetime.strptime(text, '%Y-%m-%d').date()] *)
Definition strptime (t : date_text) : outcome Z :=
  if time_part t then Raised ValueError else Returned (day t).

(** [get_missing_date_range] *)
Definition get_missing_date_range (symbol : string)
    (required_start required_end : datetime) (s : db)
    : outcome (option (datetime * datetime)) :=
  match min_max_date symbol s with
  | None => Returned (Some (required_start, required_end))
  | Some (min_date, max_date) =>
    match strptime min_date with
    | Raised e => Raised e
    | Returned cached_start =>
      match strptime max_date with
      | Raised e => Raised e
      | Returned cached_end =>
        if (cached_start <=? dt_date required_start)
           && (dt_date required_end <=? cached_end)
        then Returned None
        else
          let fetch_start := required_start in
          let fetch_end := required_end in
          let fetch_start :=
            if cached_end <? dt_date required_end
            then Time.at_midnight (cached_end + 1) else fetch_start in
          let fetch_end :=
            if dt_date required_start <? cached_start
            then Time.at_midnight (cached_start - 1) else fetch_end in
          Returned (Some (fetch_start, fetch_end))
      end
    end
  end.

End Database.

(** ** src/cache_manager.py *)

Module CacheManager.

(** [get_required_data_range] *)
Definition get_required_data_range (now_ : datetime) (hist_days : Z)
    : datetime * datetime :=
  let end_date := now_ in
  let start_date := Time.minus_days end_date hist_days in
  (start_date, end_date).

(** [should_fetch_data] *)
Definition should_fetch_data (now_ : datetime) (symbol : string)
    (s : Database.db) : bool :=
  if negb (Database.is_data_fresh now_ symbol s) then true else
  let '(start_date, end_date) := get_required_data_range now_ Settings.HIST_DAYS in
  match Database.get_cached_price_data symbol start_date end_date s with
  | None => true
  | Some cached_data => if Py.len cached_data <? 20 then true else false
  end.

(** [get_fetch_strategy] *)
Definition get_fetch_strategy (now_ : datetime) (symbol : string)
    (s : Database.db) : outcome (option (datetime * datetime)) :=
  if negb (should_fetch_data now_ symbol s) then Returned None else
  let '(required_start, required_end) :=
    get_required_data_range now_ Settings.HIST_DAYS in
  Database.get_missing_date_range symbol required_start required_end s.

(** [merge_new_data] *)
Definition merge_new_data (clk : Database.clock) (symbol : string)
    (dates : Database.date_column) (new_data : list bar) (s : Database.db)
    : outcome (list bar) * Database.db :=
  let '(saved, s) :=
    if negb (Pd.empty new_data)
    then Database.save_price_data clk symbol dates new_data s
    else (Returned (), s) in
  match saved with
  | Raised e => (Raised e, s)
  | Returned _ =>
    let '(start_date, end_date) :=
      get_required_data_range (Database.now clk) Settings.HIST_DAYS in
    match Database.get_cached_price_data symbol start_date end_date s with
    | Some complete_data => (Returned complete_data, s)
    | None => (Returned new_data, s)
    end
  end.

End CacheManager.

(** ** src/scanner.py *)

(** Calls that read or write the world [W] (the database file, the broker
    connection, the clock) and may raise. *)
Definition M (W A : Type) : Type := W -> outcome A * W.

Definition ret {W A} (a : A) : M W A := fun w => (Returned a, w).

Definition bind {W A B} (m : M W A) (k : A -> M W B) : M W B :=
  fun w =>
    match m w with
    | (Returned a, w') => k a w'
    | (Raised e, w') => (Raised e, w')
    end.

Definition lift {W A} (o : outcome A) : M W A := fun w => (o, w).

(** [try: body except Exception as e: handler(e)] *)
Definition try_except {W A} (body : M W A) (handler : exn -> M W A) : M W A :=
  fun w =>
    match body w with
    | (Returned a, w') => (Returned a, w')
    | (Raised e, w') => if is_Exception e then handler e w' else (Raised e, w')
    end.

Notation "'let*' x ':=' m 'in' k" := (bind m (fun x => k))
  (at level 10, x name, m at level 100, k at level 200).

Module Scanner.

(** The extra keys of a complete scan result. *)
Record details := Details {
  max_rsi : option float;
  min_rsi : option float;
  swing_high : option float;
  atr_contribution : option float;
  distance_from_threshold : option float;
  distance_pct : option float;
  proximity_pct : option float;
  price_range : option float;
  data_points : Z;
  cached : bool
}.

(** The dictionary [scan_symbol] returns: the ten keys every result has,
    and the extra keys of a complete one. *)
Record scan_result := ScanResult {
  symbol : string;
  status : string;
  latest_rsi : option float;
  latest_atr : option float;
  hit_high : bool;
  hit_low : bool;
  is_overextended : bool;
  swing_low : option float;
  overextended_threshold : option float;
  current_price : option float;
  extra : option details
}.

(** The result of the three early returns and of the handler. *)
Definition blank_result (symbol_ status_ : string) : scan_result :=
  ScanResult symbol_ status_ None None false false false None None None None.

(** [float(x)] of a value that may be [None]. *)
Definition py_float (x : option float) : outcome float :=
  match x with
  | Some v => Returned v
  | None =>
    Raised (Exception "TypeError"
              "float() argument must be a string or a real number, not 'NoneType'")
  end.

(** What [scan_symbol] calls outside [indicators.py]: the scanner's own
    [get_historical_data] (cache, broker and merge), the [ta] package and
    the database writes. *)
Record collaborators (W : Type) := Collaborators {
  get_historical_data : string -> M W (list bar);
  ta_rsi : list float -> Z -> outcome (list float);
  ta_atr : list float -> list float -> list float -> Z -> outcome (list float);
  save_indicators : string -> list bar -> list float -> option (list float) -> M W unit;
  should_fetch_data : string -> M W bool;
  save_scan_result :
    string -> float -> float -> bool -> bool -> string -> bool ->
    option float -> option float -> option float -> M W unit
}.
Arguments get_historical_data {W} _.
Arguments ta_rsi {W} _.
Arguments ta_atr {W} _.
Arguments save_indicators {W} _.
Arguments should_fetch_data {W} _.
Arguments save_scan_result {W} _.

Section scan.

Context {W : Type} (self : collaborators W).

(** Lines 183-189: the status label. *)
Definition status_label (hit_high_ hit_low_ is_overextended_ : bool) : string :=
  let status_ := "no_hit" in
  let status_ := if hit_high_ then "RSI>=90" else status_ in
  let status_ :=
    if hit_low_
    then (if bool_decide (status_ = "no_hit") then "RSI<=10" else status_ +:+ ";RSI<=10")
    else status_ in
  let status_ :=
    if is_overextended_
    then (if bool_decide (status_ = "no_hit") then "overextended"
          else status_ +:+ ";overextended")
    else status_ in
  status_.

(** The body of the [try] block of [scan_symbol]. *)
Definition scan_body (symbol_ : string) : M W scan_result :=
  let* df := get_historical_data self symbol_ in
  if Pd.empty df
     || (Py.len df <? Z.max Settings.RSI_WINDOW Settings.ATR_WINDOW + 1)
  then ret (blank_result symbol_ "insufficient_data") else
  let* indicators :=
    lift (Indicators.compute_indicators (ta_rsi self) (ta_atr self) df) in
  let '(rsi_series, atr_series, (latest_rsi_, latest_atr_)) := indicators in
  match rsi_series, latest_rsi_ with
  | Some rsi_series, Some latest_rsi_ =>
    let* _ := save_indicators self symbol_ df rsi_series atr_series in
    let '(hit_high_, hit_low_, max_rsi_, min_rsi_) :=
      Indicators.check_rsi_extremes rsi_series Settings.RSI_LOOKBACK_DAYS
        (Py.float_of_int Settings.RSI_HIGH_THRESHOLD)
        (Py.float_of_int Settings.RSI_LOW_THRESHOLD) in
    let overextended_data :=
      Indicators.check_overextended df latest_atr_
        Settings.OVEREXTENDED_LOOKBACK_DAYS Settings.OVEREXTENDED_ATR_MULTIPLIER in
    let is_overextended_ := Indicators.is_overextended overextended_data in
    let swing_low_ := Indicators.swing_low overextended_data in
    let overextended_threshold_ := Indicators.threshold overextended_data in
    let current_price_ := Indicators.current_price overextended_data in
    let status_ := status_label hit_high_ hit_low_ is_overextended_ in
    let* latest_atr_f := lift (py_float latest_atr_) in
    let* fetch := should_fetch_data self symbol_ in
    let result :=
      {| symbol := symbol_;
         status := status_;
         latest_rsi := Some latest_rsi_;
         latest_atr := Some latest_atr_f;
         hit_high := hit_high_;
         hit_low := hit_low_;
         is_overextended := is_overextended_;
         swing_low := swing_low_;
         overextended_threshold := overextended_threshold_;
         current_price := current_price_;
         extra := Some
           {| max_rsi := max_rsi_;
              min_rsi := min_rsi_;
              swing_high := Indicators.swing_high overextended_data;
              atr_contribution := Indicators.atr_contribution overextended_data;
              distance_from_threshold :=
                Indicators.distance_from_threshold overextended_data;
              distance_pct := Indicators.distance_pct overextended_data;
              proximity_pct := Indicators.proximity_pct overextended_data;
              price_range := Indicators.price_range overextended_data;
              data_points := Py.len df;
              cached := negb fetch |} |} in
    let* _ :=
      save_scan_result self symbol_ latest_rsi_ latest_atr_f hit_high_ hit_low_
        status_ is_overextended_ swing_low_ overextended_threshold_ current_price_ in
    ret result
  | _, _ => ret (blank_result symbol_ "calculation_failed")
  end.

(** The [except Exception as e] handler. *)
Definition scan_handler (symbol_ : string) (e : exn) : M W scan_result :=
  ret (blank_result symbol_ ("error:" +:+ str e)).

(** [scan_symbol] *)
Definition scan_symbol (symbol_ : string) : M W scan_result :=
  try_except (scan_body symbol_) (scan_handler symbol_).

(** The loop of [run_scan] over the tickers: one [scan_symbol] call per
    ticker, its result appended to [results]. *)
Fixpoint scan_all (tickers : list string) : M W (list scan_result) :=
  match tickers with
  | [] => ret []
  | symbol_ :: rest =>
    let* result := scan_symbol symbol_ in
    let* results := scan_all rest in
    ret (result :: results)
  end.

End scan.

End Scanner.

(** ** src/scanner.py: the history of a symbol *)

Module RSIScanner.

Section broker.

(** [self.ib.reqHistoricalData(...)] for [days] daily bars of the symbol,
    and [util.df] of the bars it returns, with what its [date] column
    holds.  The broker is outside the repository: any answer, any failure. *)
Variable reqHistoricalData :
  string -> Z -> outcome (Database.date_column * list bar).

(** The window [now - days, now] read from the cache. *)
Definition cached_window (clk : Database.clock) (symbol : string) (days : Z)
    (s : Database.db) : option (list bar) :=
  let start_date := Time.minus_days (Database.now clk) days in
  let end_date := Database.now clk in
  Database.get_cached_price_data symbol start_date end_date s.

(** The [try] block of [get_historical_data]. *)
Definition fetch (clk : Database.clock) (symbol : string) (days : Z)
    : M Database.db (list bar) :=
  let* answer := lift (reqHistoricalData symbol days) in
  let '(dates, bars) := answer in
  (* [if not bars: return pd.DataFrame()] and [if df.empty: return df] *)
  if Pd.empty bars then ret []
  else CacheManager.merge_new_data clk symbol dates bars.

(** Its [except Exception] handler: the cached window, or an empty frame. *)
Definition fetch_failed (clk : Database.clock) (symbol : string) (days : Z)
    (e : exn) : M Database.db (list bar) :=
  fun s =>
    match cached_window clk symbol days s with
    | Some cached_data => (Returned cached_data, s)
    | None => (Returned [], s)
    end.

(** [get_historical_data].  The fetch strategy is asked for before the
    [try] block: what it raises is not caught here. *)
Definition get_historical_data (clk : Database.clock) (symbol : string)
    (days : Z) : M Database.db (list bar) :=
  fun s =>
    match CacheManager.get_fetch_strategy (Database.now clk) symbol s with
    | Raised e => (Raised e, s)
    | Returned fetch_range =>
      let use_cache :=
        match fetch_range with
        | None =>
          match cached_window clk symbol days s with
          | Some cached_data =>
            if negb (Pd.empty cached_data) then Some cached_data else None
          | None => None
          end
        | Some _ => None
        end in
      match use_cache with
      | Some cached_data => (Returned cached_data, s)
      | None => try_except (fetch clk symbol days) (fetch_failed clk symbol days) s
      end
    end.

End broker.

End RSIScanner.

(** ** src/indicators.py: the signal summary *)

Module Signals.

(** The dictionary [generate_signal_summary] returns. *)
Record summary := Summary {
  rsi_signal : string;
  volatility_signal : string;
  overall_signal : string;
  confidence : string
}.

(** Lines 299-307: the signal of the oscillator value. *)
Definition rsi_signal_of (rsi_value : option float) (hit_high hit_low : bool)
    : string :=
  match rsi_value with
  | None => "neutral"
  | Some v =>
    if (70 <=? v)%float then "overbought"
    else if (v <=? 30)%float then "oversold"
    else if hit_high then "extreme_overbought"
    else if hit_low then "extreme_oversold"
    else "neutral"
  end.

(** Lines 314-326: the overall signal and the confidence. *)
Definition combine (signals : summary) (hit_high hit_low : bool) : summary :=
  let with_overall (overall conf : string) :=
    Summary (rsi_signal signals) (volatility_signal signals) overall conf in
  if hit_high || bool_decide (rsi_signal signals = "extreme_overbought")
  then with_overall "strong_sell" "high"
  else if hit_low || bool_decide (rsi_signal signals = "extreme_oversold")
  then with_overall "strong_buy" "high"
  else if bool_decide (rsi_signal signals = "overbought")
  then with_overall "sell" "medium"
  else if bool_decide (rsi_signal signals = "oversold")
  then with_overall "buy" "medium"
  else signals.

(** [generate_signal_summary] *)
Definition generate_signal_summary (rsi_value atr_value : option float)
    (hit_high hit_low : bool) : summary :=
  let signals := Summary "neutral" "normal" "neutral" "medium" in
  let signals :=
    Summary (rsi_signal_of rsi_value hit_high hit_low) (volatility_signal signals)
      (overall_signal signals) (confidence signals) in
  let signals :=
    match atr_value with
    | Some _ =>
      Summary (rsi_signal signals) "normal" (overall_signal signals)
        (confidence signals)
    | None => signals
    end in
  combine signals hit_high hit_low.

End Signals.

(** ** src/scanner.py: what [run_scan] does with a result *)

Module RunScan.

(** Line 281: the result goes to [alerts]. *)
Definition is_alert (r : Scanner.scan_result) : bool :=
  Scanner.hit_high r || Scanner.hit_low r || Scanner.is_overextended r.

(** The alerts of a scan, in the order of the tickers. *)
Definition alerts (results : list Scanner.scan_result) : list Scanner.scan_result :=
  List.filter is_alert results.

(** What a result of [scan_symbol] for [symbol_] looks like: one of the
    blank results, with nothing but a status, or a complete one, whose
    status is the label of its flags. *)
Definition shaped (symbol_ : string) (r : Scanner.scan_result) : Prop :=
  Scanner.symbol r = symbol_ /\
  match Scanner.extra r with
  | None =>
    r = Scanner.blank_result symbol_ (Scanner.status r)
  | Some d =>
    Scanner.status r
    = Scanner.status_label (Scanner.hit_high r) (Scanner.hit_low r)
        (Scanner.is_overextended r) /\
    is_Some (Scanner.latest_rsi r) /\ is_Some (Scanner.latest_atr r) /\
    Z.max Settings.RSI_WINDOW Settings.ATR_WINDOW + 1 <= Scanner.data_points d /\
    (Scanner.is_overextended r = true ->
     is_Some (Scanner.current_price r) /\ is_Some (Scanner.overextended_threshold r))
  end.

(** The labels of the flags that are set, in the order the status lists
    them. *)
Definition labels (hit_high_ hit_low_ is_overextended_ : bool) : list string :=
  (if hit_high_ then ["RSI>=90"] else [])
  ++ (if hit_low_ then ["RSI<=10"] else [])
  ++ (if is_overextended_ then ["overextended"] else []).

(** Every value a call returns satisfies [P]. *)
Definition returns_only {W A} (P : A -> Prop) (m : M W A) : Prop :=
  forall w a w', m w = (Returned a, w') -> P a.

End RunScan.

(** ** Binary64 values that are not a number *)

Module Binary64.

(** The specification-level reading of [pd.isna]. *)
Definition SFnan (a : spec_float) : bool :=
  match a with S754_nan => true | _ => false end.

(** [b <= a] as Python writes [a >= b]. *)
Definition geb (a b : float) : bool := (b <=? a)%float.

End Binary64.

(** ** src/database.py, src/cache_manager.py: the file with all its tables *)

Module Store.

(** A row of [indicators]. *)
Record indicator_row := IndicatorRow {
  ir_id : Z;
  ir_symbol : string;
  ir_date : Z;
  rsi_14 : float;
  atr_14 : float;
  ir_created_at : datetime
}.

(** A row of [scan_results]. *)
Record scan_row := ScanRow {
  sr_id : Z;
  scan_date : Z;
  sr_symbol : string;
  sr_latest_rsi : float;
  sr_latest_atr : float;
  sr_hit_high : bool;
  sr_hit_low : bool;
  sr_is_overextended : bool;
  sr_swing_low : option float;
  sr_overextended_threshold : option float;
  sr_current_price : option float;
  sr_status : string;
  sr_created_at : datetime
}.

(** The database file: the tables of [Database.db], [indicators] and
    [scan_results], the last two with their AUTOINCREMENT counters. *)
Record file := File {
  prices : Database.db;
  indicators : list indicator_row;
  indicators_seq : Z;
  scan_results : list scan_row;
  scan_seq : Z
}.

Definition empty_file : file := File Database.empty_db [] 0 [] 0.

(** A call that touches the price tables only. *)
Definition on_prices {A} (m : M Database.db A) : M file A :=
  fun f =>
    let '(o, s) := m (prices f) in
    (o, File s (indicators f) (indicators_seq f) (scan_results f) (scan_seq f)).

(** [indicators_df] after [dropna()]: the date of a bar with the two
    indicator values at its index, the rows with a missing value left out.
    The three columns carry the index of [df], from whose columns the
    series are computed; an index one column lacks gives a row with a
    missing value, which [dropna()] removes. *)
Definition indicators_df (df : list bar) (rsi_series atr_series : list float)
    : list (Z * float * float) :=
  List.filter (fun row => negb (Pd.isna row.1.2) && negb (Pd.isna row.2))
    (zip (zip (date <$> df) rsi_series) atr_series).

Definition same_indicator (symbol : string) (d : Z) (r : indicator_row) : bool :=
  bool_decide (ir_symbol r = symbol) && bool_decide (ir_date r = d).

(** [INSERT OR REPLACE INTO indicators ...]: the row that holds the
    [(symbol, date)] of the new one is deleted, the new one is appended. *)
Definition insert_or_replace (ts : datetime) (symbol : string)
    (acc : list indicator_row * Z) (row : Z * float * float)
    : list indicator_row * Z :=
  let '(tbl, seq) := acc in
  let kept := List.filter (fun r => negb (same_indicator symbol row.1.1 r)) tbl in
  (kept ++ [IndicatorRow (seq + 1) symbol row.1.1 row.1.2 row.2 ts], seq + 1).

(** [save_indicators].  The loop reads the clock for the [created_at] of
    every row; the readings of one call are taken as one instant. *)
Definition save_indicators (clk : Database.clock) (symbol : string)
    (df : list bar) (rsi_series atr_series : list float) (f : file) : file :=
  if Pd.empty df || Pd.empty rsi_series || Pd.empty atr_series then f else
  let rows := indicators_df df rsi_series atr_series in
  if Pd.empty rows then f else
  let '(tbl, seq) :=
    foldl (insert_or_replace (Database.now clk) symbol)
      (indicators f, indicators_seq f) rows in
  File (prices f) tbl seq (scan_results f) (scan_seq f).

(** [save_scan_result]: one INSERT. *)
Definition save_scan_result (clk : Database.clock) (scan_date_ : datetime)
    (symbol : string) (latest_rsi latest_atr : float) (hit_high hit_low : bool)
    (status : string) (is_overextended : bool)
    (swing_low overextended_threshold current_price : option float) (f : file)
    : file :=
  let row :=
    ScanRow (scan_seq f + 1) (dt_date scan_date_) symbol latest_rsi latest_atr
      hit_high hit_low is_overextended swing_low overextended_threshold
      current_price status (Database.current_timestamp clk) in
  File (prices f) (indicators f) (indicators_seq f)
    (scan_results f ++ [row]) (scan_seq f + 1).

(** [clean_old_cache]: the three DELETE statements, and the row count of
    the cursor after the last of them. *)
Definition clean_old_cache (now_ : datetime) (days_to_keep : Z) (f : file)
    : Z * file :=
  let cutoff_date := Time.minus_days now_ days_to_keep in
  let price_data :=
    List.filter
      (fun r => negb (Database.text_ltb (Database.pr_date r)
                        (Database.date_param (dt_date cutoff_date))))
      (Database.price_data (prices f)) in
  let indicators :=
    List.filter (fun r => negb (ir_date r <? dt_date cutoff_date)) (indicators f) in
  let symbols := Database.pr_symbol <$> price_data in
  let cache_metadata := Database.cache_metadata (prices f) in
  let deleted :=
    filter (fun kv : string * Database.cache_row => kv.1 ∉ symbols) cache_metadata in
  let cache_metadata :=
    filter (fun kv : string * Database.cache_row => kv.1 ∈ symbols) cache_metadata in
  (Z.of_nat (size deleted),
   File (Database.Db price_data (Database.price_seq (prices f)) cache_metadata)
     indicators (indicators_seq f) (scan_results f) (scan_seq f)).

Section scanner.

(** The broker and the [ta] package, both outside the repository. *)
Variable reqHistoricalData :
  string -> Z -> outcome (Database.date_column * list bar).
Variable ta_rsi : list float -> Z -> outcome (list float).
Variable ta_atr : list float -> list float -> list float -> Z -> outcome (list float).
Variable clk : Database.clock.

(** [self.db.save_indicators(symbol, df, rsi_series, atr_series)] as
    [scan_symbol] calls it, with a volatility series that may be [None]. *)
Definition save_indicators_call (symbol : string) (df : list bar)
    (rsi_series : list float) (atr_series : option (list float)) : M file unit :=
  match atr_series with
  | Some atr_series =>
    fun f => (Returned (), save_indicators clk symbol df rsi_series atr_series f)
  | None =>
    if Pd.empty df || Pd.empty rsi_series then ret ()
    else lift (Raised (Exception "AttributeError"
                         "'NoneType' object has no attribute 'empty'"))
  end.

(** What [scan_symbol] calls, on the database file. *)
Definition collaborators : Scanner.collaborators file :=
  {| Scanner.get_historical_data := fun symbol =>
       on_prices
         (RSIScanner.get_historical_data reqHistoricalData clk symbol
            Settings.HIST_DAYS);
     Scanner.ta_rsi := ta_rsi;
     Scanner.ta_atr := ta_atr;
     Scanner.save_indicators := save_indicators_call;
     Scanner.should_fetch_data := fun symbol f =>
       (Returned (CacheManager.should_fetch_data (Database.now clk) symbol (prices f)),
        f);
     Scanner.save_scan_result :=
       fun symbol latest_rsi latest_atr hit_high hit_low status is_overextended
           swing_low overextended_threshold current_price f =>
         (Returned (),
          save_scan_result clk (Database.now clk) symbol latest_rsi latest_atr
            hit_high hit_low status is_overextended swing_low
            overextended_threshold current_price f) |}.

End scanner.

End Store.

(** ** Views of the store, to state what its operations keep *)

Module Views.

(** The date test of the WHERE clause of [get_cached_price_data], on a
    bar of a frame whose dates are written as [dates]. *)
Definition in_window (dates : Database.date_column)
    (start_date end_date : datetime) (b : bar) : bool :=
  Database.text_leb (Database.date_param (dt_date start_date))
    (Database.text_of dates (date b))
  && Database.text_leb (Database.text_of dates (date b))
       (Database.date_param (dt_date end_date)).

(** The frame a read yields, the empty one when it returns [None]. *)
Definition frame (o : option (list bar)) : list bar := default [] o.

Definition date_lt (a b : bar) : Prop := date a < date b.

(** The [(symbol, day)] pairs of a table, the form of the text left aside. *)
Definition day_keys (tbl : list Database.price_row) : list (string * Z) :=
  (fun r => (Database.pr_symbol r, Database.day (Database.pr_date r))) <$> tbl.

(** A batch no row of which violates [UNIQUE(symbol, date)]: its dates are
    distinct and none of them is stored for the symbol in the text form
    the batch is written in. *)
Definition insertable (symbol : string) (dates : Database.date_column)
    (df : list bar) (tbl : list Database.price_row) : Prop :=
  NoDup (date <$> df) /\
  forall b, b ∈ df ->
    (symbol, Database.text_of dates (date b)) ∉ Database.price_keys tbl.




(** The range a call returns, when it returns one. *)
Definition ranges {A} (o : outcome (option A)) : list A :=
  match o with
  | Returned r => option_list r
  | Raised _ => []
  end.

(** [SELECT rsi_14, atr_14 FROM indicators WHERE symbol = ? AND date = ?] *)
Definition indicator_at (symbol : string) (d : Z) (tbl : list Store.indicator_row)
    : option (float * float) :=
  (fun r => (Store.rsi_14 r, Store.atr_14 r))
    <$> head (List.filter (Store.same_indicator symbol d) tbl).

(** The [(symbol, date)] pairs of [indicators]. *)
Definition indicator_keys (tbl : list Store.indicator_row) : list (string * Z) :=
  (fun r => (Store.ir_symbol r, Store.ir_date r)) <$> tbl.

(** The columns of [indicators] a caller has given: all but [id] and
    [created_at]. *)
Definition indicator_values (tbl : list Store.indicator_row)
    : list (string * Z * float * float) :=
  (fun r => (Store.ir_symbol r, Store.ir_date r, Store.rsi_14 r, Store.atr_14 r))
    <$> tbl.

(** The values the batch holds for a date: those of its last row of that
    date. *)
Definition batch_at (d : Z) (rows : list (Z * float * float))
    : option (float * float) :=
  (fun row : Z * float * float => (row.1.2, row.2))
    <$> last (List.filter (fun row : Z * float * float => bool_decide (row.1.1 = d)) rows).

(** A row of [indicators] both values of which are numbers. *)
Definition valid_indicator (r : Store.indicator_row) : Prop :=
  Pd.isna (Store.rsi_14 r) = false /\ Pd.isna (Store.atr_14 r) = false.

(** The row holds a [(symbol, date)] of the batch. *)
Definition in_batch (symbol : string) (rows : list (Z * float * float))
    (r : Store.indicator_row) : bool :=
  bool_decide (Store.ir_symbol r = symbol)
  && bool_decide (Store.ir_date r ∈ rows.*1.*1).

(** What a complete result leaves in [scan_results]. *)
Definition scan_row_of (id : Z) (clk : Database.clock) (r : Scanner.scan_result)
    (latest_rsi latest_atr : float) : Store.scan_row :=
  Store.ScanRow id (dt_date (Database.now clk)) (Scanner.symbol r)
    latest_rsi latest_atr (Scanner.hit_high r) (Scanner.hit_low r)
    (Scanner.is_overextended r) (Scanner.swing_low r)
    (Scanner.overextended_threshold r) (Scanner.current_price r)
    (Scanner.status r) (Database.current_timestamp clk).

(** What a scan leaves in [scan_results]: nothing for a blank result, one
    new row with the values of the result for a complete one. *)
Definition recorded (clk : Database.clock) (f f' : Store.file)
    (r : Scanner.scan_result) : Prop :=
  match Scanner.extra r with
  | Some _ =>
    exists latest_rsi latest_atr,
      Scanner.latest_rsi r = Some latest_rsi /\
      Scanner.latest_atr r = Some latest_atr /\
      Store.scan_results f'
      = Store.scan_results f
        ++ [scan_row_of (Store.scan_seq f + 1) clk r latest_rsi latest_atr]
  | None => Store.scan_results f' = Store.scan_results f
  end.

(** The bars, the freshness record and the indicators of every symbol but
    [symbol_] are in [f'] what they are in [f]. *)
Definition elsewhere_kept (symbol_ : string) (f f' : Store.file) : Prop :=
  forall symbol', symbol' <> symbol_ ->
    Database.rows_of symbol' (Store.prices f')
    = Database.rows_of symbol' (Store.prices f) /\
    Database.cache_metadata (Store.prices f') !! symbol'
    = Database.cache_metadata (Store.prices f) !! symbol' /\
    forall d, indicator_at symbol' d (Store.indicators f')
              = indicator_at symbol' d (Store.indicators f).

End Views.

(** ** Concrete series and stores used below *)

Module Scenarios.

(** The three bars of [test_edge_cases] in [tests/test_overextended.py]. *)
Definition small_data : list bar :=
  [ Bar 11 100 101 99 100 1000; Bar 12 101 102 100 101 1000;
    Bar 13 102 103 101 102 1000 ].

(** Six bars with lows 100, 95, 90, 92, 96, 99 and a last close of 106. *)
Definition six_days : list bar :=
  [ Bar 1 101 102 100 101 1000; Bar 2 96 97 95 96 1000; Bar 3 91 92 90 91 1000;
    Bar 4 93 94 92 93 1000; Bar 5 97 98 96 97 1000; Bar 6 100 107 99 106 1000 ].

(** The same six days with a last close of 103. *)
Definition six_days_103 : list bar :=
  [ Bar 1 101 102 100 101 1000; Bar 2 96 97 95 96 1000; Bar 3 91 92 90 91 1000;
    Bar 4 93 94 92 93 1000; Bar 5 97 98 96 97 1000; Bar 6 100 104 99 103 1000 ].

(** Six bars of an instrument quoted at zero that last closes at one. *)
Definition from_zero : list bar :=
  [ Bar 1 0 0 0 0 0; Bar 2 0 0 0 0 0; Bar 3 0 0 0 0 0;
    Bar 4 0 0 0 0 0; Bar 5 0 0 0 0 0; Bar 6 0 1 0 1 1000 ].

(** An oscillator series over fifteen bars with a window of fourteen:
    thirteen undefined samples, then two samples of a steady rise. *)
Definition warm_up : list float := replicate 13 nan ++ [100%float; 100%float].


(** A bar that trades at one all day. *)
Definition flat_bar (d : Z) : bar := Bar d 1 1 1 1 1000.

(** Bars for [n] consecutive days from day [d]. *)
Definition daily_bars (d n : Z) : list bar := flat_bar <$> seqZ d n.

(** The clock at day 100, shortly after midnight. *)
Definition day_100 : Database.clock := Database.Clock (Datetime 100 500) (Datetime 100 0).

(** What is in the database after a frame of timestamps is saved into an
    empty one: the rows and the freshness record. *)
Definition saved (symbol : string) (df : list bar) : Database.db :=
  (Database.save_price_data day_100 symbol Database.Timestamps df
     Database.empty_db).2.

(** What is in it after the save of a frame of [datetime.date], as the
    broker's: the rows. *)
Definition fetched (symbol : string) (df : list bar) : Database.db :=
  (Database.save_price_data day_100 symbol Database.Dates df
     Database.empty_db).2.

(** Scenario D: the cache covers day 10 to day 40. *)
Definition cached_10_40 : Database.db := fetched "X" (daily_bars 10 31).

(** The thirty days up to day 100, as fetched from the broker. *)
Definition fetched_30 : Database.db := fetched "X" (daily_bars 71 30).

(** A cache written today that holds the last seventeen days. *)
Definition cached_17 : Database.db := saved "X" (daily_bars 84 17).

(** A cache written today that holds the last twenty-five days. *)
Definition cached_25 : Database.db := saved "X" (daily_bars 76 25).

(** A cache of two days, to which an older day is then added. *)
Definition cached_10_11 : Database.db := saved "X" (daily_bars 10 2).

(** A scan whose database is locked: the cache lookup at the start of
    [get_historical_data] raises.  The world is the log of the writes. *)
Definition database_locked : Scanner.collaborators (list string) :=
  {| Scanner.get_historical_data := fun _ w =>
       (Raised (Exception "OperationalError" "database is locked"), w);
     Scanner.ta_rsi := fun _ _ => Returned [];
     Scanner.ta_atr := fun _ _ _ _ => Returned [];
     Scanner.save_indicators := fun _ _ _ _ w => (Returned (), w ++ ["indicators"]);
     Scanner.should_fetch_data := fun _ w => (Returned true, w);
     Scanner.save_scan_result := fun _ _ _ _ _ _ _ _ _ _ w =>
       (Returned (), w ++ ["scan_results"]) |}.

(** A scan over fifteen flat bars whose last write fails. *)
Definition disk_full : Scanner.collaborators (list string) :=
  {| Scanner.get_historical_data := fun _ w => (Returned (daily_bars 1 15), w);
     Scanner.ta_rsi := fun _ _ => Returned (replicate 13 nan ++ [50%float; 50%float]);
     Scanner.ta_atr := fun _ _ _ _ => Returned (replicate 13 nan ++ [0%float; 0%float]);
     Scanner.save_indicators := fun _ _ _ _ w => (Returned (), w ++ ["indicators"]);
     Scanner.should_fetch_data := fun _ w => (Returned true, w);
     Scanner.save_scan_result := fun _ _ _ _ _ _ _ _ _ _ w =>
       (Raised (Exception "OperationalError" "database or disk is full"), w) |}.

(** A broker that cannot be reached. *)
Definition broker_down : string -> Z -> outcome (Database.date_column * list bar) :=
  fun _ _ => Raised (Exception "ConnectionError" "Not connected").

(** A broker that answers with the thirty days up to day 100. *)
Definition broker_30_days : string -> Z -> outcome (Database.date_column * list bar) :=
  fun _ _ => Returned (Database.Dates, daily_bars 71 30).

(** The same answer in a frame of timestamps. *)
Definition broker_30_timestamps
    : string -> Z -> outcome (Database.date_column * list bar) :=
  fun _ _ => Returned (Database.Timestamps, daily_bars 71 30).

(** A scan over fifteen flat bars where every call succeeds. *)
Definition healthy : Scanner.collaborators (list string) :=
  {| Scanner.get_historical_data := fun _ w => (Returned (daily_bars 1 15), w);
     Scanner.ta_rsi := fun _ _ => Returned (replicate 13 nan ++ [95%float; 96%float]);
     Scanner.ta_atr := fun _ _ _ _ => Returned (replicate 13 nan ++ [0%float; 0%float]);
     Scanner.save_indicators := fun _ _ _ _ w => (Returned (), w ++ ["indicators"]);
     Scanner.should_fetch_data := fun _ w => (Returned true, w);
     Scanner.save_scan_result := fun _ _ _ _ _ _ _ _ _ _ w =>
       (Returned (), w ++ ["scan_results"]) |}.

(** A scan that gets three bars only. *)
Definition three_bars : Scanner.collaborators (list string) :=
  {| Scanner.get_historical_data := fun _ w => (Returned small_data, w);
     Scanner.ta_rsi := fun _ _ => Returned [];
     Scanner.ta_atr := fun _ _ _ _ => Returned [];
     Scanner.save_indicators := fun _ _ _ _ w => (Returned (), w ++ ["indicators"]);
     Scanner.should_fetch_data := fun _ w => (Returned true, w);
     Scanner.save_scan_result := fun _ _ _ _ _ _ _ _ _ _ w =>
       (Returned (), w ++ ["scan_results"]) |}.

(** An oscillator that reads 95 on every bar once its window is filled. *)
Definition steady_rsi (close : list float) (window : Z) : outcome (list float) :=
  Returned (replicate (Z.to_nat (window - 1)) nan
            ++ replicate (length close - Z.to_nat (window - 1)) 95%float).

(** A volatility of zero on every bar once its window is filled. *)
Definition no_volatility (high low close : list float) (window : Z)
    : outcome (list float) :=
  Returned (replicate (Z.to_nat (window - 1)) nan
            ++ replicate (length close - Z.to_nat (window - 1)) 0%float).

(** The scanner on a database file, with a broker that answers. *)
Definition on_file : Scanner.collaborators Store.file :=
  Store.collaborators broker_30_days steady_rsi no_volatility day_100.

(** Indicator series over [six_days]: the oscillator is defined from the
    third day on, the volatility from the fourth. *)
Definition six_rsi : list float := [nan; nan; 50; 60; 70; 80]%float.
Definition six_atr : list float := [nan; nan; nan; 1; 1; 1]%float.

(** A file whose bars and freshness record of ["OLD"] date from day 1. *)
Definition stale_file : Store.file :=
  Store.File
    (Database.save_price_data (Database.Clock (Datetime 3 0) (Datetime 3 0)) "OLD"
       Database.Timestamps (daily_bars 1 3) cached_17).2
    [] 0 [] 0.

End Scenarios.

(** ** The properties as the specification words them *)

Module Spec.

Import Indicators.

(** "All fields null": every numeric field of a measurement. *)
Definition all_numeric_null (m : measurement) : Prop :=
  swing_low m = None /\ swing_high m = None /\ atr m = None /\
  atr_contribution m = None /\ threshold m = None /\ current_price m = None /\
  distance_from_threshold m = None /\ distance_pct m = None /\
  proximity_pct m = None /\ price_range m = None.

(** The fields the function computes, that is all of the above but [atr]. *)
Definition computed_null (m : measurement) : Prop :=
  swing_low m = None /\ swing_high m = None /\
  atr_contribution m = None /\ threshold m = None /\ current_price m = None /\
  distance_from_threshold m = None /\ distance_pct m = None /\
  proximity_pct m = None /\ price_range m = None.

(** The guard of step 6: a threshold that is zero or negative leaves
    [distancePct] undefined and the measurement not overextended. *)
Definition threshold_guard (m : measurement) : Prop :=
  forall t, threshold m = Some t -> (t <=? 0)%float = true ->
    distance_pct m = None /\ is_overextended m = false.

(** A value within the closed range [0, 100]. *)
Definition within_0_100 (p : float) : Prop :=
  (0 <=? p)%float = true /\ (p <=? 100)%float = true.

(** The number of valid (defined) samples of an oscillator series. *)
Definition valid_samples (rsi_series : list float) : Z :=
  Py.len (Pd.dropna rsi_series).


(** The FreshnessRecord of an instrument describes everything stored for
    it: last date the maximum stored date, count the number of stored bars. *)
Definition freshness_matches_store (symbol : string) (s : Database.db) : Prop :=
  exists m,
    Database.cache_metadata s !! symbol = Some m /\
    Database.last_date m
    = (fun r => Database.day r.2) <$> Database.min_max_date symbol s /\
    Database.record_count m = Py.len (Database.rows_of symbol s).

(** The bars stored for the instrument whose day lies in the required
    window. *)
Definition stored_bar_count (now_ : datetime) (symbol : string)
    (s : Database.db) : Z :=
  let '(start_date, end_date) :=
    CacheManager.get_required_data_range now_ Settings.HIST_DAYS in
  Py.len
    (List.filter
       (fun r => (dt_date start_date <=? Database.day (Database.pr_date r))
                 && (Database.day (Database.pr_date r) <=? dt_date end_date))
       (Database.rows_of symbol s)).

(** The bars of them the sufficiency check counts: a bar dated on the last
    day of the window counts when its date is stored without a time part. *)
Definition cached_bar_count (now_ : datetime) (symbol : string)
    (s : Database.db) : Z :=
  let '(start_date, end_date) :=
    CacheManager.get_required_data_range now_ Settings.HIST_DAYS in
  Py.len
    (List.filter
       (fun r => (dt_date start_date <=? Database.day (Database.pr_date r))
                 && (if Database.time_part (Database.pr_date r)
                     then Database.day (Database.pr_date r) <? dt_date end_date
                     else Database.day (Database.pr_date r) <=? dt_date end_date))
       (Database.rows_of symbol s)).

(** "Enough bars to cover both indicator windows plus one". *)
Definition sufficiency_threshold : Z :=
  Z.max Settings.RSI_WINDOW Settings.ATR_WINDOW + 1.

(** The two gap ranges of a cache that misses both edges of the window. *)
Definition two_gaps (cached_start cached_end : Z)
    (required_start required_end : datetime)
    : list (datetime * datetime) :=
  [ (required_start, Time.at_midnight (cached_start - 1));
    (Time.at_midnight (cached_end + 1), required_end) ].

(** Every failure a call raises is an instance of [Exception]. *)
Definition raises_Exceptions {W A} (m : M W A) : Prop :=
  forall w e w', m w = (Raised e, w') -> is_Exception e = true.

Definition raises_Exceptions_pure {A} (o : outcome A) : Prop :=
  forall e, o = Raised e -> is_Exception e = true.

(** The collaborators of a scan fail with instances of [Exception] only. *)
Record failures_are_Exceptions {W} (self : Scanner.collaborators W) : Prop := {
  get_historical_data_fails : forall symbol,
    raises_Exceptions (Scanner.get_historical_data self symbol);
  ta_rsi_fails : forall close_ window,
    raises_Exceptions_pure (Scanner.ta_rsi self close_ window);
  ta_atr_fails : forall high_ low_ close_ window,
    raises_Exceptions_pure (Scanner.ta_atr self high_ low_ close_ window);
  save_indicators_fails : forall symbol df rsi_series atr_series,
    raises_Exceptions (Scanner.save_indicators self symbol df rsi_series atr_series);
  should_fetch_data_fails : forall symbol,
    raises_Exceptions (Scanner.should_fetch_data self symbol);
  save_scan_result_fails :
    forall symbol rsi_ atr_ hh hl status_ over sl thr cp,
    raises_Exceptions
      (Scanner.save_scan_result self symbol rsi_ atr_ hh hl status_ over sl thr cp)
}.

End Spec.

(** ** The indicator engine *)

Section python_facts.

Context {A : Type}.
Implicit Types l : list A.

Lemma len_nonneg l : 0 <= Py.len l.
Proof. unfold Py.len. lia. Qed.

Lemma empty_true l : Pd.empty l = true <-> l = [].
Proof. destruct l; simpl; split; congruence. Qed.

Lemma empty_false l : Pd.empty l = false <-> 0 < Py.len l.
Proof. destruct l; unfold Py.len; simpl; split; (congruence || lia). Qed.

(** [l[-k:]] keeps the last [k] elements when there are that many. *)
Lemma len_slice_from_neg l k :
  0 < k <= Py.len l -> Py.len (Py.slice_from (- k) l) = k.
Proof.
  intros Hk. unfold Py.slice_from, Py.slice_index.
  destruct (Z.ltb_spec (- k) 0) as [_|]; [|lia].
  unfold Py.len in *. rewrite length_drop. lia.
Qed.

Lemma last_is_Some l : 0 < Py.len l -> is_Some (last l).
Proof.
  destruct l as [|x l] using rev_ind; unfold Py.len; simpl; [lia|].
  intros _. rewrite last_snoc. eauto.
Qed.

End python_facts.

Section float_facts.

Implicit Types x y : float.

Lemma ltb_leb x y : (x <? y)%float = true -> (x <=? y)%float = true.
Proof.
  rewrite ltb_spec, leb_spec. unfold SFltb, SFleb.
  destruct (SFcompare _ _) as [[]|]; congruence.
Qed.

Lemma SFleb_not_SFltb (a b : spec_float) : SFleb a b = true -> SFltb b a = false.
Proof.
  unfold SFleb, SFltb.
  destruct a as [s1|s1| |s1 m1 e1], b as [s2|s2| |s2 m2 e2];
    try destruct s1; try destruct s2; cbn [SFcompare];
    try discriminate; try reflexivity.
  all: change (PosDef.Pos.compare_cont Eq ?a ?b) with (Pos.compare a b).
  all: rewrite (Z.compare_antisym e1 e2), (Pos.compare_antisym m1 m2).
  all: destruct (e1 ?= e2); cbn [CompOpp]; try discriminate; try reflexivity.
  all: destruct (Pos.compare m1 m2); cbn [CompOpp]; try discriminate; reflexivity.
Qed.

Lemma leb_not_ltb x y : (x <=? y)%float = true -> (y <? x)%float = false.
Proof. rewrite leb_spec, ltb_spec. apply SFleb_not_SFltb. Qed.

Lemma Prim2SF_0 : Prim2SF 0 = S754_zero false.
Proof. reflexivity. Qed.

Lemma Prim2SF_100 : Prim2SF 100 = S754_finite false 7036874417766400 (-46).
Proof. vm_compute. reflexivity. Qed.

(** A value at or below zero is below one hundred and not above zero. *)
Lemma nonpositive_order x :
  (x <=? 0)%float = true -> (x <? 100)%float = true /\ (0 <? x)%float = false.
Proof.
  intros H. split; [|by apply leb_not_ltb].
  revert H. rewrite leb_spec, ltb_spec, Prim2SF_0, Prim2SF_100.
  unfold SFltb, SFleb.
  destruct (Prim2SF x) as [s|s| |s m e]; try destruct s;
    cbn [SFcompare]; try discriminate; reflexivity.
Qed.

(** A value that is not a number is below nothing. *)
Lemma isna_ltb x y : Pd.isna x = true -> (x <? y)%float = false.
Proof.
  unfold Pd.isna, PrimFloat.is_nan. rewrite FloatAxioms.eqb_spec, ltb_spec.
  unfold SFeqb, SFltb.
  destruct (Prim2SF x) as [s|s| |s m e]; try destruct s; cbn [SFcompare];
    try discriminate; try reflexivity.
  all: change (PosDef.Pos.compare_cont Eq ?a ?b) with (Pos.compare a b).
  all: rewrite Z.compare_refl, Pos.compare_refl; discriminate.
Qed.

End float_facts.

(** What "clamp to 0-100" does to every binary64 value. *)
Section clamp_facts.

Import Indicators.

Lemma clamp_below x : (x <=? 0)%float = true -> clamp x 0 100 = 0%float.
Proof.
  intros [H1 H2]%nonpositive_order. unfold clamp, Py.max, Py.min.
  by rewrite H1, H2.
Qed.

Lemma clamp_above x : (100 <=? x)%float = true -> clamp x 0 100 = 100%float.
Proof.
  intros H. unfold clamp, Py.max, Py.min. by rewrite (leb_not_ltb _ _ H).
Qed.

Lemma clamp_inside x :
  (0 <? x)%float = true -> (x <? 100)%float = true -> clamp x 0 100 = x.
Proof. intros H0 H1. unfold clamp, Py.max, Py.min. by rewrite H1, H0. Qed.

(** A ratio that is not a number clamps to one hundred: [nan < 100] is
    false, so [min(100, nan)] keeps its first argument. *)
Lemma clamp_nan : clamp nan 0 100 = 100%float.
Proof. reflexivity. Qed.

Lemma clamp_isna x : Pd.isna x = true -> clamp x 0 100 = 100%float.
Proof. intros H. unfold clamp, Py.max, Py.min. by rewrite (isna_ltb _ _ H). Qed.

Lemma clamp_range x : Spec.within_0_100 (clamp x 0 100).
Proof.
  unfold Spec.within_0_100, clamp, Py.max, Py.min.
  destruct (x <? 100)%float eqn:H1.
  - destruct (0 <? x)%float eqn:H0; [|done]. split; by apply ltb_leb.
  - done.
Qed.

Lemma proximity_range cp sl t : Spec.within_0_100 (proximity cp sl t).
Proof. unfold proximity. destruct (sl <? t)%float; [apply clamp_range|done]. Qed.

End clamp_facts.

Section overextended_facts.

Import Indicators.

(** With fewer than [lookback_days + 1] bars the function returns the
    structure it started from. *)
Lemma check_overextended_short df atr_value lookback_days atr_multiplier :
  Py.len df < lookback_days + 1 ->
  check_overextended df atr_value lookback_days atr_multiplier
  = initial_result atr_value.
Proof.
  intros Hlen. unfold check_overextended.
  destruct (Z.ltb_spec (Py.len df) (lookback_days + 1)); [|lia].
  by rewrite orb_true_r.
Qed.

(** With enough bars the basic values are populated, and the rest is
    decided by the volatility argument alone. *)
Lemma check_overextended_enough df atr_value lookback_days atr_multiplier :
  0 <= lookback_days -> lookback_days + 1 <= Py.len df ->
  exists cp,
    last (close <$> df) = Some cp /\
    let sl := Pd.min (low <$> prev_days df lookback_days) in
    let sh := Pd.max (high <$> prev_days df lookback_days) in
    let basic := populate_basic (initial_result atr_value) sl sh cp in
    check_overextended df atr_value lookback_days atr_multiplier
    = match atr_value with
      | None => basic
      | Some atr_ =>
        if Pd.isna atr_ then basic else complete basic sl cp atr_ atr_multiplier
      end.
Proof.
  intros HL Hlen.
  destruct (last_is_Some (close <$> df)) as [cp Hcp].
  { unfold Py.len in *. rewrite length_fmap. lia. }
  exists cp. split; [done|]. unfold check_overextended, prev_days.
  assert (Pd.empty df = false) as -> by (apply empty_false; lia).
  destruct (Z.ltb_spec (Py.len df) (lookback_days + 1)); [lia|]. simpl.
  assert (Pd.empty (Py.slice_from (- (lookback_days + 1)) df) = false) as ->.
  { apply empty_false. rewrite len_slice_from_neg; lia. }
  by rewrite Hcp.
Qed.

End overextended_facts.

Section overextended_claims.

Import Indicators.

(** Whatever the input, the measurement is the initial structure, the
    initial structure with the basic values, or that with the complete
    update on top. *)
Lemma check_overextended_cases df atr_value lookback_days atr_multiplier :
  let m := check_overextended df atr_value lookback_days atr_multiplier in
  m = initial_result atr_value \/
  (exists sl sh cp, m = populate_basic (initial_result atr_value) sl sh cp) \/
  (exists sl sh cp atr_,
     m = complete (populate_basic (initial_result atr_value) sl sh cp)
           sl cp atr_ atr_multiplier).
Proof.
  unfold check_overextended.
  destruct (Pd.empty df || _); [by left|].
  destruct (Pd.empty (Py.slice_from _ _)); [by left|].
  destruct (last (close <$> df)) as [cp|]; [|by left].
  destruct atr_value as [atr_|]; [|right; left; eauto].
  destruct (Pd.isna atr_); right; [left|right]; eauto.
Qed.

(** C5, as amended.  With fewer than [lookback_days + 1] bars the
    measurement is invalid: [calculation_valid] and [is_overextended] are
    false and every computed numeric field is null; the [atr] field is not
    computed but echoes the [atr_value] argument. *)
Theorem check_overextended_insufficient df atr_value lookback_days atr_multiplier :
  Py.len df < lookback_days + 1 ->
  let m := check_overextended df atr_value lookback_days atr_multiplier in
  calculation_valid m = false /\ is_overextended m = false /\
  Spec.computed_null m /\ atr m = atr_value.
Proof.
  intros Hlen m. subst m. rewrite check_overextended_short by done.
  repeat split.
Qed.

Lemma check_overextended_insufficient_witness :
  calculation_valid (check_overextended Scenarios.small_data (Some 2%float) 5 5) = false /\
  is_overextended (check_overextended Scenarios.small_data (Some 2%float) 5 5) = false /\
  Spec.computed_null (check_overextended Scenarios.small_data (Some 2%float) 5 5) /\
  atr (check_overextended Scenarios.small_data (Some 2%float) 5 5) = Some 2%float.
Proof.
  apply (check_overextended_insufficient Scenarios.small_data (Some 2%float) 5 5).
  vm_compute. reflexivity.
Defined.

(** C5, as stated, fails: with the three bars and the volatility 2.0 of the
    repository's own edge-case test, the [atr] field of the invalid
    measurement is 2.0, not null. *)
Lemma short_series_keeps_atr :
  Py.len Scenarios.small_data < 5 + 1 /\
  ~ Spec.all_numeric_null
      (check_overextended Scenarios.small_data (Some 2%float) 5 5).
Proof.
  split; [vm_compute; reflexivity|].
  intros (_ & _ & Hatr & _). vm_compute in Hatr. discriminate.
Qed.

(** C10.  With at least [lookback_days + 1] bars and a volatility argument
    that is missing or not a number, the measurement is invalid and not
    overextended, the swing low, swing high, current price and price
    range are populated from the series, and the fields that need the
    volatility stay null. *)
Theorem check_overextended_without_atr df atr_value lookback_days atr_multiplier :
  0 <= lookback_days -> lookback_days + 1 <= Py.len df ->
  atr_missing atr_value = true ->
  let m := check_overextended df atr_value lookback_days atr_multiplier in
  let sl := Pd.min (low <$> prev_days df lookback_days) in
  let sh := Pd.max (high <$> prev_days df lookback_days) in
  calculation_valid m = false /\ is_overextended m = false /\
  swing_low m = Some sl /\ swing_high m = Some sh /\
  (is_Some (current_price m) /\ current_price m = last (close <$> df)) /\
  price_range m = Some (sh - sl)%float /\
  atr_contribution m = None /\ threshold m = None /\
  distance_from_threshold m = None /\ distance_pct m = None /\
  proximity_pct m = None.
Proof.
  intros HL Hlen Hatr m sl sh. subst m sl sh.
  destruct (check_overextended_enough df atr_value lookback_days atr_multiplier)
    as (cp & Hcp & ->); [done..|].
  rewrite Hcp.
  destruct atr_value as [atr_|]; simpl in Hatr; [rewrite Hatr|];
    simpl; repeat split; eauto.
Qed.

Lemma check_overextended_without_atr_witness :
  calculation_valid (check_overextended Scenarios.six_days (Some nan) 5 5) = false /\
  proximity_pct (check_overextended Scenarios.six_days (Some nan) 5 5) = None /\
  swing_low (check_overextended Scenarios.six_days (Some nan) 5 5) = Some 90%float.
Proof.
  pose proof (check_overextended_without_atr Scenarios.six_days (Some nan) 5 5)
    as H.
  destruct H as (Hvalid & _ & Hlow & _ & _ & _ & _ & _ & _ & _ & Hprox).
  - lia.
  - vm_compute. discriminate.
  - reflexivity.
  - split; [exact Hvalid|]. split; [exact Hprox|].
    rewrite Hlow. vm_compute. reflexivity.
Defined.

(** C4, as amended.  With at least [lookback_days + 1] bars and a defined
    volatility, [check_overextended] has no guard on the sign of the
    threshold: [distance_pct] is always [distance / threshold * 100] in
    binary64 arithmetic (plus or minus infinity, or not a number, when the
    threshold is zero) and [is_overextended] is [current_price > threshold],
    also when the threshold is zero or negative. *)
Theorem check_overextended_unguarded df atr_ lookback_days atr_multiplier :
  0 <= lookback_days -> lookback_days + 1 <= Py.len df ->
  Pd.isna atr_ = false ->
  let m := check_overextended df (Some atr_) lookback_days atr_multiplier in
  exists sl cp,
    swing_low m = Some sl /\ current_price m = Some cp /\
    let t := (sl + atr_ * Py.float_of_int atr_multiplier)%float in
    threshold m = Some t /\
    distance_from_threshold m = Some (cp - t)%float /\
    distance_pct m = Some ((cp - t) / t * 100)%float /\
    is_overextended m = (t <? cp)%float /\
    calculation_valid m = true.
Proof.
  intros HL Hlen Hatr m. subst m.
  destruct (check_overextended_enough df (Some atr_) lookback_days atr_multiplier)
    as (cp & Hcp & ->); [done..|].
  rewrite Hatr. eexists _, cp. simpl. repeat split.
Qed.

Lemma check_overextended_unguarded_witness :
  exists sl cp,
    swing_low (check_overextended Scenarios.from_zero (Some 0%float) 5 5) = Some sl /\
    current_price (check_overextended Scenarios.from_zero (Some 0%float) 5 5) = Some cp /\
    threshold (check_overextended Scenarios.from_zero (Some 0%float) 5 5)
    = Some (sl + 0 * Py.float_of_int 5)%float /\
    distance_pct (check_overextended Scenarios.from_zero (Some 0%float) 5 5)
    = Some ((cp - (sl + 0 * Py.float_of_int 5)) / (sl + 0 * Py.float_of_int 5) * 100)%float.
Proof.
  destruct (check_overextended_unguarded Scenarios.from_zero 0%float 5 5)
    as (sl & cp & Hsl & Hcp & Ht & _ & Hpct & _).
  - lia.
  - vm_compute. discriminate.
  - reflexivity.
  - exists sl, cp. repeat split; assumption.
Defined.

(** C4, as stated, fails: for an instrument quoted at zero with a
    volatility of zero the threshold is zero, yet [distance_pct] is computed
    (it is [infinity]) and the measurement is overextended. *)
Lemma zero_threshold_is_not_guarded :
  5 + 1 <= Py.len Scenarios.from_zero /\
  threshold (check_overextended Scenarios.from_zero (Some 0%float) 5 5) = Some 0%float /\
  distance_pct (check_overextended Scenarios.from_zero (Some 0%float) 5 5) = Some infinity /\
  is_overextended (check_overextended Scenarios.from_zero (Some 0%float) 5 5) = true /\
  ~ Spec.threshold_guard (check_overextended Scenarios.from_zero (Some 0%float) 5 5).
Proof.
  split; [vm_compute; discriminate|].
  split; [vm_compute; reflexivity|].
  split; [vm_compute; reflexivity|].
  split; [vm_compute; reflexivity|].
  intros H. destruct (H 0%float) as [Hpct _]; [vm_compute; reflexivity..|].
  vm_compute in Hpct. discriminate.
Qed.

(** C7.  Whenever [proximity_pct] is defined it lies in [0, 100]: it is the
    clamp of [(current_price - swing_low) / (threshold - swing_low) * 100]
    to 0-100 when the threshold is above the swing low and 0 otherwise,
    however far the current price is from either.  The clamp is spelled
    out: 0 for a ratio at or below 0, 100 for one at or above 100, the
    ratio itself in between, and 100 for a ratio that is not a number. *)
Theorem proximity_pct_clamped df atr_value lookback_days atr_multiplier p :
  let m := check_overextended df atr_value lookback_days atr_multiplier in
  proximity_pct m = Some p ->
  Spec.within_0_100 p /\
  exists sl t cp,
    swing_low m = Some sl /\ threshold m = Some t /\ current_price m = Some cp /\
    let ratio := ((cp - sl) / (t - sl) * 100)%float in
    ((sl <? t)%float = false -> p = 0%float) /\
    ((sl <? t)%float = true ->
     ((ratio <=? 0)%float = true -> p = 0%float) /\
     ((100 <=? ratio)%float = true -> p = 100%float) /\
     ((0 <? ratio)%float = true -> (ratio <? 100)%float = true -> p = ratio) /\
     (Pd.isna ratio = true -> p = 100%float)).
Proof.
  intros m Hp. subst m.
  destruct (check_overextended_cases df atr_value lookback_days atr_multiplier)
    as [H|[(sl & sh & cp & H)|(sl & sh & cp & atr_ & H)]];
    rewrite H in Hp |- *; simpl in Hp; try discriminate.
  injection Hp as <-. split; [apply proximity_range|].
  eexists sl, _, cp. cbn [swing_low threshold current_price complete].
  split; [done|]. split; [done|]. split; [done|]. unfold proximity.
  split; [by intros ->|]. intros ->.
  split; [apply clamp_below|]. split; [apply clamp_above|].
  split; [apply clamp_inside|apply clamp_isna].
Qed.

Lemma proximity_pct_clamped_witness :
  Spec.within_0_100 ((103 - 90) / 15 * 100) /\
  exists sl t cp,
    swing_low (check_overextended Scenarios.six_days_103 (Some 3%float) 5 5)
    = Some sl /\
    threshold (check_overextended Scenarios.six_days_103 (Some 3%float) 5 5)
    = Some t /\
    current_price (check_overextended Scenarios.six_days_103 (Some 3%float) 5 5)
    = Some cp /\
    let ratio := ((cp - sl) / (t - sl) * 100)%float in
    ((sl <? t)%float = false -> ((103 - 90) / 15 * 100)%float = 0%float) /\
    ((sl <? t)%float = true ->
     ((ratio <=? 0)%float = true -> ((103 - 90) / 15 * 100)%float = 0%float) /\
     ((100 <=? ratio)%float = true -> ((103 - 90) / 15 * 100)%float = 100%float) /\
     ((0 <? ratio)%float = true -> (ratio <? 100)%float = true ->
      ((103 - 90) / 15 * 100)%float = ratio) /\
     (Pd.isna ratio = true -> ((103 - 90) / 15 * 100)%float = 100%float)).
Proof.
  apply (proximity_pct_clamped Scenarios.six_days_103 (Some 3%float) 5 5
           ((103 - 90) / 15 * 100)%float).
  vm_compute. reflexivity.
Defined.

(** The two worked measurements of the specification: a close of 106
    against a threshold of 90 + 3 * 5 is overextended by 1 with the proximity
    clamped to 100; a close of 103 is not, at a proximity of 86.7. *)
Example check_overextended_close_106 :
  let m := check_overextended Scenarios.six_days (Some 3%float) 5 5 in
  swing_low m = Some 90%float /\ threshold m = Some 105%float /\
  is_overextended m = true /\ distance_from_threshold m = Some 1%float /\
  proximity_pct m = Some 100%float.
Proof. vm_compute. repeat split. Qed.

Example check_overextended_close_103 :
  let m := check_overextended Scenarios.six_days_103 (Some 3%float) 5 5 in
  threshold m = Some 105%float /\ is_overextended m = false /\
  proximity_pct m = Some ((103 - 90) / 15 * 100)%float.
Proof. vm_compute. repeat split. Qed.

End overextended_claims.

Section rsi_extremes_claims.

Import Indicators.



(** A series at least as long as the lookback is judged on the valid
    samples among its most recent ones, however few they are. *)
Lemma check_rsi_extremes_evaluated rsi_series lookback_days high_threshold low_threshold :
  lookback_days <= Py.len rsi_series -> 0 < Spec.valid_samples rsi_series ->
  0 < lookback_days ->
  let recent_rsi := Py.slice_from (- lookback_days) (Pd.dropna rsi_series) in
  check_rsi_extremes rsi_series lookback_days high_threshold low_threshold
  = ((high_threshold <=? Pd.max recent_rsi)%float,
     (Pd.min recent_rsi <=? low_threshold)%float,
     Some (Pd.max recent_rsi), Some (Pd.min recent_rsi)).
Proof.
  intros Hlen Hvalid HN recent_rsi. subst recent_rsi. unfold check_rsi_extremes.
  assert (Pd.empty rsi_series = false) as -> by (apply empty_false; lia).
  destruct (Z.ltb_spec (Py.len rsi_series) lookback_days); [lia|]. simpl.
  assert (Pd.empty (Py.slice_from (- lookback_days) (Pd.dropna rsi_series)) = false)
    as ->; [|done].
  apply empty_false. unfold Spec.valid_samples in *.
  unfold Py.slice_from, Py.slice_index, Py.len in *.
  destruct (Z.ltb_spec (- lookback_days) 0); [|lia].
  rewrite length_drop. lia.
Qed.


End rsi_extremes_claims.

(** ** The persistent store *)

Section database_facts.

Import Database.

Implicit Types tbl : list price_row.

(** The order of the texts is the order of the days, and within a day the
    text without a time part comes first. *)
Lemma text_leb_spec a b :
  text_leb a b = true
  <-> day a < day b \/ (day a = day b /\ (time_part a = true -> time_part b = true)).
Proof.
  unfold text_leb. rewrite orb_true_iff, andb_true_iff, Z.ltb_lt, Z.eqb_eq.
  destruct (time_part a), (time_part b); simpl; intuition congruence.
Qed.

Lemma text_leb_days a b : text_leb a b = true -> day a <= day b.
Proof. rewrite text_leb_spec. lia. Qed.

Lemma text_leb_total a b : text_leb a b = true \/ text_leb b a = true.
Proof.
  rewrite !text_leb_spec. destruct (time_part a), (time_part b);
    destruct (Z.lt_trichotomy (day a) (day b)) as [?|[?|?]]; intuition lia.
Qed.

Lemma text_leb_trans a b c :
  text_leb a b = true -> text_leb b c = true -> text_leb a c = true.
Proof.
  rewrite !text_leb_spec. intros [?|[? ?]] [?|[? ?]]; [left; lia..|].
  right. split; [lia|tauto].
Qed.

Lemma text_leb_antisym a b :
  text_leb a b = true -> text_leb b a = true -> a = b.
Proof.
  rewrite !text_leb_spec. destruct a as [d t], b as [d' t']. simpl.
  intros Hab Hba. assert (d = d') as -> by lia.
  f_equal. destruct t, t'; intuition (congruence || lia).
Qed.

(** The window test against two [datetime.date] parameters: the first day
    is within the window in both forms of the text, the last day only
    without a time part. *)
Lemma in_range_spec start_date end_date r :
  in_range start_date end_date r
  = (dt_date start_date <=? day (pr_date r))
    && (if time_part (pr_date r) then day (pr_date r) <? dt_date end_date
        else day (pr_date r) <=? dt_date end_date).
Proof.
  unfold in_range, text_leb, date_param. simpl.
  destruct (time_part (pr_date r)); simpl;
    repeat match goal with
    | |- context [?a <? ?b] => destruct (Z.ltb_spec a b)
    | |- context [?a =? ?b] => destruct (Z.eqb_spec a b)
    | |- context [?a <=? ?b] => destruct (Z.leb_spec a b)
    end; simpl; try done; lia.
Qed.

(** The key of the row a bar is stored as. *)
Lemma existsb_same_key symbol t tbl :
  existsb (same_key symbol t) tbl = true <-> (symbol, t) ∈ price_keys tbl.
Proof.
  unfold price_keys. rewrite existsb_exists, list_elem_of_fmap.
  split.
  - intros (r & Hin & Hkey). exists r. split; [|by apply list_elem_of_In].
    unfold same_key in Hkey. apply andb_true_iff in Hkey as [Hs Hd].
    apply bool_decide_eq_true in Hs, Hd. by rewrite Hs, Hd.
  - intros (r & Hkey & Hin). exists r. split; [by apply list_elem_of_In|].
    injection Hkey as -> ->. unfold same_key.
    by rewrite !bool_decide_eq_true_2.
Qed.

(** The UNIQUE check reads the keys of the table and nothing else. *)
Lemma existsb_same_key_keys symbol t tbl tbl' :
  price_keys tbl = price_keys tbl' ->
  existsb (same_key symbol t) tbl = existsb (same_key symbol t) tbl'.
Proof.
  intros Hkeys. apply eq_true_iff_eq. by rewrite !existsb_same_key, Hkeys.
Qed.

(** A successful append stores one row per bar, after the rows that were
    there, under the symbol and the date text of the bar. *)
Lemma to_sql_append_keys ts symbol dates df : forall tbl seq tbl' seq',
  to_sql_append ts symbol dates df tbl seq = Some (tbl', seq') ->
  price_keys tbl'
  = price_keys tbl ++ ((fun b => (symbol, text_of dates (date b))) <$> df).
Proof.
  induction df as [|b rest IH]; intros tbl seq tbl' seq'; simpl.
  - intros [= <- <-]. by rewrite app_nil_r.
  - destruct (existsb _ tbl); [done|]. intros Happ%IH.
    rewrite Happ. unfold price_keys. rewrite fmap_app. simpl.
    by rewrite <- app_assoc.
Qed.

Lemma to_sql_append_length ts symbol dates df tbl seq tbl' seq' :
  to_sql_append ts symbol dates df tbl seq = Some (tbl', seq') ->
  Py.len tbl' = Py.len tbl + Py.len df.
Proof.
  intros Hkeys%to_sql_append_keys. apply (f_equal length) in Hkeys.
  unfold price_keys in Hkeys. rewrite length_app, !length_fmap in Hkeys.
  unfold Py.len. lia.
Qed.

(** A successful append keeps the keys of the table distinct. *)
Lemma to_sql_append_NoDup ts symbol dates df : forall tbl seq tbl' seq',
  NoDup (price_keys tbl) ->
  to_sql_append ts symbol dates df tbl seq = Some (tbl', seq') ->
  NoDup (price_keys tbl').
Proof.
  induction df as [|b rest IH]; intros tbl seq tbl' seq' Hnd; simpl.
  - by intros [= <- <-].
  - destruct (existsb _ tbl) eqn:Hex; [done|]. apply IH.
    unfold price_keys. rewrite fmap_app. simpl.
    apply NoDup_app. split; [done|]. split; [|apply NoDup_singleton].
    intros k Hk ->%list_elem_of_singleton.
    apply existsb_same_key in Hk. congruence.
Qed.

(** Whether an append fails depends on the keys stored and on the batch,
    not on the clock or on the row counter. *)
Lemma to_sql_append_fails_alike ts ts' symbol dates df : forall tbl tbl' seq seq',
  price_keys tbl = price_keys tbl' ->
  to_sql_append ts symbol dates df tbl seq = None ->
  to_sql_append ts' symbol dates df tbl' seq' = None.
Proof.
  induction df as [|b rest IH]; intros tbl tbl' seq seq' Hkeys; simpl; [done|].
  rewrite (existsb_same_key_keys _ _ _ _ Hkeys).
  destruct (existsb _ tbl'); [done|]. apply IH.
  unfold price_keys in *. rewrite !fmap_app. simpl. by rewrite Hkeys.
Qed.

(** Once a batch is stored, storing it again violates the constraint. *)
Lemma to_sql_append_again ts ts' symbol dates df tbl seq tbl' seq' :
  df <> [] ->
  to_sql_append ts symbol dates df tbl seq = Some (tbl', seq') ->
  to_sql_append ts' symbol dates df tbl' seq' = None.
Proof.
  intros Hne Hkeys%to_sql_append_keys. destruct df as [|b rest]; [done|]. simpl.
  assert (existsb (same_key symbol (text_of dates (date b))) tbl' = true) as ->;
    [|done].
  apply existsb_same_key. rewrite Hkeys. simpl.
  apply elem_of_app. right. apply list_elem_of_here.
Qed.

(** The second submission of a batch whose rows were stored raises
    [IntegrityError] and leaves the database as the first submission left
    it, whether the first returned or failed after its rows were stored. *)
Lemma save_price_data_again_raises clk clk' symbol dates df s o s1 :
  df <> [] ->
  save_price_data clk symbol dates df s = (o, s1) ->
  o <> Raised IntegrityError ->
  save_price_data clk' symbol dates df s1 = (Raised IntegrityError, s1).
Proof.
  intros Hne. unfold save_price_data.
  destruct df as [|b rest] eqn:Hdf; [done|]. rewrite <- Hdf in *.
  assert (Pd.empty df = false) as -> by by subst.
  destruct (to_sql_append _ _ _ _ (price_data s) _) as [[tbl seq]|] eqn:Happ;
    [|by intros [= <- _]].
  destruct dates; intros [= <- <-] _; simpl;
    by rewrite (to_sql_append_again _ _ _ _ _ _ _ _ _ Hne Happ).
Qed.

(** X3.  [save_price_data] keeps [UNIQUE(symbol, date)]. *)
Lemma save_price_data_NoDup clk symbol dates df s :
  NoDup (price_keys (price_data s)) ->
  NoDup (price_keys (price_data (save_price_data clk symbol dates df s).2)).
Proof.
  intros Hnd. unfold save_price_data. destruct (Pd.empty df); [done|].
  destruct (to_sql_append _ _ _ _ _ _) as [[tbl seq]|] eqn:Happ; [|done].
  destruct dates; simpl; eapply to_sql_append_NoDup; eauto.
Qed.

(** The rows a successful append adds: one per bar, all of the symbol,
    with the date texts of the bars in order. *)
Lemma to_sql_append_rows ts symbol dates df : forall tbl seq tbl' seq',
  to_sql_append ts symbol dates df tbl seq = Some (tbl', seq') ->
  exists new,
    tbl' = tbl ++ new /\
    Forall (fun r => pr_symbol r = symbol) new /\
    pr_date <$> new = (fun b => text_of dates (date b)) <$> df.
Proof.
  induction df as [|b rest IH]; intros tbl seq tbl' seq'; simpl.
  - intros [= <- <-]. exists []. by rewrite app_nil_r.
  - destruct (existsb _ tbl); [done|].
    intros (new & -> & Hsym & Hdates)%IH.
    eexists (_ :: new). rewrite <- app_assoc. split; [done|].
    split; [by constructor|]. by rewrite !fmap_cons, Hdates.
Qed.

Lemma filter_symbol_all symbol (new : list price_row) :
  Forall (fun r => pr_symbol r = symbol) new ->
  List.filter (fun r => bool_decide (pr_symbol r = symbol)) new = new.
Proof.
  induction 1 as [|r new Hr _ IH]; simpl; [done|].
  by rewrite bool_decide_eq_true_2, IH.
Qed.

Lemma max_date_foldl (rest : list bar) : forall d,
  foldl Z.max d (date <$> rest) = foldl (fun m x => Z.max m (date x)) d rest.
Proof. induction rest as [|b rest IH]; intros d; simpl; [done|]. apply IH. Qed.

(** The day of the greatest text is the greatest day. *)
Lemma day_text_max a b : day (text_max a b) = Z.max (day a) (day b).
Proof.
  unfold text_max. destruct (text_leb a b) eqn:Hle.
  - apply text_leb_days in Hle. lia.
  - destruct (text_leb_total a b) as [?|Hle']; [congruence|].
    apply text_leb_days in Hle'. lia.
Qed.

Lemma day_text_min a b : day (text_min a b) = Z.min (day a) (day b).
Proof.
  unfold text_min. destruct (text_leb a b) eqn:Hle.
  - apply text_leb_days in Hle. lia.
  - destruct (text_leb_total a b) as [?|Hle']; [congruence|].
    apply text_leb_days in Hle'. lia.
Qed.

Lemma day_foldl_text_max (ts : list date_text) : forall t,
  day (foldl text_max t ts) = foldl Z.max (day t) (day <$> ts).
Proof.
  induction ts as [|x ts IH]; intros t; simpl; [done|].
  by rewrite IH, day_text_max.
Qed.

Lemma day_foldl_text_min (ts : list date_text) : forall t,
  day (foldl text_min t ts) = foldl Z.min (day t) (day <$> ts).
Proof.
  induction ts as [|x ts IH]; intros t; simpl; [done|].
  by rewrite IH, day_text_min.
Qed.

End database_facts.

Section database_claims.

Import Database.

(** C2.  Saving the identical bar set a second time leaves the database as
    the first save left it: the same rows with the same values, no second
    row for any (symbol, date), the same row count.  (The second INSERT
    violates [UNIQUE(symbol, date)]; the call raises and nothing is
    stored, see [save_price_data_again_raises].) *)
Theorem save_price_data_idempotent clk clk' symbol dates df s :
  let s1 := (save_price_data clk symbol dates df s).2 in
  let s2 := (save_price_data clk' symbol dates df s1).2 in
  s2 = s1 /\
  price_keys (price_data s2) = price_keys (price_data s1) /\
  Py.len (price_data s2) = Py.len (price_data s1).
Proof.
  intros s1 s2.
  assert (s2 = s1) as ->; [|done].
  subst s1 s2. unfold save_price_data.
  destruct df as [|b rest] eqn:Hdf; [done|]. rewrite <- Hdf.
  assert (df <> []) as Hne by (rewrite Hdf; discriminate).
  assert (Pd.empty df = false) as -> by by subst.
  destruct (to_sql_append _ _ _ _ (price_data s) _) as [[tbl seq]|] eqn:Happ.
  - destruct dates; simpl;
      by rewrite (to_sql_append_again _ (current_timestamp clk') _ _ _ _ _ _ _
                    Hne Happ).
  - simpl.
    by rewrite (to_sql_append_fails_alike _ (current_timestamp clk') _ _ _ _ _ _ _
                  eq_refl Happ).
Qed.

(** C3, as amended.  After a successful save of a batch that is not
    empty, the [cache_metadata] row of the symbol holds the time of the
    call, the maximum date of the batch and the number of bars of the
    batch; this describes everything stored for the symbol when nothing
    was stored for it before. *)
Theorem save_price_data_freshness clk symbol dates df s s' :
  df <> [] ->
  save_price_data clk symbol dates df s = (Returned (), s') ->
  cache_metadata s' !! symbol
  = Some (CacheRow (now clk) (max_date df) (Py.len df)) /\
  (rows_of symbol s = [] -> Spec.freshness_matches_store symbol s').
Proof.
  intros Hne. unfold save_price_data.
  destruct df as [|b rest] eqn:Hdf; [done|]. rewrite <- Hdf.
  assert (Pd.empty df = false) as -> by by subst.
  destruct (to_sql_append _ _ _ _ _ _) as [[tbl seq]|] eqn:Happ; [|done].
  destruct dates; [done|].
  intros [= <-]. simpl. split; [apply lookup_insert_eq|].
  intros Hnone. eexists. split; [apply lookup_insert_eq|]. simpl.
  apply to_sql_append_rows in Happ as (new & -> & Hsym & Hdates).
  unfold min_max_date, rows_of in *. simpl.
  rewrite List.filter_app, Hnone, (filter_symbol_all _ _ Hsym). simpl.
  rewrite Hdates. split.
  - subst df. simpl. rewrite day_foldl_text_max. simpl.
    rewrite <- list_fmap_compose. simpl. by rewrite max_date_foldl.
  - unfold Py.len. by rewrite <- (length_fmap pr_date new), Hdates, length_fmap.
Qed.

Lemma save_price_data_freshness_witness :
  cache_metadata
    (save_price_data Scenarios.day_100 "X" Timestamps (Scenarios.daily_bars 5 1)
       Scenarios.cached_10_11).2 !! "X"
  = Some (CacheRow (Datetime 100 500) (Some 5) 1).
Proof.
  apply (save_price_data_freshness Scenarios.day_100 "X" Timestamps
           (Scenarios.daily_bars 5 1) Scenarios.cached_10_11).
  - discriminate.
  - vm_compute. reflexivity.
Defined.

(** C3, as stated, fails: with days 10 and 11 stored, saving day 5 succeeds
    and leaves a record with last date 5 and count 1, while three bars are
    stored and the latest is day 11. *)
Lemma freshness_describes_last_batch :
  (save_price_data Scenarios.day_100 "X" Timestamps (Scenarios.daily_bars 5 1)
     Scenarios.cached_10_11).1 = Returned () /\
  ~ Spec.freshness_matches_store "X"
      (save_price_data Scenarios.day_100 "X" Timestamps (Scenarios.daily_bars 5 1)
         Scenarios.cached_10_11).2.
Proof.
  split; [vm_compute; reflexivity|].
  intros (m & Hm & _ & Hcount).
  vm_compute in Hm. injection Hm as <-.
  vm_compute in Hcount. discriminate.
Qed.

End database_claims.

(** ** The cache coordinator *)

Section gap_facts.

Import Database.

Lemma foldl_min_le (ds : list Z) : forall d, foldl Z.min d ds <= d.
Proof.
  induction ds as [|x ds IH]; intros d; simpl; [lia|].
  specialize (IH (Z.min d x)). lia.
Qed.

Lemma foldl_max_ge (ds : list Z) : forall d, d <= foldl Z.max d ds.
Proof.
  induction ds as [|x ds IH]; intros d; simpl; [lia|].
  specialize (IH (Z.max d x)). lia.
Qed.

(** The cached coverage is a range: its start is not after its end. *)
Lemma min_max_date_ordered symbol s min_date max_date :
  min_max_date symbol s = Some (min_date, max_date) ->
  day min_date <= day max_date.
Proof.
  unfold min_max_date. destruct (pr_date <$> rows_of symbol s) as [|t ts]; [done|].
  intros [= <- <-]. rewrite day_foldl_text_min, day_foldl_text_max.
  pose proof (foldl_min_le (day <$> ts) (day t)).
  pose proof (foldl_max_ge (day <$> ts) (day t)). lia.
Qed.

(** A text with a time part is not parsed. *)
Lemma strptime_Returned t d :
  strptime t = Returned d <-> t = date_param d.
Proof.
  unfold strptime, date_param. destruct t as [d' []]; simpl; split; try done.
  - by intros [= ->].
  - by intros [= ->].
Qed.

(** [get_missing_date_range] raises when the first or the last date of
    the symbol is stored with a time part, and only then. *)
Lemma get_missing_date_range_raises symbol required_start required_end s e :
  get_missing_date_range symbol required_start required_end s = Raised e
  <-> e = ValueError /\
      exists min_date max_date,
        min_max_date symbol s = Some (min_date, max_date) /\
        (time_part min_date = true \/ time_part max_date = true).
Proof.
  unfold get_missing_date_range, strptime.
  destruct (min_max_date symbol s) as [[min_date max_date]|].
  - destruct (time_part min_date) eqn:Hmin.
    { split; [intros [= <-]; by eauto 6|by intros [-> _]]. }
    destruct (time_part max_date) eqn:Hmax.
    { split; [intros [= <-]; by eauto 6|by intros [-> _]]. }
    split.
    + by destruct (_ && _).
    + intros (_ & ? & ? & [= <- <-] & [?|?]); congruence.
  - split; [done|]. by intros (_ & ? & ? & ? & _).
Qed.

Section ranges.

Context (symbol : string) (required_start required_end : datetime) (s : db).
Context (cached_start cached_end : Z).
Hypothesis Hcached :
  min_max_date symbol s = Some (date_param cached_start, date_param cached_end).

(** The cache contains the window: nothing to fetch. *)
Lemma get_missing_date_range_satisfied :
  cached_start <= dt_date required_start -> dt_date required_end <= cached_end ->
  get_missing_date_range symbol required_start required_end s = Returned None.
Proof.
  intros H1 H2. unfold get_missing_date_range. rewrite Hcached. simpl.
  destruct (Z.leb_spec cached_start (dt_date required_start)); [|lia].
  destruct (Z.leb_spec (dt_date required_end) cached_end); [done|lia].
Qed.

(** Only the trailing edge is missing. *)
Lemma get_missing_date_range_trailing :
  cached_start <= dt_date required_start -> cached_end < dt_date required_end ->
  get_missing_date_range symbol required_start required_end s
  = Returned (Some (Time.at_midnight (cached_end + 1), required_end)).
Proof.
  intros H1 H2. unfold get_missing_date_range. rewrite Hcached. simpl.
  destruct (Z.leb_spec (dt_date required_end) cached_end); [lia|].
  rewrite andb_false_r.
  destruct (Z.ltb_spec cached_end (dt_date required_end)); [|lia].
  destruct (Z.ltb_spec (dt_date required_start) cached_start); [lia|done].
Qed.

(** Only the leading edge is missing. *)
Lemma get_missing_date_range_leading :
  dt_date required_start < cached_start -> dt_date required_end <= cached_end ->
  get_missing_date_range symbol required_start required_end s
  = Returned (Some (required_start, Time.at_midnight (cached_start - 1))).
Proof.
  intros H1 H2. unfold get_missing_date_range. rewrite Hcached. simpl.
  destruct (Z.leb_spec cached_start (dt_date required_start)); [lia|]. simpl.
  destruct (Z.ltb_spec cached_end (dt_date required_end)); [lia|].
  destruct (Z.ltb_spec (dt_date required_start) cached_start); [done|lia].
Qed.

(** Both edges are missing: the two assignments combine into one range
    that starts after the cache and ends before it. *)
Lemma get_missing_date_range_both :
  dt_date required_start < cached_start -> cached_end < dt_date required_end ->
  get_missing_date_range symbol required_start required_end s
  = Returned (Some (Time.at_midnight (cached_end + 1),
                    Time.at_midnight (cached_start - 1)))
  /\ cached_start - 1 < cached_end + 1.
Proof.
  intros H1 H2. pose proof (min_max_date_ordered _ _ _ _ Hcached) as Hle.
  simpl in Hle.
  split; [|lia]. unfold get_missing_date_range. rewrite Hcached. simpl.
  destruct (Z.leb_spec cached_start (dt_date required_start)); [lia|]. simpl.
  destruct (Z.ltb_spec cached_end (dt_date required_end)); [|lia].
  destruct (Z.ltb_spec (dt_date required_start) cached_start); [done|lia].
Qed.

End ranges.

(** The bars a read returns are the rows the window test selects. *)
Lemma get_cached_price_data_rows symbol start_date end_date s :
  Views.frame (get_cached_price_data symbol start_date end_date s)
  ≡ₚ row_bar <$> List.filter (in_range start_date end_date) (rows_of symbol s).
Proof.
  unfold get_cached_price_data.
  destruct (Pd.empty _) eqn:Hempty; simpl.
  - apply empty_true in Hempty. rewrite <- Hempty.
    by rewrite merge_sort_Permutation.
  - by rewrite merge_sort_Permutation.
Qed.

(** The number of bars a read of the required window returns. *)
Lemma get_cached_price_data_count now_ symbol s :
  Py.len (Views.frame
            (get_cached_price_data symbol (Time.minus_days now_ Settings.HIST_DAYS)
               now_ s))
  = Spec.cached_bar_count now_ symbol s.
Proof.
  unfold Spec.cached_bar_count, Py.len. simpl.
  rewrite get_cached_price_data_rows, length_fmap.
  rewrite (List.filter_ext _ _ (in_range_spec _ _)). done.
Qed.

End gap_facts.

Section cache_claims.

Import Database CacheManager.

(** C1, on the code.  With days 10 to 40 cached and days 1 to 50
    required, [get_missing_date_range] does not return the two gaps, day 1
    to day 9 and day 41 to day 50: it returns the single range from day 41
    to day 9, which starts after it ends and lies in neither gap. *)
Theorem scenario_D_single_range :
  min_max_date "X" Scenarios.cached_10_40 = Some (date_param 10, date_param 40) /\
  get_missing_date_range "X" (Datetime 1 0) (Datetime 50 0) Scenarios.cached_10_40
  = Returned (Some (Time.at_midnight 41, Time.at_midnight 9)) /\
  Views.ranges
    (get_missing_date_range "X" (Datetime 1 0) (Datetime 50 0) Scenarios.cached_10_40)
  <> Spec.two_gaps 10 40 (Datetime 1 0) (Datetime 50 0).
Proof.
  split; [vm_compute; reflexivity|].
  split; [vm_compute; reflexivity|].
  vm_compute. discriminate.
Qed.

(** C9, as amended.  For an instrument whose cache is fresh, a fetch is
    required exactly when the sufficiency check counts fewer than 20 bars
    for the required window, a constant that does not depend on the
    indicator windows.  The check counts the bars stored for the window,
    but for a bar dated on its last day whose date is stored with a time
    part. *)
Theorem should_fetch_data_fresh now_ symbol s :
  is_data_fresh now_ symbol s = true ->
  should_fetch_data now_ symbol s = true
  <-> Spec.cached_bar_count now_ symbol s < 20.
Proof.
  intros Hfresh. rewrite <- get_cached_price_data_count.
  unfold should_fetch_data. rewrite Hfresh. simpl.
  destruct (get_cached_price_data _ _ _ _) as [cached_data|]; simpl;
    [|split; [unfold Py.len; simpl; lia|done]].
  destruct (Z.ltb_spec (Py.len cached_data) 20); split; (done || lia).
Qed.

Lemma should_fetch_data_fresh_witness :
  should_fetch_data (Datetime 100 900) "X" Scenarios.cached_25 = true
  <-> Spec.cached_bar_count (Datetime 100 900) "X" Scenarios.cached_25 < 20.
Proof.
  apply (should_fetch_data_fresh (Datetime 100 900) "X" Scenarios.cached_25).
  vm_compute. reflexivity.
Defined.

(** C9, as stated, fails: a fresh cache of seventeen bars, sixteen of
    which the check counts, covers both windows of fourteen plus one, and
    a fetch is required all the same. *)
Lemma seventeen_bars_are_fetched :
  is_data_fresh (Datetime 100 900) "X" Scenarios.cached_17 = true /\
  Spec.stored_bar_count (Datetime 100 900) "X" Scenarios.cached_17 = 17 /\
  Spec.cached_bar_count (Datetime 100 900) "X" Scenarios.cached_17 = 16 /\
  Spec.sufficiency_threshold = 15 /\
  should_fetch_data (Datetime 100 900) "X" Scenarios.cached_17 = true /\
  ~ (should_fetch_data (Datetime 100 900) "X" Scenarios.cached_17 = true
     <-> Spec.stored_bar_count (Datetime 100 900) "X" Scenarios.cached_17
         < Spec.sufficiency_threshold) /\
  ~ (should_fetch_data (Datetime 100 900) "X" Scenarios.cached_17 = true
     <-> Spec.cached_bar_count (Datetime 100 900) "X" Scenarios.cached_17
         < Spec.sufficiency_threshold).
Proof.
  assert (Spec.stored_bar_count (Datetime 100 900) "X" Scenarios.cached_17 = 17)
    as Hstored by (vm_compute; reflexivity).
  assert (Spec.cached_bar_count (Datetime 100 900) "X" Scenarios.cached_17 = 16)
    as Hcount by (vm_compute; reflexivity).
  assert (should_fetch_data (Datetime 100 900) "X" Scenarios.cached_17 = true)
    as Hfetch by (vm_compute; reflexivity).
  split; [vm_compute; reflexivity|].
  split; [exact Hstored|]. split; [exact Hcount|]. split; [reflexivity|].
  split; [exact Hfetch|]. split.
  - rewrite Hstored. intros [H _]. specialize (H Hfetch).
    vm_compute in H. discriminate.
  - rewrite Hcount. intros [H _]. specialize (H Hfetch).
    vm_compute in H. discriminate.
Qed.

End cache_claims.

(** ** The scan of one instrument *)

Section scan_facts.

Import Scanner.

Context {W : Type}.

Lemma raises_Exceptions_ret {A} (a : A) : Spec.raises_Exceptions (@ret W A a).
Proof. intros w e w'. unfold ret. congruence. Qed.

Lemma raises_Exceptions_lift {A} (o : outcome A) :
  Spec.raises_Exceptions_pure o -> Spec.raises_Exceptions (@lift W A o).
Proof. intros Ho w e w' [= -> _]. by apply Ho. Qed.

Lemma raises_Exceptions_bind {A B} (m : M W A) (k : A -> M W B) :
  Spec.raises_Exceptions m -> (forall a, Spec.raises_Exceptions (k a)) ->
  Spec.raises_Exceptions (bind m k).
Proof.
  intros Hm Hk w e w'. unfold bind.
  destruct (m w) as [[a|e0] w0] eqn:Hmw.
  - apply Hk.
  - intros [= <- _]. by eapply Hm.
Qed.

Lemma py_float_raises x : Spec.raises_Exceptions_pure (py_float x).
Proof. intros e. destruct x; simpl; [done|]. by intros [= <-]. Qed.

Lemma compute_indicators_raises (self : collaborators W) df :
  Spec.failures_are_Exceptions self ->
  Spec.raises_Exceptions_pure
    (Indicators.compute_indicators (ta_rsi self) (ta_atr self) df).
Proof.
  intros Hself e. unfold Indicators.compute_indicators.
  destruct (Pd.empty df || _); [done|].
  destruct (ta_rsi self _ _) as [rsi_series|e1] eqn:Hrsi.
  - destruct (ta_atr self _ _ _ _) as [atr_series|e2] eqn:Hatr; [done|].
    intros [= <-]. by eapply (Spec.ta_atr_fails self Hself).
  - intros [= <-]. by eapply (Spec.ta_rsi_fails self Hself).
Qed.

(** Whatever the [try] block of [scan_symbol] raises was raised by a
    collaborator or by [float(None)]: it is an [Exception]. *)
Lemma scan_body_raises (self : collaborators W) symbol_ :
  Spec.failures_are_Exceptions self ->
  Spec.raises_Exceptions (scan_body self symbol_).
Proof.
  intros Hself. unfold scan_body.
  apply raises_Exceptions_bind; [apply (Spec.get_historical_data_fails self Hself)|].
  intros df. destruct (Pd.empty df || _); [apply raises_Exceptions_ret|].
  apply raises_Exceptions_bind.
  { apply raises_Exceptions_lift. by apply compute_indicators_raises. }
  intros [[rsi_series atr_series] [latest_rsi_ latest_atr_]].
  destruct rsi_series as [rsi_series|], latest_rsi_ as [latest_rsi_|];
    try apply raises_Exceptions_ret.
  apply raises_Exceptions_bind; [apply (Spec.save_indicators_fails self Hself)|].
  intros _. destruct (Indicators.check_rsi_extremes _ _ _ _) as [[[hh hl] mx] mn].
  apply raises_Exceptions_bind.
  { apply raises_Exceptions_lift, py_float_raises. }
  intros latest_atr_f.
  apply raises_Exceptions_bind; [apply (Spec.should_fetch_data_fails self Hself)|].
  intros fetch.
  apply raises_Exceptions_bind; [apply (Spec.save_scan_result_fails self Hself)|].
  intros _. apply raises_Exceptions_ret.
Qed.

(** [scan_symbol] returns what its body returns, and the handler's result
    when the body raises an [Exception]. *)
Lemma scan_symbol_outcome (self : collaborators W) symbol_ w :
  scan_symbol self symbol_ w
  = match scan_body self symbol_ w with
    | (Returned r, w') => (Returned r, w')
    | (Raised e, w') =>
      if is_Exception e
      then (Returned (blank_result symbol_ ("error:" +:+ str e)), w')
      else (Raised e, w')
    end.
Proof. reflexivity. Qed.

End scan_facts.

Section scan_claims.

Import Scanner.

(** C8.  When the failures of the collaborators are instances of
    [Exception], [scan_symbol] never raises: it returns a result, and when
    its body fails the result carries the failure in its status, as
    ["error:"] followed by the message.  The loop over the tickers
    therefore runs to its end, with one result for each ticker. *)
Theorem scan_symbol_isolates_failures {W} (self : collaborators W) :
  Spec.failures_are_Exceptions self ->
  (forall symbol_ w, exists r w',
     scan_symbol self symbol_ w = (Returned r, w') /\
     forall e w1, scan_body self symbol_ w = (Raised e, w1) ->
       r = blank_result symbol_ ("error:" +:+ str e) /\ w' = w1) /\
  (forall tickers w, exists results w',
     scan_all self tickers w = (Returned results, w') /\
     length results = length tickers).
Proof.
  intros Hself.
  assert (forall symbol_ w, exists r w',
     scan_symbol self symbol_ w = (Returned r, w') /\
     forall e w1, scan_body self symbol_ w = (Raised e, w1) ->
       r = blank_result symbol_ ("error:" +:+ str e) /\ w' = w1) as Hone.
  { intros symbol_ w. rewrite scan_symbol_outcome.
    pose proof (scan_body_raises self symbol_ Hself w) as Hraise.
    destruct (scan_body self symbol_ w) as [[r|e] w0].
    - exists r, w0. split; [done|]. intros e w1 [=].
    - rewrite (Hraise e w0 eq_refl). eexists _, w0. split; [done|].
      by intros e' w1 [= <- <-]. }
  split; [exact Hone|].
  induction tickers as [|symbol_ rest IH]; intros w; simpl.
  - by exists [], w.
  - unfold bind. destruct (Hone symbol_ w) as (r & w1 & -> & _).
    destruct (IH w1) as (results & w2 & -> & Hlen).
    exists (r :: results), w2. split; [done|]. simpl. by rewrite Hlen.
Qed.

Lemma scan_symbol_isolates_failures_witness :
  scan_symbol Scenarios.disk_full "AAPL" []
  = (Returned (blank_result "AAPL" "error:database or disk is full"), ["indicators"])
  /\ exists results w',
       scan_all Scenarios.database_locked ["AAPL"; "MSFT"] [] = (Returned results, w') /\
       length results = 2%nat.
Proof.
  split.
  - destruct (scan_symbol_isolates_failures Scenarios.disk_full) as [Hone _].
    + constructor; intros; intros ?; intros; simplify_eq/=; done.
    + destruct (Hone "AAPL" []) as (r & w' & -> & Hfail).
      destruct (Hfail (Exception "OperationalError" "database or disk is full")
                  ["indicators"]) as [-> ->]; [vm_compute; reflexivity|].
      reflexivity.
  - destruct (scan_symbol_isolates_failures Scenarios.database_locked) as [_ Hall].
    + constructor; intros; intros ?; intros; simplify_eq/=; done.
    + exact (Hall ["AAPL"; "MSFT"] []).
Defined.

End scan_claims.

(** ** Further properties of the store *)

Section store_properties.

Import Database.

Implicit Types tbl : list price_row.

Lemma text_of_inj dates d d' : text_of dates d = text_of dates d' -> d = d'.
Proof. destruct dates; by intros [= ->]. Qed.

Lemma day_text_of dates d : day (text_of dates d) = d.
Proof. by destruct dates. Qed.

(** An append goes through exactly when the batch is insertable. *)
Lemma to_sql_append_is_Some ts symbol dates df : forall tbl seq,
  is_Some (to_sql_append ts symbol dates df tbl seq)
  <-> Views.insertable symbol dates df tbl.
Proof.
  unfold Views.insertable.
  induction df as [|b rest IH]; intros tbl seq; simpl.
  - split; [|by eauto]. intros _. split; [constructor|]. intros b Hb. inversion Hb.
  - destruct (existsb _ tbl) eqn:Hex.
    + split; [by intros [? [=]]|]. intros [_ Hfree].
      apply existsb_same_key in Hex. destruct (Hfree b); [left|done].
    + rewrite IH. unfold price_keys. rewrite fmap_app, fmap_cons. simpl.
      assert ((symbol, text_of dates (date b)) ∉ price_keys tbl) as Hb.
      { intros Hin%existsb_same_key. congruence. }
      rewrite NoDup_cons. split.
      * intros [Hnd Hfree]. split; [split; [|done]|].
        -- intros (b' & Hd & Hb')%list_elem_of_fmap.
           apply (Hfree b' Hb'). apply elem_of_app. right.
           rewrite Hd. apply list_elem_of_here.
        -- intros b' [->|Hb']%elem_of_cons; [done|].
           intros Hin. apply (Hfree b' Hb'). apply elem_of_app. by left.
      * intros [[Hnb Hnd] Hfree]. split; [done|].
        intros b' Hb' [Hin|Hin]%elem_of_app.
        -- apply (Hfree b'); [by right|done].
        -- apply list_elem_of_singleton in Hin. injection Hin as Hd.
           apply text_of_inj in Hd.
           apply Hnb. rewrite <- Hd. by apply list_elem_of_fmap_2.
Qed.

(** The rows a successful append adds carry the bars as they were given,
    each under the date text of the frame. *)
Lemma to_sql_append_bars ts symbol dates df : forall tbl seq tbl' seq',
  to_sql_append ts symbol dates df tbl seq = Some (tbl', seq') ->
  exists new,
    tbl' = tbl ++ new /\
    Forall (fun r => pr_symbol r = symbol) new /\
    row_bar <$> new = df /\
    Forall (fun r => pr_date r = text_of dates (day (pr_date r))) new.
Proof.
  induction df as [|b rest IH]; intros tbl seq tbl' seq'; simpl.
  - intros [= <- <-]. exists []. by rewrite app_nil_r.
  - destruct (existsb _ tbl); [done|].
    intros (new & -> & Hsym & Hbars & Htexts)%IH.
    eexists (_ :: new). rewrite <- app_assoc. split; [done|].
    split; [by constructor|]. split.
    + rewrite fmap_cons, Hbars. unfold row_bar. simpl.
      rewrite day_text_of. by destruct b.
    + constructor; [|done]. simpl. by rewrite day_text_of.
Qed.

(** What a save that does not fail on the constraint stores. *)
Lemma save_price_data_stores clk symbol dates df s o s' :
  save_price_data clk symbol dates df s = (o, s') ->
  o <> Raised IntegrityError ->
  exists new,
    price_data s' = price_data s ++ new /\
    Forall (fun r => pr_symbol r = symbol) new /\
    row_bar <$> new = df /\
    Forall (fun r => pr_date r = text_of dates (day (pr_date r))) new.
Proof.
  unfold save_price_data. destruct (Pd.empty df) eqn:Hempty.
  - intros [= <- <-] _. apply empty_true in Hempty as ->. exists [].
    by rewrite app_nil_r.
  - destruct (to_sql_append _ _ _ _ _ _) as [[tbl seq]|] eqn:Happ;
      [|by intros [= <- _]].
    pose proof (to_sql_append_bars _ _ _ _ _ _ _ _ Happ) as Hnew.
    destruct dates; intros [= <- <-] _; exact Hnew.
Qed.

(** A save that fails on the constraint stores nothing. *)
Lemma save_price_data_IntegrityError clk symbol dates df s s' :
  save_price_data clk symbol dates df s = (Raised IntegrityError, s') -> s' = s.
Proof.
  unfold save_price_data. destruct (Pd.empty df); [done|].
  destruct (to_sql_append _ _ _ _ _ _) as [[tbl seq]|]; [|by intros [= <-]].
  by destruct dates.
Qed.

(** What a save raises. *)
Lemma save_price_data_Raised clk symbol dates df s e s' :
  save_price_data clk symbol dates df s = (Raised e, s') ->
  e = IntegrityError \/ (e = AttributeError /\ dates = Dates).
Proof.
  unfold save_price_data. destruct (Pd.empty df); [done|].
  destruct (to_sql_append _ _ _ _ _ _) as [[tbl seq]|]; [|intros [= <- _]; by left].
  destruct dates; [|done]. intros [= <- _]. by right.
Qed.

Lemma save_price_data_metadata clk symbol dates df s s' :
  df <> [] ->
  save_price_data clk symbol dates df s = (Returned (), s') ->
  cache_metadata s' !! symbol
  = Some (CacheRow (now clk) (max_date df) (Py.len df)).
Proof.
  intros Hne. unfold save_price_data.
  destruct df as [|b rest] eqn:Hdf; [done|]. rewrite <- Hdf.
  assert (Pd.empty df = false) as -> by by subst.
  destruct (to_sql_append _ _ _ _ _ _) as [[tbl seq]|]; [|done].
  destruct dates; [done|].
  intros [= <-]. simpl. apply lookup_insert_eq.
Qed.

Lemma filter_symbol_none symbol symbol' (new : list price_row) :
  symbol <> symbol' ->
  Forall (fun r => pr_symbol r = symbol) new ->
  List.filter (fun r => bool_decide (pr_symbol r = symbol')) new = [].
Proof.
  intros Hne. induction 1 as [|r new Hr _ IH]; simpl; [done|].
  rewrite bool_decide_eq_false_2; [done|congruence].
Qed.

(** The window test on the rows of a batch is the window test on its bars. *)
Lemma filter_in_window dates start_date end_date (new : list price_row) :
  Forall (fun r => pr_date r = text_of dates (day (pr_date r))) new ->
  row_bar <$> List.filter (in_range start_date end_date) new
  = List.filter (Views.in_window dates start_date end_date) (row_bar <$> new).
Proof.
  induction 1 as [|r new Hr _ IH]; [done|].
  rewrite fmap_cons. cbn [List.filter]. rewrite <- IH.
  unfold Views.in_window at 1, in_range at 1. cbn [row_bar date].
  rewrite <- Hr. by destruct (_ && _).
Qed.

(** On a bar the window test reads: from the first day of the window to
    its last day, which a frame of timestamps does not reach. *)
Lemma in_window_spec dates start_date end_date b :
  Views.in_window dates start_date end_date b
  = (dt_date start_date <=? date b)
    && match dates with
       | Timestamps => date b <? dt_date end_date
       | Dates => date b <=? dt_date end_date
       end.
Proof.
  pose proof (in_range_spec start_date end_date
                (PriceRow 0 "" (text_of dates (date b)) 0 0 0 0 0 (Datetime 0 0)))
    as Hspec.
  unfold in_range in Hspec. simpl in Hspec. unfold Views.in_window.
  rewrite Hspec, day_text_of. by destruct dates.
Qed.

#[global] Instance row_le_total : Total row_le.
Proof. intros a b. apply text_leb_total. Qed.

#[global] Instance row_le_trans : Transitive row_le.
Proof. intros a b c. apply text_leb_trans. Qed.

Lemma NoDup_fmap_filter {A B} (f : A -> B) (P : A -> bool) (l : list A) :
  NoDup (f <$> l) -> NoDup (f <$> List.filter P l).
Proof.
  induction l as [|x l IH]; [done|].
  rewrite fmap_cons, NoDup_cons. intros [Hx Hnd]. cbn [List.filter].
  destruct (P x); [|by apply IH]. rewrite fmap_cons. apply NoDup_cons.
  split; [|by apply IH].
  intros (y & Hy & Hin)%list_elem_of_fmap. apply Hx.
  apply list_elem_of_fmap. exists y. split; [done|].
  apply list_elem_of_In, filter_In in Hin as [Hin _]. by apply list_elem_of_In.
Qed.

(** Among the rows of one symbol, distinct (symbol, day) pairs are
    distinct days. *)
Lemma NoDup_days_of_symbol symbol s :
  NoDup (Views.day_keys (price_data s)) ->
  NoDup ((fun r => day (pr_date r)) <$> rows_of symbol s).
Proof.
  intros Hnd. unfold rows_of, Views.day_keys in *.
  apply (NoDup_fmap_filter _ (fun r => bool_decide (pr_symbol r = symbol))) in Hnd.
  assert (Forall (fun r => pr_symbol r = symbol)
            (List.filter (fun r => bool_decide (pr_symbol r = symbol)) (price_data s)))
    as Hsym.
  { apply Forall_forall. intros r [_ Hr%bool_decide_eq_true]%list_elem_of_In%filter_In.
    done. }
  induction Hsym as [|r l Hr Hl IH]; [constructor|].
  rewrite fmap_cons in *. apply NoDup_cons in Hnd as [Hx Hnd].
  apply NoDup_cons. split; [|by apply IH].
  intros (r' & Hd & Hin)%list_elem_of_fmap. apply Hx.
  apply list_elem_of_fmap. exists r'. split; [|done].
  rewrite Forall_forall in Hl. by rewrite Hr, (Hl r' Hin), Hd.
Qed.

(** Rows in the order of their texts, with distinct days, give bars with
    strictly ascending dates. *)
Lemma StronglySorted_date_lt (rows : list price_row) :
  StronglySorted row_le rows -> NoDup ((fun r => day (pr_date r)) <$> rows) ->
  StronglySorted Views.date_lt (row_bar <$> rows).
Proof.
  induction 1 as [|r rows Hsorted IH Hall]; [constructor|].
  rewrite fmap_cons, NoDup_cons. intros [Hr Hnd]. rewrite fmap_cons.
  constructor; [by apply IH|].
  rewrite Forall_fmap, Forall_forall in *. intros r' Hr'. specialize (Hall r' Hr').
  unfold Views.date_lt, row_le in *. simpl. apply text_leb_days in Hall.
  assert (day (pr_date r) <> day (pr_date r')); [|lia].
  intros Heq. apply Hr. rewrite Heq.
  by apply (list_elem_of_fmap_2 (fun r => day (pr_date r))).
Qed.

(** A read after a save whose rows were stored. *)
Lemma get_cached_price_data_after_save_frame clk symbol dates df s o s'
    start_date end_date :
  save_price_data clk symbol dates df s = (o, s') ->
  o <> Raised IntegrityError ->
  Views.frame (get_cached_price_data symbol start_date end_date s')
  ≡ₚ Views.frame (get_cached_price_data symbol start_date end_date s)
     ++ List.filter (Views.in_window dates start_date end_date) df.
Proof.
  intros Hsave Ho.
  destruct (save_price_data_stores _ _ _ _ _ _ _ Hsave Ho)
    as (new & Hnew & Hsym & Hbars & Htexts).
  rewrite !get_cached_price_data_rows. unfold rows_of. rewrite Hnew.
  rewrite List.filter_app, (filter_symbol_all _ _ Hsym), List.filter_app, fmap_app.
  by rewrite (filter_in_window dates _ _ new Htexts), Hbars.
Qed.

End store_properties.

Section store_extras.

Import Database.

(** X1.  What [save_price_data] does with a batch that is not empty.  When
    the batch violates [UNIQUE(symbol, date)] it raises [IntegrityError]
    and the database is as it was.  When it does not, the rows are stored
    after the rows that were there; for a frame of timestamps the call
    then returns with the freshness record written, for a frame of
    [datetime.date] it raises [AttributeError] and the rows stay with no
    freshness record written. *)
Theorem save_price_data_outcomes clk symbol dates df s :
  df <> [] ->
  (~ Views.insertable symbol dates df (price_data s) ->
   save_price_data clk symbol dates df s = (Raised IntegrityError, s)) /\
  (Views.insertable symbol dates df (price_data s) ->
   exists new,
     Forall (fun r => pr_symbol r = symbol) new /\
     row_bar <$> new = df /\
     Forall (fun r => pr_date r = text_of dates (day (pr_date r))) new /\
     price_data (save_price_data clk symbol dates df s).2 = price_data s ++ new /\
     (save_price_data clk symbol dates df s).1
     = match dates with
       | Timestamps => Returned ()
       | Dates => Raised AttributeError
       end /\
     cache_metadata (save_price_data clk symbol dates df s).2
     = match dates with
       | Timestamps =>
         <[symbol := CacheRow (now clk) (max_date df) (Py.len df)]> (cache_metadata s)
       | Dates => cache_metadata s
       end).
Proof.
  intros Hne. unfold save_price_data.
  assert (Pd.empty df = false) as -> by by destruct df.
  pose proof (to_sql_append_is_Some (current_timestamp clk) symbol dates df
                (price_data s) (price_seq s)) as Hsome.
  destruct (to_sql_append _ _ _ _ _ _) as [[tbl seq]|] eqn:Happ.
  - split; [intros Hnot; destruct Hnot; apply Hsome; by eauto|].
    intros _. apply to_sql_append_bars in Happ as (new & -> & Hsym & Hbars & Htexts).
    exists new. by destruct dates.
  - split; [done|]. intros [? [=]]%Hsome.
Qed.

Lemma save_price_data_outcomes_witness :
  (~ Views.insertable "X" Dates (Scenarios.daily_bars 71 30) (price_data empty_db) ->
   save_price_data Scenarios.day_100 "X" Dates (Scenarios.daily_bars 71 30) empty_db
   = (Raised IntegrityError, empty_db)) /\
  (Views.insertable "X" Dates (Scenarios.daily_bars 71 30) (price_data empty_db) ->
   exists new,
     Forall (fun r => pr_symbol r = "X") new /\
     row_bar <$> new = Scenarios.daily_bars 71 30 /\
     Forall (fun r => pr_date r = text_of Dates (day (pr_date r))) new /\
     price_data (save_price_data Scenarios.day_100 "X" Dates
                   (Scenarios.daily_bars 71 30) empty_db).2
     = price_data empty_db ++ new /\
     (save_price_data Scenarios.day_100 "X" Dates (Scenarios.daily_bars 71 30)
        empty_db).1 = Raised AttributeError /\
     cache_metadata (save_price_data Scenarios.day_100 "X" Dates
                       (Scenarios.daily_bars 71 30) empty_db).2
     = cache_metadata empty_db).
Proof.
  apply (save_price_data_outcomes Scenarios.day_100 "X" Dates
           (Scenarios.daily_bars 71 30) empty_db).
  discriminate.
Defined.

(** A successful save appends one row per bar after the rows that were
    there: stored rows are neither changed nor reordered, and each new row
    carries the symbol and the bar as submitted. *)
Theorem save_price_data_appends clk symbol dates df s s' :
  save_price_data clk symbol dates df s = (Returned (), s') ->
  exists new,
    price_data s' = price_data s ++ new /\
    Forall (fun r => pr_symbol r = symbol) new /\
    row_bar <$> new = df.
Proof.
  intros Hsave.
  destruct (save_price_data_stores _ _ _ _ _ _ _ Hsave)
    as (new & Hnew & Hsym & Hbars & _); [done|].
  by exists new.
Qed.

Lemma save_price_data_appends_witness :
  exists new,
    price_data (save_price_data Scenarios.day_100 "X" Timestamps
                  (Scenarios.daily_bars 5 1) Scenarios.cached_10_11).2
    = price_data Scenarios.cached_10_11 ++ new /\
    Forall (fun r => pr_symbol r = "X") new /\
    row_bar <$> new = Scenarios.daily_bars 5 1.
Proof.
  apply (save_price_data_appends Scenarios.day_100 "X" Timestamps).
  vm_compute. reflexivity.
Defined.

(** X2.  Whatever it does for its own symbol, [save_price_data] leaves the
    rows and the freshness record of every other symbol as they were. *)
Theorem save_price_data_other_symbol clk symbol symbol' dates df s :
  symbol <> symbol' ->
  rows_of symbol' (save_price_data clk symbol dates df s).2 = rows_of symbol' s /\
  cache_metadata (save_price_data clk symbol dates df s).2 !! symbol'
  = cache_metadata s !! symbol'.
Proof.
  intros Hne. unfold save_price_data. destruct (Pd.empty df); [done|].
  destruct (to_sql_append _ _ _ _ _ _) as [[tbl seq]|] eqn:Happ; [|done].
  apply to_sql_append_bars in Happ as (new & -> & Hsym & _).
  assert (rows_of symbol' (Db (price_data s ++ new) seq (cache_metadata s))
          = rows_of symbol' s) as Hrows.
  { unfold rows_of. simpl.
    by rewrite List.filter_app, (filter_symbol_none _ _ _ Hne Hsym), app_nil_r. }
  destruct dates; simpl; (split; [exact Hrows|]); [done|].
  by apply lookup_insert_ne.
Qed.

Lemma save_price_data_other_symbol_witness :
  rows_of "X" (save_price_data Scenarios.day_100 "Y" Timestamps
                 (Scenarios.daily_bars 5 3) Scenarios.cached_10_11).2
  = rows_of "X" Scenarios.cached_10_11 /\
  cache_metadata (save_price_data Scenarios.day_100 "Y" Timestamps
                    (Scenarios.daily_bars 5 3) Scenarios.cached_10_11).2 !! "X"
  = cache_metadata Scenarios.cached_10_11 !! "X".
Proof.
  apply (save_price_data_other_symbol Scenarios.day_100 "Y" "X"). discriminate.
Defined.

Lemma save_price_data_again_raises_witness :
  save_price_data Scenarios.day_100 "X" Dates (Scenarios.daily_bars 71 30)
    Scenarios.fetched_30
  = (Raised IntegrityError, Scenarios.fetched_30).
Proof.
  apply (save_price_data_again_raises Scenarios.day_100 Scenarios.day_100 "X"
           Dates (Scenarios.daily_bars 71 30) empty_db (Raised AttributeError)).
  - discriminate.
  - vm_compute. reflexivity.
  - discriminate.
Defined.

Lemma save_price_data_NoDup_witness :
  NoDup (price_keys (price_data
    (save_price_data Scenarios.day_100 "X" Timestamps (Scenarios.daily_bars 5 1)
       Scenarios.cached_10_11).2)).
Proof.
  apply (save_price_data_NoDup Scenarios.day_100 "X" Timestamps
           (Scenarios.daily_bars 5 1)).
  apply (bool_decide_unpack _). vm_compute. exact I.
Defined.

(** X4.  A read never yields an empty frame; what it yields is ordered by
    date, lies within the window asked for and, the (symbol, day) pairs of
    the table being distinct, has strictly increasing dates: one bar per
    day. *)
Theorem get_cached_price_data_ordered symbol start_date end_date s df :
  NoDup (Views.day_keys (price_data s)) ->
  get_cached_price_data symbol start_date end_date s = Some df ->
  df <> [] /\
  StronglySorted Views.date_lt df /\
  Forall (fun b => dt_date start_date <= date b <= dt_date end_date) df.
Proof.
  intros Hnd Hread.
  pose proof (get_cached_price_data_rows symbol start_date end_date s) as Hperm.
  rewrite Hread in Hperm. simpl in Hperm.
  unfold get_cached_price_data in Hread.
  destruct (Pd.empty (row_bar <$> merge_sort _ _)) eqn:Hempty; [done|].
  injection Hread as Hdf. split; [|split].
  - intros ->. by rewrite Hdf in Hempty.
  - rewrite <- Hdf. apply StronglySorted_date_lt.
    + apply StronglySorted_merge_sort; apply _.
    + rewrite merge_sort_Permutation. apply NoDup_fmap_filter.
      by apply (NoDup_days_of_symbol symbol) in Hnd.
  - rewrite Hperm. apply Forall_fmap, Forall_forall.
    intros r [_ Hr]%list_elem_of_In%filter_In.
    rewrite in_range_spec in Hr. simpl.
    apply andb_true_iff in Hr as [H1%Z.leb_le H2].
    destruct (time_part (pr_date r));
      [apply Z.ltb_lt in H2|apply Z.leb_le in H2]; lia.
Qed.

Lemma get_cached_price_data_ordered_witness :
  Scenarios.daily_bars 84 17 <> [] /\
  StronglySorted Views.date_lt (Scenarios.daily_bars 84 17) /\
  Forall (fun b => 70 <= date b <= 101) (Scenarios.daily_bars 84 17).
Proof.
  apply (get_cached_price_data_ordered "X" (Datetime 70 900) (Datetime 101 900)
           Scenarios.cached_17).
  - apply (bool_decide_unpack _). vm_compute. exact I.
  - vm_compute. reflexivity.
Defined.

(** X5.  Reading after a save whose rows were stored: the frame of a
    window holds what it held before together with the bars of the batch
    that pass the window test, each once.  The test of the window reaches
    from its first day to its last, but a bar of a frame of timestamps
    dated on the last day does not pass it. *)
Theorem get_cached_price_data_after_save clk symbol dates df s o s'
    start_date end_date :
  save_price_data clk symbol dates df s = (o, s') ->
  o <> Raised IntegrityError ->
  Views.frame (get_cached_price_data symbol start_date end_date s')
  ≡ₚ Views.frame (get_cached_price_data symbol start_date end_date s)
     ++ List.filter (Views.in_window dates start_date end_date) df /\
  forall b,
    Views.in_window dates start_date end_date b
    = (dt_date start_date <=? date b)
      && match dates with
         | Timestamps => date b <? dt_date end_date
         | Dates => date b <=? dt_date end_date
         end.
Proof.
  intros Hsave Ho. split; [|intros b; apply in_window_spec].
  destruct (save_price_data_stores _ _ _ _ _ _ _ Hsave Ho)
    as (new & Hnew & Hsym & Hbars & Htexts).
  rewrite !get_cached_price_data_rows. unfold rows_of. rewrite Hnew.
  rewrite List.filter_app, (filter_symbol_all _ _ Hsym), List.filter_app, fmap_app.
  by rewrite (filter_in_window dates _ _ new Htexts), Hbars.
Qed.

Lemma get_cached_price_data_after_save_witness :
  Views.frame (get_cached_price_data "X" (Datetime 1 0) (Datetime 5 0)
                 (save_price_data Scenarios.day_100 "X" Timestamps
                    (Scenarios.daily_bars 4 2) Scenarios.cached_10_11).2)
  ≡ₚ Views.frame (get_cached_price_data "X" (Datetime 1 0) (Datetime 5 0)
                    Scenarios.cached_10_11)
     ++ List.filter (Views.in_window Timestamps (Datetime 1 0) (Datetime 5 0))
          (Scenarios.daily_bars 4 2) /\
  forall b,
    Views.in_window Timestamps (Datetime 1 0) (Datetime 5 0) b
    = (1 <=? date b) && (date b <? 5).
Proof.
  apply (get_cached_price_data_after_save Scenarios.day_100 "X" Timestamps
           (Scenarios.daily_bars 4 2) Scenarios.cached_10_11 (Returned ())).
  - vm_compute. reflexivity.
  - discriminate.
Defined.

(** X6.  After a successful save of a batch that is not empty the symbol is
    fresh at the time of the call, and it stays fresh exactly as long as
    less than one whole day has gone by since. *)
Theorem is_data_fresh_after_save clk symbol dates df s s' t :
  df <> [] ->
  save_price_data clk symbol dates df s = (Returned (), s') ->
  is_data_fresh (now clk) symbol s' = true /\
  (is_data_fresh t symbol s' = true <-> Time.delta_days t (now clk) < 1).
Proof.
  intros Hne Hsave. unfold is_data_fresh.
  rewrite (save_price_data_metadata _ _ _ _ _ _ Hne Hsave). simpl.
  unfold Settings.MAX_CACHE_AGE_DAYS. split.
  - unfold Time.delta_days. rewrite Z.ltb_irrefl. apply Z.ltb_lt. lia.
  - apply Z.ltb_lt.
Qed.

Lemma is_data_fresh_after_save_witness :
  is_data_fresh (Datetime 100 500) "X" Scenarios.cached_17 = true /\
  (is_data_fresh (Datetime 101 499) "X" Scenarios.cached_17 = true
   <-> Time.delta_days (Datetime 101 499) (Datetime 100 500) < 1).
Proof.
  apply (is_data_fresh_after_save Scenarios.day_100 "X" Timestamps
           (Scenarios.daily_bars 84 17) empty_db).
  - discriminate.
  - vm_compute. reflexivity.
Defined.

End store_extras.

Section gap_extras.

Import Database.

(** X7.  [get_missing_date_range] asks for no fetch exactly when the first
    and the last date stored for the symbol are stored without a time
    part and span the required window.  It raises [ValueError], and
    nothing else, exactly when the symbol has rows and the first or the
    last of its dates is stored with a time part. *)
Theorem get_missing_date_range_None symbol required_start required_end s :
  (get_missing_date_range symbol required_start required_end s = Returned None
   <-> exists cached_start cached_end,
         min_max_date symbol s
         = Some (date_param cached_start, date_param cached_end) /\
         cached_start <= dt_date required_start /\
         dt_date required_end <= cached_end) /\
  (forall e,
     get_missing_date_range symbol required_start required_end s = Raised e
     <-> e = ValueError /\
         exists min_date max_date,
           min_max_date symbol s = Some (min_date, max_date) /\
           (time_part min_date = true \/ time_part max_date = true)).
Proof.
  split; [|intros e; apply get_missing_date_range_raises].
  unfold get_missing_date_range, strptime, date_param.
  destruct (min_max_date symbol s) as [[[cached_start t1] [cached_end t2]]|];
    simpl.
  - destruct t1; [split; [done|by intros (? & ? & [=] & _)]|].
    destruct t2; [split; [done|by intros (? & ? & [=] & _)]|].
    destruct (Z.leb_spec cached_start (dt_date required_start));
      destruct (Z.leb_spec (dt_date required_end) cached_end); simpl.
    + split; [eauto|done].
    + split; [done|]. intros (? & ? & [= <- <-] & ? & ?). lia.
    + split; [done|]. intros (? & ? & [= <- <-] & ? & ?). lia.
    + split; [done|]. intros (? & ? & [= <- <-] & ? & ?). lia.
  - split; [done|]. by intros (? & ? & ? & _).
Qed.

Lemma get_missing_date_range_trailing_witness :
  get_missing_date_range "X" (Datetime 20 0) (Datetime 50 0) Scenarios.cached_10_40
  = Returned (Some (Time.at_midnight 41, Datetime 50 0)).
Proof.
  apply (get_missing_date_range_trailing "X" (Datetime 20 0) (Datetime 50 0)
           Scenarios.cached_10_40 10 40).
  - vm_compute. reflexivity.
  - simpl. lia.
  - simpl. lia.
Defined.

Lemma get_missing_date_range_leading_witness :
  get_missing_date_range "X" (Datetime 1 0) (Datetime 30 0) Scenarios.cached_10_40
  = Returned (Some (Datetime 1 0, Time.at_midnight 9)).
Proof.
  apply (get_missing_date_range_leading "X" (Datetime 1 0) (Datetime 30 0)
           Scenarios.cached_10_40 10 40).
  - vm_compute. reflexivity.
  - simpl. lia.
  - simpl. lia.
Defined.



End gap_extras.

(** ** Further properties of the cache coordinator *)

Section cache_facts.

Import Database CacheManager.

(** A read that finds something finds something that is not empty. *)
Lemma get_cached_price_data_not_empty symbol start_date end_date s df :
  get_cached_price_data symbol start_date end_date s = Some df ->
  Pd.empty df = false.
Proof.
  unfold get_cached_price_data.
  destruct (Pd.empty (row_bar <$> merge_sort _ _)) eqn:Hempty; [done|].
  by intros [= <-].
Qed.

(** What [merge_new_data] does with a payload that is not empty. *)
Lemma merge_new_data_payload clk symbol dates new_data s :
  new_data <> [] ->
  merge_new_data clk symbol dates new_data s
  = match save_price_data clk symbol dates new_data s with
    | (Returned _, s') =>
      let '(start_date, end_date) :=
        get_required_data_range (now clk) Settings.HIST_DAYS in
      (Returned (default new_data
                   (get_cached_price_data symbol start_date end_date s')), s')
    | (Raised e, s') => (Raised e, s')
    end.
Proof.
  intros Hne. unfold merge_new_data.
  assert (Pd.empty new_data = false) as -> by by destruct new_data.
  simpl. destruct (save_price_data clk symbol dates new_data s) as [[[]|e] s'];
    [|done].
  simpl. by destruct (get_cached_price_data _ _ _ s').
Qed.

(** The fetch strategy raises what the gap computation raises. *)
Lemma get_fetch_strategy_raises now_ symbol s e :
  get_fetch_strategy now_ symbol s = Raised e
  <-> should_fetch_data now_ symbol s = true /\
      e = ValueError /\
      exists min_date max_date,
        min_max_date symbol s = Some (min_date, max_date) /\
        (time_part min_date = true \/ time_part max_date = true).
Proof.
  unfold get_fetch_strategy. destruct (should_fetch_data now_ symbol s); simpl.
  - rewrite get_missing_date_range_raises. tauto.
  - split; [done|]. by intros [? _].
Qed.

End cache_facts.

Section cache_extras.

Import Database CacheManager.

(** X9.  A symbol without a freshness record is always to be fetched; when
    no bar is stored for it either, the range to fetch is the whole required
    window, the thirty days up to now. *)
Theorem get_fetch_strategy_unknown_symbol now_ symbol s :
  cache_metadata s !! symbol = None ->
  should_fetch_data now_ symbol s = true /\
  (rows_of symbol s = [] ->
   get_fetch_strategy now_ symbol s
   = Returned (Some (Time.minus_days now_ 30, now_))).
Proof.
  intros Hnone.
  assert (should_fetch_data now_ symbol s = true) as Hfetch.
  { unfold should_fetch_data, is_data_fresh. by rewrite Hnone. }
  split; [done|]. intros Hrows.
  unfold get_fetch_strategy. rewrite Hfetch. simpl.
  unfold get_missing_date_range, min_max_date. by rewrite Hrows.
Qed.

Lemma get_fetch_strategy_unknown_symbol_witness :
  should_fetch_data (Datetime 100 900) "NEWSTOCK" empty_db = true /\
  (rows_of "NEWSTOCK" empty_db = [] ->
   get_fetch_strategy (Datetime 100 900) "NEWSTOCK" empty_db
   = Returned (Some (Time.minus_days (Datetime 100 900) 30, Datetime 100 900))).
Proof.
  apply (get_fetch_strategy_unknown_symbol (Datetime 100 900) "NEWSTOCK" empty_db).
  reflexivity.
Defined.

(** X10.  [get_fetch_strategy] asks for nothing in two cases only: the
    sufficiency check asks for no fetch, or the first and the last date
    stored for the symbol are stored without a time part and span the
    window, and then also when the cache is stale or short.  When the
    check asks for a fetch and the first or the last date of the symbol
    is stored with a time part, it raises [ValueError]; it raises in no
    other case. *)
Theorem get_fetch_strategy_None now_ symbol s :
  (get_fetch_strategy now_ symbol s = Returned None
   <-> should_fetch_data now_ symbol s = false
       \/ exists cached_start cached_end,
            min_max_date symbol s
            = Some (date_param cached_start, date_param cached_end) /\
            cached_start <= dt_date now_ - 30 /\ dt_date now_ <= cached_end) /\
  (forall e,
     get_fetch_strategy now_ symbol s = Raised e
     <-> should_fetch_data now_ symbol s = true /\
         e = ValueError /\
         exists min_date max_date,
           min_max_date symbol s = Some (min_date, max_date) /\
           (time_part min_date = true \/ time_part max_date = true)).
Proof.
  split; [|intros e; apply get_fetch_strategy_raises].
  unfold get_fetch_strategy.
  destruct (should_fetch_data now_ symbol s); simpl.
  - unfold get_missing_date_range, strptime, date_param.
    destruct (min_max_date symbol s) as [[[cached_start t1] [cached_end t2]]|];
      simpl.
    + destruct t1; [split; [done|by intros [|(? & ? & [=] & _)]]|].
      destruct t2; [split; [done|by intros [|(? & ? & [=] & _)]]|].
      unfold Settings.HIST_DAYS. simpl.
      destruct (Z.leb_spec cached_start (dt_date now_ - 30));
        destruct (Z.leb_spec (dt_date now_) cached_end); simpl.
      * split; [|done]. intros _. right. eauto.
      * split; [done|]. intros [|(? & ? & [= <- <-] & ? & ?)]; [done|lia].
      * split; [done|]. intros [|(? & ? & [= <- <-] & ? & ?)]; [done|lia].
      * split; [done|]. intros [|(? & ? & [= <- <-] & ? & ?)]; [done|lia].
    + split; [done|]. by intros [|(? & ? & ? & _)].
  - split; [by left|done].
Qed.

(** X11.  [merge_new_data] raises when the save of the payload raises:
    [IntegrityError] with the database as it was, or [AttributeError], for
    a payload of [datetime.date], with the rows of the payload stored.
    When it returns, the payload was empty or a frame of timestamps and its
    rows are stored; what it returns is the required window as read back
    from the store, and the payload itself only when that read finds
    nothing, none of the payload's bars passing the window test. *)
Theorem merge_new_data_reads_back clk symbol dates new_data s :
  let '(start_date, end_date) :=
    get_required_data_range (now clk) Settings.HIST_DAYS in
  match merge_new_data clk symbol dates new_data s with
  | (Raised e, s') =>
    (e = IntegrityError /\ s' = s) \/
    (e = AttributeError /\ dates = Dates /\
     save_price_data clk symbol dates new_data s = (Raised AttributeError, s'))
  | (Returned df, s') =>
    save_price_data clk symbol dates new_data s = (Returned (), s') /\
    (new_data = [] \/ dates = Timestamps) /\
    (get_cached_price_data symbol start_date end_date s' = Some df \/
     get_cached_price_data symbol start_date end_date s' = None /\
     df = new_data /\
     List.filter (Views.in_window dates start_date end_date) new_data = [])
  end.
Proof.
  simpl. destruct new_data as [|b rest] eqn:Hdf.
  - unfold merge_new_data. simpl.
    destruct (get_cached_price_data _ _ _ s) eqn:Hread; simpl;
      (split; [done|]; split; [by left|]; eauto).
  - rewrite <- Hdf. rewrite merge_new_data_payload by by subst.
    destruct (save_price_data clk symbol dates new_data s) as [[[]|e] s'] eqn:Hsave.
    + simpl. split; [done|]. split.
      { right. unfold save_price_data in Hsave.
        assert (Pd.empty new_data = false) as Hempty by by subst.
        rewrite Hempty in Hsave.
        destruct (to_sql_append _ _ _ _ _ _) as [[tbl seq]|]; [|done].
        by destruct dates. }
      destruct (get_cached_price_data _ _ _ s') as [df|] eqn:Hread; simpl; [by left|].
      right. split; [done|]. split; [done|].
      pose proof (get_cached_price_data_after_save_frame _ _ _ _ _ _ _
        (Time.minus_days (now clk) Settings.HIST_DAYS) (now clk) Hsave) as Hperm.
      rewrite Hread in Hperm. simpl in Hperm.
      specialize (Hperm ltac:(done)).
      symmetry in Hperm. apply Permutation_nil_r in Hperm.
      by apply app_eq_nil in Hperm as [_ ?].
    + destruct (save_price_data_Raised _ _ _ _ _ _ _ Hsave) as [->|[-> ->]].
      * left. split; [done|]. by eapply save_price_data_IntegrityError.
      * by right.
Qed.

End cache_extras.

(** ** The history of a symbol *)

Section history_facts.

Import Database CacheManager RSIScanner.

Variable reqHistoricalData : string -> Z -> outcome (date_column * list bar).

(** What the fetch strategy raises is raised by [get_historical_data]. *)
Lemma get_historical_data_strategy_raises clk symbol days s e :
  get_fetch_strategy (now clk) symbol s = Raised e ->
  get_historical_data reqHistoricalData clk symbol days s = (Raised e, s).
Proof. intros Hraise. unfold get_historical_data. by rewrite Hraise. Qed.

(** When the cache is used, what is returned is the cached window. *)
Lemma get_historical_data_cached clk symbol days s r :
  get_fetch_strategy (now clk) symbol s = Returned r ->
  get_historical_data reqHistoricalData clk symbol days s
  = (Returned (Views.frame (cached_window clk symbol days s)), s)
  \/ get_historical_data reqHistoricalData clk symbol days s
     = try_except (fetch reqHistoricalData clk symbol days)
         (fetch_failed clk symbol days) s.
Proof.
  intros Hrange. unfold get_historical_data. rewrite Hrange.
  destruct r; [by right|].
  destruct (cached_window clk symbol days s) as [cached_data|]; [|by right].
  destruct (negb (Pd.empty cached_data)); [by left|by right].
Qed.

Lemma fetch_failed_frame clk symbol days e s :
  fetch_failed clk symbol days e s
  = (Returned (Views.frame (cached_window clk symbol days s)), s).
Proof. unfold fetch_failed. by destruct (cached_window _ _ _ _). Qed.

(** A payload that is not insertable makes the save raise. *)
Lemma save_price_data_not_insertable clk symbol dates df s :
  df <> [] -> ~ Views.insertable symbol dates df (price_data s) ->
  save_price_data clk symbol dates df s = (Raised IntegrityError, s).
Proof.
  intros Hne Hnot. unfold save_price_data.
  assert (Pd.empty df = false) as -> by by destruct df.
  destruct (to_sql_append _ _ _ _ _ _) as [[tbl seq]|] eqn:Happ; [|done].
  destruct Hnot. eapply to_sql_append_is_Some. by rewrite Happ.
Qed.

(** One that is insertable is stored; the save then returns or, for a
    frame of [datetime.date], raises. *)
Lemma save_price_data_insertable clk symbol dates df s :
  df <> [] -> Views.insertable symbol dates df (price_data s) ->
  (save_price_data clk symbol dates df s).1
  = match dates with
    | Timestamps => Returned ()
    | Dates => Raised AttributeError
    end.
Proof.
  intros Hne Hok. unfold save_price_data.
  assert (Pd.empty df = false) as -> by by destruct df.
  apply (to_sql_append_is_Some (current_timestamp clk) _ _ _ _ (price_seq s)) in Hok
    as [[tbl seq] ->].
  by destruct dates.
Qed.

(** The outcome of the [try] block and its handler. *)
Lemma try_fetch_outcome clk symbol days s :
  try_except (fetch reqHistoricalData clk symbol days)
    (fetch_failed clk symbol days) s
  = match reqHistoricalData symbol days with
    | Raised e =>
      if is_Exception e
      then (Returned (Views.frame (cached_window clk symbol days s)), s)
      else (Raised e, s)
    | Returned (dates, bars) =>
      if Pd.empty bars then (Returned [], s) else
      match save_price_data clk symbol dates bars s with
      | (Returned _, s') =>
        (Returned (default bars
           (get_cached_price_data symbol
              (Time.minus_days (now clk) Settings.HIST_DAYS) (now clk) s')), s')
      | (Raised e, s') =>
        (Returned (Views.frame (cached_window clk symbol days s')), s')
      end
    end.
Proof.
  unfold try_except, fetch, bind, lift.
  destruct (reqHistoricalData symbol days) as [[dates bars]|e].
  - destruct (Pd.empty bars) eqn:Hempty; [done|].
    assert (bars <> []) as Hne by (by intros ->).
    rewrite merge_new_data_payload by done.
    destruct (save_price_data clk symbol dates bars s) as [[[]|e] s'] eqn:Hsave;
      [done|].
    assert (is_Exception e = true) as ->.
    { by destruct (save_price_data_Raised _ _ _ _ _ _ _ Hsave) as [->|[-> _]]. }
    apply fetch_failed_frame.
  - destruct (is_Exception e); [apply fetch_failed_frame|done].
Qed.

End history_facts.

Section history_extras.

Import Database CacheManager RSIScanner.

Variable reqHistoricalData : string -> Z -> outcome (date_column * list bar).

(** X12.  A fresh cache of which the sufficiency check counts twenty bars
    is returned as it is read, whatever the broker would answer, and
    nothing is written; the frame has the bars the check counts. *)
Theorem get_historical_data_cache_hit clk symbol s :
  is_data_fresh (now clk) symbol s = true ->
  20 <= Spec.cached_bar_count (now clk) symbol s ->
  exists cached_data,
    get_cached_price_data symbol (Time.minus_days (now clk) Settings.HIST_DAYS)
      (now clk) s = Some cached_data /\
    Py.len cached_data = Spec.cached_bar_count (now clk) symbol s /\
    get_historical_data reqHistoricalData clk symbol Settings.HIST_DAYS s
    = (Returned cached_data, s).
Proof.
  intros Hfresh Hcount. rewrite <- get_cached_price_data_count in Hcount |- *.
  destruct (get_cached_price_data _ _ _ s) as [cached_data|] eqn:Hread;
    [|simpl in Hcount; unfold Py.len in Hcount; simpl in Hcount; lia].
  simpl in Hcount. exists cached_data. split; [done|]. split; [done|].
  unfold get_historical_data, get_fetch_strategy, should_fetch_data, cached_window.
  rewrite Hfresh. simpl. rewrite Hread.
  destruct (Z.ltb_spec (Py.len cached_data) 20); [lia|]. simpl.
  by rewrite (get_cached_price_data_not_empty _ _ _ _ _ Hread).
Qed.

(** X13.  When the fetch strategy is found and the broker call fails with
    an [Exception], the caller gets the cached window, or an empty frame
    when there is none; nothing is raised and nothing is written. *)
Theorem get_historical_data_fallback clk symbol days s r e :
  get_fetch_strategy (now clk) symbol s = Returned r ->
  reqHistoricalData symbol days = Raised e -> is_Exception e = true ->
  get_historical_data reqHistoricalData clk symbol days s
  = (Returned (Views.frame (cached_window clk symbol days s)), s).
Proof.
  intros Hrange Hbroker He.
  destruct (get_historical_data_cached reqHistoricalData clk symbol days s r Hrange)
    as [->| ->]; [done|].
  by rewrite try_fetch_outcome, Hbroker, He.
Qed.

(** X14.  When the fetch strategy is found and the payload of the broker
    repeats a date, or holds a date that is already stored for the symbol
    in the same text form, none of its bars is stored: the save raises,
    the handler catches it, and the caller gets the window as cached
    before the call. *)
Theorem get_historical_data_overlap clk symbol days s r dates bars :
  get_fetch_strategy (now clk) symbol s = Returned r ->
  reqHistoricalData symbol days = Returned (dates, bars) -> bars <> [] ->
  ~ Views.insertable symbol dates bars (price_data s) ->
  get_historical_data reqHistoricalData clk symbol days s
  = (Returned (Views.frame (cached_window clk symbol days s)), s).
Proof.
  intros Hrange Hbroker Hne Hnot.
  destruct (get_historical_data_cached reqHistoricalData clk symbol days s r Hrange)
    as [->| ->]; [done|].
  rewrite try_fetch_outcome, Hbroker.
  assert (Pd.empty bars = false) as -> by by destruct bars.
  by rewrite (save_price_data_not_insertable _ _ _ _ _ Hne Hnot).
Qed.

(** X15.  A payload that is insertable, fetched because a range is
    missing, is stored whole.  For a payload of timestamps the save
    returns, and the caller gets the thirty-day window read back from the
    store (the payload itself if that read finds nothing).  For a payload
    of [datetime.date], as the broker's daily bars, the save raises
    [AttributeError] after the rows are stored: the handler catches it, the
    caller gets the window of the days asked for as read from the store,
    and no freshness record is written. *)
Theorem get_historical_data_stores clk symbol days s dates bars r :
  get_fetch_strategy (now clk) symbol s = Returned (Some r) ->
  reqHistoricalData symbol days = Returned (dates, bars) -> bars <> [] ->
  Views.insertable symbol dates bars (price_data s) ->
  let s' := (save_price_data clk symbol dates bars s).2 in
  get_historical_data reqHistoricalData clk symbol days s
  = (Returned
       match dates with
       | Timestamps =>
         default bars
           (get_cached_price_data symbol
              (Time.minus_days (now clk) Settings.HIST_DAYS) (now clk) s')
       | Dates => Views.frame (cached_window clk symbol days s')
       end, s') /\
  (save_price_data clk symbol dates bars s).1
  = match dates with
    | Timestamps => Returned ()
    | Dates => Raised AttributeError
    end /\
  (dates = Dates -> cache_metadata s' = cache_metadata s).
Proof.
  intros Hrange Hbroker Hne Hok s'.
  pose proof (save_price_data_insertable clk symbol dates bars s Hne Hok) as Hout.
  split; [|split; [done|]].
  - unfold get_historical_data. rewrite Hrange.
    rewrite try_fetch_outcome, Hbroker.
    assert (Pd.empty bars = false) as -> by by destruct bars.
    subst s'. destruct (save_price_data clk symbol dates bars s) as [o s1].
    simpl in *. subst o. by destruct dates.
  - intros ->. subst s'. unfold save_price_data.
    destruct (Pd.empty bars); [done|].
    by destruct (to_sql_append _ _ _ _ _ _) as [[tbl seq]|].
Qed.

(** X16.  When the broker fails with instances of [Exception] only,
    [get_historical_data] raises exactly what the fetch strategy raises,
    the [ValueError] of a date stored with a time part, and then nothing
    is written; in every other case it returns, and the database
    afterwards is the one before, or the one the save of the payload has
    left with the rows of the payload stored. *)
Theorem get_historical_data_returns clk symbol days s :
  (forall e, reqHistoricalData symbol days = Raised e -> is_Exception e = true) ->
  match get_historical_data reqHistoricalData clk symbol days s with
  | (Raised e, s') =>
    e = ValueError /\ s' = s /\
    get_fetch_strategy (now clk) symbol s = Raised ValueError
  | (Returned df, s') =>
    (exists r, get_fetch_strategy (now clk) symbol s = Returned r) /\
    (s' = s \/
     exists dates bars,
       reqHistoricalData symbol days = Returned (dates, bars) /\
       s' = (save_price_data clk symbol dates bars s).2 /\
       (save_price_data clk symbol dates bars s).1 <> Raised IntegrityError)
  end.
Proof.
  intros Hexn.
  destruct (get_fetch_strategy (now clk) symbol s) as [r|e] eqn:Hrange.
  - destruct (get_historical_data_cached reqHistoricalData clk symbol days s r Hrange)
      as [->| ->]; [by eauto|].
    rewrite try_fetch_outcome.
    destruct (reqHistoricalData symbol days) as [[dates bars]|e] eqn:Hbroker.
    + destruct (Pd.empty bars) eqn:Hempty; [by eauto|].
      destruct (save_price_data clk symbol dates bars s) as [[[]|e] s'] eqn:Hsave.
      * split; [by eauto|]. right. exists dates, bars. by rewrite Hsave.
      * split; [by eauto|].
        destruct (save_price_data_Raised _ _ _ _ _ _ _ Hsave) as [->|[-> ->]].
        -- left. by eapply save_price_data_IntegrityError.
        -- right. exists Dates, bars. by rewrite Hsave.
    + rewrite (Hexn e eq_refl). by eauto.
  - rewrite (get_historical_data_strategy_raises _ _ _ _ _ _ Hrange).
    apply get_fetch_strategy_raises in Hrange as (_ & -> & _). done.
Qed.

End history_extras.

Section history_witnesses.

Import Database CacheManager RSIScanner.

Lemma get_historical_data_cache_hit_witness :
  exists cached_data,
    get_cached_price_data "X" (Time.minus_days (Datetime 100 500) Settings.HIST_DAYS)
      (Datetime 100 500) Scenarios.cached_25 = Some cached_data /\
    Py.len cached_data = Spec.cached_bar_count (Datetime 100 500) "X" Scenarios.cached_25 /\
    get_historical_data Scenarios.broker_down Scenarios.day_100 "X" Settings.HIST_DAYS
      Scenarios.cached_25
    = (Returned cached_data, Scenarios.cached_25).
Proof.
  apply (get_historical_data_cache_hit Scenarios.broker_down Scenarios.day_100 "X"
           Scenarios.cached_25).
  - vm_compute. reflexivity.
  - vm_compute. discriminate.
Defined.

Lemma get_historical_data_fallback_witness :
  get_historical_data Scenarios.broker_down Scenarios.day_100 "X" 30
    Scenarios.fetched_30
  = (Returned (Views.frame (cached_window Scenarios.day_100 "X" 30 Scenarios.fetched_30)),
     Scenarios.fetched_30).
Proof.
  apply (get_historical_data_fallback Scenarios.broker_down Scenarios.day_100 "X" 30
           Scenarios.fetched_30
           (Some (Datetime 70 500, Time.at_midnight 70))
           (Exception "ConnectionError" "Not connected"));
    reflexivity.
Defined.

Lemma get_historical_data_overlap_witness :
  get_historical_data Scenarios.broker_30_days Scenarios.day_100 "X" 30
    Scenarios.fetched_30
  = (Returned (Views.frame (cached_window Scenarios.day_100 "X" 30 Scenarios.fetched_30)),
     Scenarios.fetched_30).
Proof.
  apply (get_historical_data_overlap Scenarios.broker_30_days Scenarios.day_100 "X" 30
           Scenarios.fetched_30 (Some (Datetime 70 500, Time.at_midnight 70))
           Dates (Scenarios.daily_bars 71 30)).
  - reflexivity.
  - reflexivity.
  - discriminate.
  - intros [_ Hfree]. apply (Hfree (Scenarios.flat_bar 90)).
    + apply list_elem_of_fmap_2. apply (bool_decide_unpack _). vm_compute. exact I.
    + apply (bool_decide_unpack _). vm_compute. exact I.
Defined.

Lemma get_historical_data_stores_witness :
  get_historical_data Scenarios.broker_30_days Scenarios.day_100 "X" 30 empty_db
  = (Returned (Views.frame (cached_window Scenarios.day_100 "X" 30
                              Scenarios.fetched_30)),
     Scenarios.fetched_30) /\
  (save_price_data Scenarios.day_100 "X" Dates (Scenarios.daily_bars 71 30)
     empty_db).1 = Raised AttributeError /\
  (Dates = Dates -> cache_metadata Scenarios.fetched_30 = cache_metadata empty_db).
Proof.
  apply (get_historical_data_stores Scenarios.broker_30_days Scenarios.day_100 "X" 30
           empty_db Dates (Scenarios.daily_bars 71 30)
           (Time.minus_days (Datetime 100 500) 30, Datetime 100 500)).
  - reflexivity.
  - reflexivity.
  - discriminate.
  - split.
    + apply (bool_decide_unpack _). vm_compute. exact I.
    + intros b _ Hin. inversion Hin.
Defined.

Lemma get_historical_data_returns_witness :
  match get_historical_data Scenarios.broker_down Scenarios.day_100 "X" 30
          Scenarios.cached_17 with
  | (Raised e, s') =>
    e = ValueError /\ s' = Scenarios.cached_17 /\
    get_fetch_strategy (Datetime 100 500) "X" Scenarios.cached_17 = Raised ValueError
  | (Returned df, s') =>
    (exists r, get_fetch_strategy (Datetime 100 500) "X" Scenarios.cached_17
               = Returned r) /\
    (s' = Scenarios.cached_17 \/
     exists dates bars,
       Scenarios.broker_down "X" 30 = Returned (dates, bars) /\
       s' = (save_price_data Scenarios.day_100 "X" dates bars Scenarios.cached_17).2 /\
       (save_price_data Scenarios.day_100 "X" dates bars Scenarios.cached_17).1
       <> Raised IntegrityError)
  end.
Proof.
  apply (get_historical_data_returns Scenarios.broker_down Scenarios.day_100 "X" 30
           Scenarios.cached_17).
  intros e [= <-]. reflexivity.
Defined.

End history_witnesses.

(** ** The order of binary64 values *)

Ltac order_cases :=
  repeat match goal with
  | |- context [Z.compare ?a ?b] => destruct (Z.compare_spec a b)
  | H : context [Z.compare ?a ?b] |- _ => destruct (Z.compare_spec a b)
  | |- context [PosDef.Pos.compare_cont Eq ?a ?b] =>
    change (PosDef.Pos.compare_cont Eq a b) with (Pos.compare a b) in *;
    destruct (Pos.compare_spec a b)
  | H : context [PosDef.Pos.compare_cont Eq ?a ?b] |- _ =>
    change (PosDef.Pos.compare_cont Eq a b) with (Pos.compare a b) in *;
    destruct (Pos.compare_spec a b)
  end.

Ltac order_solve :=
  order_cases; cbn [CompOpp] in *;
  try discriminate; try reflexivity; try (exfalso; lia).

Section float_order.

Import Binary64.

Lemma SFleb_trans a b c :
  SFleb a b = true -> SFleb b c = true -> SFleb a c = true.
Proof.
  unfold SFleb.
  destruct a as [s1|s1| |s1 m1 e1], b as [s2|s2| |s2 m2 e2],
           c as [s3|s3| |s3 m3 e3];
    try destruct s1; try destruct s2; try destruct s3;
    cbn [SFcompare]; try discriminate; try reflexivity; intros H1 H2; order_solve.
Qed.

Lemma SFleb_total a b :
  SFnan a = false -> SFnan b = false -> SFltb a b = false -> SFleb b a = true.
Proof.
  unfold SFleb, SFltb.
  destruct a as [s1|s1| |s1 m1 e1], b as [s2|s2| |s2 m2 e2];
    try destruct s1; try destruct s2;
    cbn [SFcompare SFnan]; try discriminate; try reflexivity;
    intros _ _ H1; order_solve.
Qed.

Lemma SFleb_refl a : SFnan a = false -> SFleb a a = true.
Proof.
  unfold SFleb. destruct a as [s1|s1| |s1 m1 e1]; try destruct s1;
    cbn [SFcompare SFnan]; try discriminate; try reflexivity; intros _; order_solve.
Qed.

Lemma SFltb_irrefl a : SFltb a a = false.
Proof.
  unfold SFltb. destruct a as [s1|s1| |s1 m1 e1]; try destruct s1;
    cbn [SFcompare]; try reflexivity; order_solve.
Qed.

Lemma is_nan_SFnan x : PrimFloat.is_nan x = SFnan (Prim2SF x).
Proof.
  unfold PrimFloat.is_nan. rewrite FloatAxioms.eqb_spec. unfold SFeqb.
  destruct (Prim2SF x) as [s1|s1| |s1 m1 e1]; try destruct s1;
    cbn [SFcompare SFnan]; try reflexivity; order_solve.
Qed.

Implicit Types x y z : float.

Lemma leb_trans x y z :
  (x <=? y)%float = true -> (y <=? z)%float = true -> (x <=? z)%float = true.
Proof. rewrite !leb_spec. apply SFleb_trans. Qed.

Lemma leb_total x y :
  Pd.isna x = false -> Pd.isna y = false ->
  (x <? y)%float = false -> (y <=? x)%float = true.
Proof.
  unfold Pd.isna. rewrite !is_nan_SFnan, ltb_spec, leb_spec. apply SFleb_total.
Qed.

Lemma leb_refl x : Pd.isna x = false -> (x <=? x)%float = true.
Proof. unfold Pd.isna. rewrite is_nan_SFnan, leb_spec. apply SFleb_refl. Qed.

Lemma ltb_irrefl x : (x <? x)%float = false.
Proof. rewrite ltb_spec. apply SFltb_irrefl. Qed.

(** The running minimum of [series.min()]: it is one of the values seen
    and at or below each of them. *)
Lemma foldl_min_spec (xs : list float) : forall acc,
  Pd.isna acc = false -> Forall (fun y => Pd.isna y = false) xs ->
  let m := foldl (fun m y => if (y <? m)%float then y else m) acc xs in
  (m = acc \/ m ∈ xs) /\ (m <=? acc)%float = true /\
  Forall (fun y => (m <=? y)%float = true) xs.
Proof.
  induction xs as [|y ys IH]; intros acc Hacc Hxs; simpl.
  - split; [by left|]. split; [by apply leb_refl|constructor].
  - apply Forall_cons in Hxs as [Hy Hys].
    destruct (y <? acc)%float eqn:Hlt.
    + destruct (IH y Hy Hys) as (Hin & Hle & Hall).
      split; [destruct Hin as [->|]; right; by constructor|].
      split; [eapply leb_trans; [done|by apply ltb_leb]|].
      by constructor.
    + destruct (IH acc Hacc Hys) as (Hin & Hle & Hall).
      split; [destruct Hin; [by left|right; by constructor]|].
      split; [done|]. constructor; [|done].
      eapply leb_trans; [done|]. by apply leb_total.
Qed.

Lemma foldl_max_spec (xs : list float) : forall acc,
  Pd.isna acc = false -> Forall (fun y => Pd.isna y = false) xs ->
  let m := foldl (fun m y => if (m <? y)%float then y else m) acc xs in
  (m = acc \/ m ∈ xs) /\ (acc <=? m)%float = true /\
  Forall (fun y => (y <=? m)%float = true) xs.
Proof.
  induction xs as [|y ys IH]; intros acc Hacc Hxs; simpl.
  - split; [by left|]. split; [by apply leb_refl|constructor].
  - apply Forall_cons in Hxs as [Hy Hys].
    destruct (acc <? y)%float eqn:Hlt.
    + destruct (IH y Hy Hys) as (Hin & Hle & Hall).
      split; [destruct Hin as [->|]; right; by constructor|].
      split; [eapply leb_trans; [by apply ltb_leb|done]|].
      by constructor.
    + destruct (IH acc Hacc Hys) as (Hin & Hle & Hall).
      split; [destruct Hin; [by left|right; by constructor]|].
      split; [done|]. constructor; [|done].
      eapply leb_trans; [|done]. by apply leb_total.
Qed.

Lemma dropna_Forall (s : list float) : Forall (fun y => Pd.isna y = false) (Pd.dropna s).
Proof.
  apply Forall_forall. intros y [_ Hy]%list_elem_of_In%filter_In.
  by apply negb_true_iff.
Qed.

Lemma elem_of_dropna (s : list float) y :
  y ∈ Pd.dropna s <-> y ∈ s /\ Pd.isna y = false.
Proof.
  unfold Pd.dropna. rewrite list_elem_of_In, filter_In, <- list_elem_of_In.
  by rewrite negb_true_iff.
Qed.

Lemma dropna_id (s : list float) :
  Forall (fun y => Pd.isna y = false) s -> Pd.dropna s = s.
Proof.
  induction 1 as [|y s Hy _ IH]; [done|]. unfold Pd.dropna in *. simpl.
  by rewrite Hy, IH.
Qed.

(** [series.min()] is at or below every value that is a number, and is one
    of them when there is one. *)
Lemma Pd_min_spec (s : list float) :
  (forall y, y ∈ s -> Pd.isna y = false -> (Pd.min s <=? y)%float = true) /\
  (Pd.dropna s <> [] -> Pd.min s ∈ s /\ Pd.isna (Pd.min s) = false).
Proof.
  unfold Pd.min. pose proof (dropna_Forall s) as Hall.
  pose proof (elem_of_dropna s) as Hin.
  destruct (Pd.dropna s) as [|x xs]; [split; [|done]|].
  { intros y Hy Hnan. pose proof (proj2 (Hin y) (conj Hy Hnan)) as Hnil.
    inversion Hnil. }
  apply Forall_cons in Hall as [Hx Hxs].
  destruct (foldl_min_spec xs x Hx Hxs) as (Hm & Hle & Hbelow).
  split.
  - intros y Hy Hnan.
    pose proof (proj2 (Hin y) (conj Hy Hnan)) as [->|Hy']%elem_of_cons; [done|].
    rewrite Forall_forall in Hbelow. by apply Hbelow.
  - intros _.
    assert (foldl (fun m y => if (y <? m)%float then y else m) x xs ∈ x :: xs) as Hmem.
    { destruct Hm as [->|]; by constructor. }
    by apply Hin in Hmem.
Qed.

Lemma Pd_max_spec (s : list float) :
  (forall y, y ∈ s -> Pd.isna y = false -> (y <=? Pd.max s)%float = true) /\
  (Pd.dropna s <> [] -> Pd.max s ∈ s /\ Pd.isna (Pd.max s) = false).
Proof.
  unfold Pd.max. pose proof (dropna_Forall s) as Hall.
  pose proof (elem_of_dropna s) as Hin.
  destruct (Pd.dropna s) as [|x xs]; [split; [|done]|].
  { intros y Hy Hnan. pose proof (proj2 (Hin y) (conj Hy Hnan)) as Hnil.
    inversion Hnil. }
  apply Forall_cons in Hall as [Hx Hxs].
  destruct (foldl_max_spec xs x Hx Hxs) as (Hm & Hle & Habove).
  split.
  - intros y Hy Hnan.
    pose proof (proj2 (Hin y) (conj Hy Hnan)) as [->|Hy']%elem_of_cons; [done|].
    rewrite Forall_forall in Habove. by apply Habove.
  - intros _.
    assert (foldl (fun m y => if (m <? y)%float then y else m) x xs ∈ x :: xs) as Hmem.
    { destruct Hm as [->|]; by constructor. }
    by apply Hin in Hmem.
Qed.

End float_order.

(** ** Further properties of the indicator engine *)

Section indicator_facts.

Import Indicators.

(** The swing levels, when populated, are the extremes of [prev_days]. *)
Lemma check_overextended_swing df atr_value lookback_days atr_multiplier :
  let m := check_overextended df atr_value lookback_days atr_multiplier in
  (swing_low m = None /\ swing_high m = None /\ current_price m = None
   /\ price_range m = None /\ calculation_valid m = false) \/
  (lookback_days + 1 <= Py.len df /\
   swing_low m = Some (Pd.min (low <$> prev_days df lookback_days)) /\
   swing_high m = Some (Pd.max (high <$> prev_days df lookback_days)) /\
   current_price m = last (close <$> df) /\
   price_range m = Some (Pd.max (high <$> prev_days df lookback_days)
                         - Pd.min (low <$> prev_days df lookback_days))%float).
Proof.
  unfold check_overextended, prev_days.
  destruct (Pd.empty df); simpl; [by left|].
  destruct (Z.ltb_spec (Py.len df) (lookback_days + 1)); [by left|].
  destruct (Pd.empty (Py.slice_from _ _)); [by left|].
  destruct (last (close <$> df)) as [cp|]; [|by left].
  right. split; [done|].
  destruct atr_value as [atr_|]; [destruct (Pd.isna atr_)|]; done.
Qed.

(** [l[:-1]] drops the last element. *)
Lemma slice_to_snoc {A} (l : list A) (x : A) : Py.slice_to (-1) (l ++ [x]) = l.
Proof.
  unfold Py.slice_to, Py.slice_index, Py.len. rewrite length_app. simpl.
  match goal with
  | |- take ?n _ = _ => assert (n = length l) as -> by lia
  end.
  by rewrite take_app_length.
Qed.

(** The rows before the last of a frame that ends in [b]: the tail of the
    frame without [b], of the length the lookback asks for. *)
Lemma prev_days_snoc (df : list bar) b lookback_days :
  prev_days (df ++ [b]) lookback_days
  = drop (Z.to_nat (Py.slice_index (Py.len df + 1) (- (lookback_days + 1)))) df.
Proof.
  unfold prev_days, Py.slice_from.
  assert (Py.len (df ++ [b]) = Py.len df + 1) as ->.
  { unfold Py.len. rewrite length_app. simpl. lia. }
  assert (0 <= Py.slice_index (Py.len df + 1) (- (lookback_days + 1))
          <= Py.len df + 1) as Hbound.
  { unfold Py.slice_index, Py.len.
    destruct (Z.ltb_spec (- (lookback_days + 1)) 0); lia. }
  remember (Z.to_nat (Py.slice_index (Py.len df + 1) (- (lookback_days + 1)))) as i.
  destruct (decide (i <= length df)%nat) as [Hi|Hi].
  - rewrite (drop_app_le df [b] i Hi). apply slice_to_snoc.
  - assert (drop i (df ++ [b]) = []) as ->.
    { apply drop_ge. rewrite length_app. simpl. unfold Py.len in *. lia. }
    symmetry. apply drop_ge. lia.
Qed.

(** The measurement of a frame that ends in [b], written over the rows
    before [b]. *)
Lemma check_overextended_snoc df b atr_value lookback_days atr_multiplier :
  check_overextended (df ++ [b]) atr_value lookback_days atr_multiplier
  = let result := initial_result atr_value in
    if Py.len df + 1 <? lookback_days + 1 then result else
    let i := Py.slice_index (Py.len df + 1) (- (lookback_days + 1)) in
    if Py.len df + 1 <=? i then result else
    let prev := drop (Z.to_nat i) df in
    let basic :=
      populate_basic result (Pd.min (low <$> prev)) (Pd.max (high <$> prev))
        (close b) in
    match atr_value with
    | None => basic
    | Some atr_ =>
      if Pd.isna atr_ then basic
      else complete basic (Pd.min (low <$> prev)) (close b) atr_ atr_multiplier
    end.
Proof.
  pose proof (prev_days_snoc df b lookback_days) as Hprev.
  unfold check_overextended, prev_days in *.
  assert (Py.len (df ++ [b]) = Py.len df + 1) as Hlen.
  { unfold Py.len. rewrite length_app. simpl. lia. }
  assert (Pd.empty (df ++ [b]) = false) as -> by by destruct df.
  rewrite Hlen. simpl. destruct (Py.len df + 1 <? lookback_days + 1); [done|].
  assert (Pd.empty (Py.slice_from (- (lookback_days + 1)) (df ++ [b]))
          = (Py.len df + 1 <=? Py.slice_index (Py.len df + 1) (- (lookback_days + 1))))
    as ->.
  { unfold Py.slice_from. rewrite Hlen.
    assert (0 <= Py.slice_index (Py.len df + 1) (- (lookback_days + 1))) as Hpos.
    { unfold Py.slice_index, Py.len.
      destruct (Z.ltb_spec (- (lookback_days + 1)) 0); lia. }
    destruct (Z.leb_spec (Py.len df + 1)
                (Py.slice_index (Py.len df + 1) (- (lookback_days + 1)))) as [Hi|Hi].
    - apply empty_true, drop_ge. rewrite length_app. simpl. unfold Py.len in *. lia.
    - apply empty_false. unfold Py.len in *. rewrite length_drop, length_app. simpl.
      lia. }
  destruct (_ <=? _); [done|].
  by rewrite Hprev, fmap_snoc, last_snoc.
Qed.

Lemma len_prev_days (df : list bar) lookback_days :
  0 <= lookback_days -> lookback_days + 1 <= Py.len df ->
  Py.len (prev_days df lookback_days) = lookback_days.
Proof.
  intros HL Hlen. unfold prev_days.
  pose proof (len_slice_from_neg df (lookback_days + 1) ltac:(lia)) as Hrecent.
  revert Hrecent. generalize (Py.slice_from (- (lookback_days + 1)) df).
  intros recent Hrecent. unfold Py.slice_to, Py.slice_index, Py.len in *.
  simpl. rewrite length_take. lia.
Qed.

(** The valid samples an extreme check looks at are numbers. *)
Lemma recent_rsi_valid (rsi_series : list float) lookback_days :
  Forall (fun y => Pd.isna y = false)
    (Py.slice_from (- lookback_days) (Pd.dropna rsi_series)).
Proof. unfold Py.slice_from. apply Forall_drop, dropna_Forall. Qed.

End indicator_facts.

Section indicator_extras.

Import Indicators.

(** A measurement is complete or bare.  When [calculation_valid] is true
    every numeric field is populated and a volatility was given; when it
    is false none of the fields derived from the volatility is populated
    and [is_overextended] is false. *)
Theorem check_overextended_complete_or_bare df atr_value lookback_days atr_multiplier :
  let m := check_overextended df atr_value lookback_days atr_multiplier in
  (calculation_valid m = true ->
   atr_missing atr_value = false /\
   is_Some (swing_low m) /\ is_Some (swing_high m) /\ is_Some (current_price m) /\
   is_Some (price_range m) /\ is_Some (atr_contribution m) /\
   is_Some (threshold m) /\ is_Some (distance_from_threshold m) /\
   is_Some (distance_pct m) /\ is_Some (proximity_pct m)) /\
  (calculation_valid m = false ->
   is_overextended m = false /\ atr_contribution m = None /\
   threshold m = None /\ distance_from_threshold m = None /\
   distance_pct m = None /\ proximity_pct m = None).
Proof.
  unfold check_overextended.
  destruct (Pd.empty df || _); [by split|].
  destruct (Pd.empty (Py.slice_from _ _)); [by split|].
  destruct (last (close <$> df)) as [cp|]; [|by split].
  destruct atr_value as [atr_|]; [|by split].
  destruct (Pd.isna atr_) eqn:Hatr; [by split|].
  split; [|done]. intros _. simpl. rewrite Hatr. repeat split; eauto.
Qed.

(** X17.  For a lookback that is a day count, a measurement is valid exactly
    when there are [lookback_days + 1] bars and the volatility is a number. *)
Theorem check_overextended_valid_iff df atr_value lookback_days atr_multiplier :
  0 <= lookback_days ->
  calculation_valid (check_overextended df atr_value lookback_days atr_multiplier)
  = true
  <-> lookback_days + 1 <= Py.len df /\ atr_missing atr_value = false.
Proof.
  intros HL. destruct (Z.lt_ge_cases (Py.len df) (lookback_days + 1)) as [Hlen|Hlen].
  - rewrite check_overextended_short by done. simpl. split; [done|lia].
  - destruct (check_overextended_enough df atr_value lookback_days atr_multiplier)
      as (cp & _ & ->); [done..|].
    destruct atr_value as [atr_|]; simpl; [|split; [done|by intros [_ ?]]].
    destruct (Pd.isna atr_); simpl; split; try done; by intros [_ ?].
Qed.

Lemma check_overextended_valid_iff_witness :
  calculation_valid (check_overextended Scenarios.six_days (Some 3%float) 5 5) = true
  <-> 5 + 1 <= Py.len Scenarios.six_days /\ atr_missing (Some 3%float) = false.
Proof.
  apply (check_overextended_valid_iff Scenarios.six_days (Some 3%float) 5 5). lia.
Defined.

(** X18.  The current bar never enters the swing levels: whatever the last row
    of the frame is, and whatever the volatility, the swing low, the swing
    high and the price range are the same. *)
Theorem swing_levels_exclude_current df b b' atr_value atr_value'
    lookback_days atr_multiplier atr_multiplier' :
  let m := check_overextended (df ++ [b]) atr_value lookback_days atr_multiplier in
  let m' := check_overextended (df ++ [b']) atr_value' lookback_days atr_multiplier' in
  swing_low m = swing_low m' /\ swing_high m = swing_high m' /\
  price_range m = price_range m'.
Proof.
  intros m m'. subst m m'. rewrite !check_overextended_snoc. simpl.
  destruct (_ <? _); [done|]. destruct (_ <=? _); [done|].
  destruct atr_value as [a|], atr_value' as [a'|];
    try destruct (Pd.isna a); try destruct (Pd.isna a'); done.
Qed.

(** X19.  The swing low is the lowest low and the swing high the highest high
    of the [lookback_days] bars before the current one, lows and highs that
    are not a number left aside. *)
Theorem swing_levels_are_extremes df atr_value lookback_days atr_multiplier sl sh :
  0 <= lookback_days ->
  swing_low (check_overextended df atr_value lookback_days atr_multiplier) = Some sl ->
  swing_high (check_overextended df atr_value lookback_days atr_multiplier) = Some sh ->
  Py.len (prev_days df lookback_days) = lookback_days /\
  (forall b, b ∈ prev_days df lookback_days -> Pd.isna (low b) = false ->
     (sl <=? low b)%float = true) /\
  (forall b, b ∈ prev_days df lookback_days -> Pd.isna (high b) = false ->
     (high b <=? sh)%float = true) /\
  (Pd.dropna (low <$> prev_days df lookback_days) <> [] ->
     exists b, b ∈ prev_days df lookback_days /\ low b = sl) /\
  (Pd.dropna (high <$> prev_days df lookback_days) <> [] ->
     exists b, b ∈ prev_days df lookback_days /\ high b = sh).
Proof.
  intros HL Hlow Hhigh.
  destruct (check_overextended_swing df atr_value lookback_days atr_multiplier)
    as [(Hnone & _)|(Hlen & Hsl & Hsh & _)]; [congruence|].
  rewrite Hsl in Hlow. rewrite Hsh in Hhigh. injection Hlow as <-. injection Hhigh as <-.
  destruct (Pd_min_spec (low <$> prev_days df lookback_days)) as [Hbelow Hmin].
  destruct (Pd_max_spec (high <$> prev_days df lookback_days)) as [Habove Hmax].
  split; [by apply len_prev_days|]. split; [|split; [|split]].
  - intros b Hb. apply Hbelow. by apply list_elem_of_fmap_2.
  - intros b Hb. apply Habove. by apply list_elem_of_fmap_2.
  - intros [(b & -> & Hb)%list_elem_of_fmap _]%Hmin. eauto.
  - intros [(b & -> & Hb)%list_elem_of_fmap _]%Hmax. eauto.
Qed.

Lemma swing_levels_are_extremes_witness :
  Py.len (prev_days Scenarios.six_days 5) = 5 /\
  (forall b, b ∈ prev_days Scenarios.six_days 5 -> Pd.isna (low b) = false ->
     (90 <=? low b)%float = true) /\
  (forall b, b ∈ prev_days Scenarios.six_days 5 -> Pd.isna (high b) = false ->
     (high b <=? 102)%float = true) /\
  (Pd.dropna (low <$> prev_days Scenarios.six_days 5) <> [] ->
     exists b, b ∈ prev_days Scenarios.six_days 5 /\ low b = 90%float) /\
  (Pd.dropna (high <$> prev_days Scenarios.six_days 5) <> [] ->
     exists b, b ∈ prev_days Scenarios.six_days 5 /\ high b = 102%float).
Proof.
  apply (swing_levels_are_extremes Scenarios.six_days (Some 3%float) 5 5).
  - lia.
  - vm_compute. reflexivity.
  - vm_compute. reflexivity.
Defined.

(** X20.  The overextended test is strict: a measurement is overextended only
    when its current price is above its threshold, never when the two are
    equal. *)
Theorem overextended_is_strict df atr_value lookback_days atr_multiplier :
  is_overextended (check_overextended df atr_value lookback_days atr_multiplier) = true ->
  exists t cp,
    threshold (check_overextended df atr_value lookback_days atr_multiplier) = Some t /\
    current_price (check_overextended df atr_value lookback_days atr_multiplier)
    = Some cp /\
    (t <? cp)%float = true /\ (cp <=? t)%float = false /\ cp <> t.
Proof.
  destruct (check_overextended_cases df atr_value lookback_days atr_multiplier)
    as [H|[(sl & sh & cp & H)|(sl & sh & cp & atr_ & H)]];
    rewrite H; simpl; try discriminate.
  intros Hover. eexists _, cp. split; [done|]. split; [done|]. split; [done|].
  split.
  - destruct (cp <=? _)%float eqn:Hle; [|done].
    apply leb_not_ltb in Hle. congruence.
  - intros Heq. rewrite <- Heq, ltb_irrefl in Hover. discriminate.
Qed.

Lemma overextended_is_strict_witness :
  exists t cp,
    threshold (check_overextended Scenarios.six_days (Some 3%float) 5 5) = Some t /\
    current_price (check_overextended Scenarios.six_days (Some 3%float) 5 5) = Some cp /\
    (t <? cp)%float = true /\ (cp <=? t)%float = false /\ cp <> t.
Proof.
  apply (overextended_is_strict Scenarios.six_days (Some 3%float) 5 5).
  vm_compute. reflexivity.
Defined.

(** X21.  For a series at least as long as the lookback, a high extreme is
    reported exactly when one of the last [lookback_days] valid samples is at
    or above the high threshold, a low extreme exactly when one is at or below
    the low threshold; the maximum and the minimum reported are two of those
    samples. *)
Theorem check_rsi_extremes_hits rsi_series lookback_days high_threshold low_threshold :
  lookback_days <= Py.len rsi_series ->
  let recent_rsi := Py.slice_from (- lookback_days) (Pd.dropna rsi_series) in
  let r := check_rsi_extremes rsi_series lookback_days high_threshold low_threshold in
  (r.1.1.1 = true
   <-> exists x, x ∈ recent_rsi /\ (high_threshold <=? x)%float = true) /\
  (r.1.1.2 = true
   <-> exists x, x ∈ recent_rsi /\ (x <=? low_threshold)%float = true) /\
  (forall v, r.1.2 = Some v -> v ∈ recent_rsi) /\
  (forall v, r.2 = Some v -> v ∈ recent_rsi).
Proof.
  intros Hlen recent_rsi r. subst r. unfold check_rsi_extremes.
  destruct (Pd.empty rsi_series) eqn:Hempty.
  { apply empty_true in Hempty. subst rsi_series. simpl.
    assert (recent_rsi = []) as -> by (subst recent_rsi; apply drop_nil).
    repeat split; try done; by intros (x & Hx & _); inversion Hx. }
  destruct (Z.ltb_spec (Py.len rsi_series) lookback_days); [lia|]. simpl.
  fold recent_rsi.
  pose proof (recent_rsi_valid rsi_series lookback_days) as Hvalid.
  fold recent_rsi in Hvalid.
  destruct (Pd.empty recent_rsi) eqn:Hrecent.
  { apply empty_true in Hrecent. rewrite Hrecent. simpl.
    repeat split; try done; by intros (x & Hx & _); inversion Hx. }
  assert (Pd.dropna recent_rsi <> []) as Hne.
  { rewrite dropna_id by done. intros ->. done. }
  destruct (Pd_max_spec recent_rsi) as [Habove Hmax].
  destruct (Pd_min_spec recent_rsi) as [Hbelow Hmin].
  destruct (Hmax Hne) as [Hmax_in _]. destruct (Hmin Hne) as [Hmin_in _].
  rewrite Forall_forall in Hvalid. simpl. split; [|split; [|split]].
  - split; [by eauto|]. intros (x & Hx & Hhigh).
    eapply leb_trans; [done|]. apply Habove; [done|by apply Hvalid].
  - split; [by eauto|]. intros (x & Hx & Hlow).
    eapply leb_trans; [|done]. apply Hbelow; [done|by apply Hvalid].
  - by intros v [= <-].
  - by intros v [= <-].
Qed.

Lemma check_rsi_extremes_hits_witness :
  ((check_rsi_extremes Scenarios.warm_up 7 90 10).1.1.1 = true
   <-> exists x, x ∈ Py.slice_from (- 7) (Pd.dropna Scenarios.warm_up)
                 /\ (90 <=? x)%float = true) /\
  ((check_rsi_extremes Scenarios.warm_up 7 90 10).1.1.2 = true
   <-> exists x, x ∈ Py.slice_from (- 7) (Pd.dropna Scenarios.warm_up)
                 /\ (x <=? 10)%float = true) /\
  (forall v, (check_rsi_extremes Scenarios.warm_up 7 90 10).1.2 = Some v ->
     v ∈ Py.slice_from (- 7) (Pd.dropna Scenarios.warm_up)) /\
  (forall v, (check_rsi_extremes Scenarios.warm_up 7 90 10).2 = Some v ->
     v ∈ Py.slice_from (- 7) (Pd.dropna Scenarios.warm_up)).
Proof.
  apply (check_rsi_extremes_hits Scenarios.warm_up 7 90 10).
  vm_compute. discriminate.
Defined.

End indicator_extras.

(** ** Further properties of the scan *)

Section scan_shape.

Import Scanner.

Context {W : Type}.

Lemma returns_only_ret {A} (P : A -> Prop) (a : A) :
  P a -> RunScan.returns_only P (@ret W A a).
Proof. intros HP w a' w' [= <- _]. done. Qed.

Lemma returns_only_bind {A B} (P : B -> Prop) (m : M W A) (k : A -> M W B) :
  (forall a, RunScan.returns_only P (k a)) -> RunScan.returns_only P (bind m k).
Proof.
  intros Hk w b w'. unfold bind. destruct (m w) as [[a|e] w0]; [apply Hk|done].
Qed.

(** An overextended measurement has its price and its threshold. *)
Lemma overextended_populated df atr_value lookback_days atr_multiplier :
  let m := Indicators.check_overextended df atr_value lookback_days atr_multiplier in
  Indicators.is_overextended m = true ->
  is_Some (Indicators.current_price m) /\ is_Some (Indicators.threshold m).
Proof.
  destruct (check_overextended_cases df atr_value lookback_days atr_multiplier)
    as [H|[(sl & sh & cp & H)|(sl & sh & cp & atr_ & H)]];
    simpl; rewrite H; simpl; try discriminate. eauto.
Qed.

(** Every result the [try] block returns has the shape of a result. *)
Lemma scan_body_shaped (self : collaborators W) symbol_ :
  RunScan.returns_only (RunScan.shaped symbol_) (scan_body self symbol_).
Proof.
  unfold scan_body. apply returns_only_bind. intros df.
  destruct (Pd.empty df || _) eqn:Hguard; [by apply returns_only_ret|].
  apply returns_only_bind.
  intros [[rsi_series atr_series] [latest_rsi_ latest_atr_]].
  destruct rsi_series as [rsi_series|], latest_rsi_ as [latest_rsi_|];
    try by apply returns_only_ret.
  apply returns_only_bind. intros _.
  destruct (Indicators.check_rsi_extremes _ _ _ _) as [[[hh hl] mx] mn].
  apply returns_only_bind. intros latest_atr_f.
  apply returns_only_bind. intros fetch.
  apply returns_only_bind. intros _.
  apply returns_only_ret. split; [done|]. simpl.
  split; [done|]. split; [by eauto|]. split; [by eauto|]. split.
  - apply orb_false_iff in Hguard as [_ Hlen]. by apply Z.ltb_ge in Hlen.
  - apply overextended_populated.
Qed.

(** So has every result [scan_symbol] returns. *)
Lemma scan_symbol_shaped_result (self : collaborators W) symbol_ :
  RunScan.returns_only (RunScan.shaped symbol_) (scan_symbol self symbol_).
Proof.
  intros w r w'. rewrite scan_symbol_outcome.
  pose proof (scan_body_shaped self symbol_ w) as Hbody.
  destruct (scan_body self symbol_ w) as [[r0|e] w0].
  - intros [= <- _]. by eapply Hbody.
  - destruct (is_Exception e); [|done]. by intros [= <- _].
Qed.

End scan_shape.

Section scan_extras.

Import Scanner.

(** The status of a complete result is ["no_hit"] when no flag is set, and
    otherwise the labels of the flags that are set, in the order high,
    low, overextended, joined by semicolons. *)
Theorem status_label_joins hit_high_ hit_low_ is_overextended_ :
  status_label hit_high_ hit_low_ is_overextended_
  = match RunScan.labels hit_high_ hit_low_ is_overextended_ with
    | [] => "no_hit"
    | labels => String.concat ";" labels
    end /\
  (status_label hit_high_ hit_low_ is_overextended_ = "no_hit"
   <-> hit_high_ = false /\ hit_low_ = false /\ is_overextended_ = false).
Proof.
  destruct hit_high_, hit_low_, is_overextended_; vm_compute;
    (split; [reflexivity|]); split; try done; by intros (? & ? & ?).
Qed.

(** X22.  A result that [run_scan] takes for an alert is a complete one: its
    oscillator and volatility values are there, its status names a flag, and
    when it is overextended its price and threshold are there; these are the
    values [run_scan] formats. *)
Theorem alert_is_complete {W} (self : collaborators W) symbol_ w r w' :
  scan_symbol self symbol_ w = (Returned r, w') ->
  RunScan.is_alert r = true ->
  is_Some (extra r) /\ is_Some (latest_rsi r) /\ is_Some (latest_atr r) /\
  status r <> "no_hit" /\
  (is_overextended r = true ->
   is_Some (current_price r) /\ is_Some (overextended_threshold r)).
Proof.
  intros [Hsym Hshape]%scan_symbol_shaped_result Halert.
  unfold RunScan.is_alert in Halert.
  destruct (extra r) as [d|].
  - destruct Hshape as (Hstatus & Hrsi & Hatr & _ & Hover).
    split; [by eauto|]. split; [done|]. split; [done|]. split; [|done].
    rewrite Hstatus.
    destruct (hit_high r), (hit_low r), (is_overextended r); done.
  - rewrite Hshape in Halert. done.
Qed.

Lemma alert_is_complete_witness :
  exists r w',
    scan_symbol Scenarios.healthy "AAPL" [] = (Returned r, w') /\
    is_Some (extra r) /\ is_Some (latest_rsi r) /\ is_Some (latest_atr r) /\
    status r <> "no_hit" /\
    (is_overextended r = true ->
     is_Some (current_price r) /\ is_Some (overextended_threshold r)).
Proof.
  eexists _, _. split; [vm_compute; reflexivity|].
  eapply (alert_is_complete Scenarios.healthy "AAPL" []).
  - vm_compute. reflexivity.
  - reflexivity.
Defined.

(** X23.  When the loop over the tickers comes to its end, the results are one
    per ticker, in the order of the tickers, each a result for its ticker and
    of the shape of a result: blank with a status, or complete with the status
    of its flags. *)
Theorem scan_all_shaped {W} (self : collaborators W) tickers w results w' :
  scan_all self tickers w = (Returned results, w') ->
  symbol <$> results = tickers /\ Forall2 RunScan.shaped tickers results.
Proof.
  revert w results w'.
  induction tickers as [|symbol_ rest IH]; intros w results w'; simpl.
  - intros [= <- _]. split; [done|constructor].
  - unfold bind at 1.
    destruct (scan_symbol self symbol_ w) as [[r|e] w1] eqn:Hone; [|done].
    unfold bind. destruct (scan_all self rest w1) as [[rs|e] w2] eqn:Hall; [|done].
    intros [= <- _]. destruct (IH _ _ _ Hall) as [Hsyms Hshapes].
    apply scan_symbol_shaped_result in Hone as Hshape.
    split; [|by constructor].
    rewrite fmap_cons, Hsyms. by destruct Hshape as [-> _].
Qed.

Lemma scan_all_shaped_witness :
  exists results,
    symbol <$> results = ["AAPL"; "MSFT"] /\
    Forall2 RunScan.shaped ["AAPL"; "MSFT"] results.
Proof.
  eexists.
  eapply (scan_all_shaped Scenarios.healthy ["AAPL"; "MSFT"] []).
  vm_compute. reflexivity.
Defined.

(** With fewer bars than the longer indicator window plus one, the result
    is the blank one with status ["insufficient_data"], no indicator is
    computed and nothing is written after the history was read. *)
Theorem scan_symbol_insufficient_data {W} (self : collaborators W) symbol_ w df w1 :
  get_historical_data self symbol_ w = (Returned df, w1) ->
  Py.len df < Z.max Settings.RSI_WINDOW Settings.ATR_WINDOW + 1 ->
  scan_symbol self symbol_ w
  = (Returned (blank_result symbol_ "insufficient_data"), w1).
Proof.
  intros Hdata Hlen. rewrite scan_symbol_outcome. unfold scan_body, bind.
  rewrite Hdata.
  destruct (Z.ltb_spec (Py.len df)
              (Z.max Settings.RSI_WINDOW Settings.ATR_WINDOW + 1)); [|lia].
  by rewrite orb_true_r.
Qed.

Lemma scan_symbol_insufficient_data_witness :
  scan_symbol Scenarios.three_bars "AAPL" []
  = (Returned (blank_result "AAPL" "insufficient_data"), []).
Proof.
  apply (scan_symbol_insufficient_data Scenarios.three_bars "AAPL" []
           Scenarios.small_data []).
  - reflexivity.
  - vm_compute. reflexivity.
Defined.

End scan_extras.

Section signal_extras.

Import Signals.

(** The summary, once the signal of the oscillator value is known. *)
Lemma generate_signal_summary_combine rsi_value atr_value hit_high hit_low sig :
  rsi_signal_of rsi_value hit_high hit_low = sig ->
  generate_signal_summary rsi_value atr_value hit_high hit_low
  = combine (Summary sig "normal" "neutral" "medium") hit_high hit_low.
Proof. intros <-. unfold generate_signal_summary. by destruct atr_value. Qed.

(** X24.  In the signal summary the recent extremes decide first: the overall
    signal is a strong sell whenever a high extreme was hit, whatever the
    oscillator reads now, and a strong buy when a low extreme and no high one
    was hit; only without extremes does the oscillator value decide, sell at
    70 or above, buy at 30 or below. The confidence is high exactly for the
    strong signals, and the volatility signal is always normal. *)
Theorem generate_signal_summary_overall rsi_value atr_value hit_high hit_low :
  let signals := generate_signal_summary rsi_value atr_value hit_high hit_low in
  overall_signal signals
  = (if hit_high then "strong_sell"
     else if hit_low then "strong_buy"
     else match rsi_value with
          | Some v =>
            if (70 <=? v)%float then "sell"
            else if (v <=? 30)%float then "buy" else "neutral"
          | None => "neutral"
          end) /\
  confidence signals = (if hit_high || hit_low then "high" else "medium") /\
  volatility_signal signals = "normal".
Proof.
  intros signals. subst signals.
  destruct rsi_value as [v|].
  - destruct (70 <=? v)%float eqn:H70; [|destruct (v <=? 30)%float eqn:H30].
    + rewrite (generate_signal_summary_combine _ _ _ _ "overbought")
        by (simpl; by rewrite H70).
      by destruct hit_high, hit_low.
    + rewrite (generate_signal_summary_combine _ _ _ _ "oversold")
        by (simpl; by rewrite H70, H30).
      by destruct hit_high, hit_low.
    + destruct hit_high, hit_low;
        (erewrite generate_signal_summary_combine;
         [|simpl; rewrite H70, H30; reflexivity]); done.
  - rewrite (generate_signal_summary_combine _ _ _ _ "neutral") by done.
    by destruct hit_high, hit_low.
Qed.

End signal_extras.

(** ** The indicator table *)

Section indicator_store.
Import Database Store.

(** A filter after the filter of a disjoint test, and after that of a
    test it implies. *)
Lemma filter_filter_disjoint {A} (P Q : A -> bool) (l : list A) :
  (forall x, P x = true -> Q x = false) ->
  List.filter P (List.filter Q l) = [].
Proof.
  intros Hdis. induction l as [|x l IH]; simpl; [done|].
  destruct (Q x) eqn:HQ; simpl; [|done].
  destruct (P x) eqn:HP; [|done]. apply Hdis in HP. congruence.
Qed.

Lemma filter_filter_implied {A} (P Q : A -> bool) (l : list A) :
  (forall x, P x = true -> Q x = true) ->
  List.filter P (List.filter Q l) = List.filter P l.
Proof.
  intros Himp. induction l as [|x l IH]; simpl; [done|].
  destruct (Q x) eqn:HQ; simpl.
  - by rewrite IH.
  - destruct (P x) eqn:HP; [|done]. apply Himp in HP. congruence.
Qed.

(** Two tests for a key: the same key, or no row in common. *)
Lemma same_indicator_keys symbol d symbol' d' r :
  same_indicator symbol d r = true -> same_indicator symbol' d' r = true ->
  symbol = symbol' /\ d = d'.
Proof.
  unfold same_indicator.
  intros [<-%bool_decide_eq_true <-%bool_decide_eq_true]%andb_true_iff.
  by intros [<-%bool_decide_eq_true <-%bool_decide_eq_true]%andb_true_iff.
Qed.

(** One INSERT OR REPLACE, seen through the rows of a key. *)
Lemma filter_insert_or_replace ts symbol acc row symbol' d :
  List.filter (same_indicator symbol' d) (insert_or_replace ts symbol acc row).1
  = if bool_decide (symbol = symbol') && bool_decide (row.1.1 = d)
    then [IndicatorRow (acc.2 + 1) symbol row.1.1 row.1.2 row.2 ts]
    else List.filter (same_indicator symbol' d) acc.1.
Proof.
  destruct acc as [tbl seq], row as [[d0 x] a]. unfold insert_or_replace.
  cbn [fst snd]. rewrite List.filter_app. cbn [List.filter].
  change (same_indicator symbol' d (IndicatorRow (seq + 1) symbol d0 x a ts))
    with (bool_decide (symbol = symbol') && bool_decide (d0 = d)).
  destruct (bool_decide (symbol = symbol') && bool_decide (d0 = d)) eqn:Hkey.
  - apply andb_true_iff in Hkey as [<-%bool_decide_eq_true <-%bool_decide_eq_true].
    rewrite filter_filter_disjoint; [done|]. by intros r ->.
  - rewrite app_nil_r. apply filter_filter_implied.
    intros r Hr. apply negb_true_iff.
    destruct (same_indicator symbol d0 r) eqn:Hr0; [|done].
    destruct (same_indicator_keys _ _ _ _ _ Hr0 Hr) as [-> ->].
    by rewrite !bool_decide_eq_true_2 in Hkey.
Qed.

(** The fold of [save_indicators], seen through the rows of a key: the
    last row of the batch for the key, or what was there. *)
Lemma filter_foldl_insert_or_replace ts symbol rows symbol' d : forall acc,
  Views.indicator_at symbol' d
    (foldl (insert_or_replace ts symbol) acc rows).1
  = match Views.batch_at d rows with
    | Some v => if bool_decide (symbol = symbol') then Some v
                else Views.indicator_at symbol' d acc.1
    | None => Views.indicator_at symbol' d acc.1
    end.
Proof.
  induction rows as [|row rows IH] using rev_ind; intros acc; [done|].
  rewrite foldl_snoc. unfold Views.indicator_at at 1.
  rewrite filter_insert_or_replace. unfold Views.batch_at.
  rewrite List.filter_app. cbn [List.filter].
  destruct (bool_decide (row.1.1 = d)) eqn:Hd.
  - rewrite last_snoc. simpl. rewrite andb_true_r.
    destruct (bool_decide (symbol = symbol')) eqn:Hs; simpl; [done|].
    fold (Views.indicator_at symbol' d (foldl (insert_or_replace ts symbol) acc rows).1).
    rewrite IH. by destruct (Views.batch_at d rows).
  - rewrite andb_false_r, app_nil_r.
    fold (Views.indicator_at symbol' d (foldl (insert_or_replace ts symbol) acc rows).1).
    apply IH.
Qed.

(** The values the batch holds for the date at an index, the dates of the
    frame being distinct. *)
Lemma filter_key_NoDup {A B} `{EqDecision B} (f : A -> B) (l : list A) i y :
  NoDup (f <$> l) -> l !! i = Some y ->
  List.filter (fun z => bool_decide (f z = f y)) l = [y].
Proof.
  revert i. induction l as [|z l IH]; intros i Hnd Hi; [done|].
  rewrite fmap_cons in Hnd. apply NoDup_cons in Hnd as [Hz Hnd]. simpl.
  destruct i as [|i]; simpl in Hi.
  - injection Hi as ->. rewrite bool_decide_eq_true_2 by done. f_equal.
    clear IH. induction l as [|z l IH]; simpl; [done|].
    rewrite fmap_cons in Hz, Hnd. apply not_elem_of_cons in Hz as [Hne Hz].
    apply NoDup_cons in Hnd as [_ Hnd].
    rewrite bool_decide_eq_false_2 by done. by apply IH.
  - rewrite bool_decide_eq_false_2; [by eapply IH|].
    intros Heq. apply Hz. rewrite Heq. apply list_elem_of_fmap_2.
    by eapply list_elem_of_lookup_2.
Qed.

Lemma filter_filter_and {A} (P Q : A -> bool) (l : list A) :
  List.filter P (List.filter Q l) = List.filter (fun x => Q x && P x) l.
Proof.
  induction l as [|x l IH]; simpl; [done|].
  destruct (Q x); simpl; [|done]. destruct (P x); by rewrite IH.
Qed.

Lemma filter_nothing {A} (P : A -> bool) (l : list A) :
  Forall (fun x => P x = false) l -> List.filter P l = [].
Proof. induction 1 as [|x l Hx _ IH]; simpl; [done|]. by rewrite Hx. Qed.

Lemma filter_comm {A} (P Q : A -> bool) (l : list A) :
  List.filter P (List.filter Q l) = List.filter Q (List.filter P l).
Proof.
  induction l as [|x l IH]; simpl; [done|].
  destruct (P x) eqn:HP, (Q x) eqn:HQ; simpl; rewrite ?HP, ?HQ, ?IH; done.
Qed.

Lemma NoDup_zip_dates {A B C} (l : list A) (k : list B) (m : list C) :
  NoDup l -> NoDup ((fun row : A * B * C => row.1.1) <$> zip (zip l k) m).
Proof.
  intros Hnd. revert k m.
  induction Hnd as [|x l Hx Hnd IH]; intros [|y k] [|z m]; simpl; try constructor;
    [|by apply IH].
  intros ([[x' y'] z'] & Hz & Hin)%list_elem_of_fmap. simpl in Hz. subst x'.
  apply Hx. apply elem_of_zip_l in Hin. by apply elem_of_zip_l in Hin.
Qed.

Lemma lookup_zip3 {A B C} (l : list A) (k : list B) (m : list C) i x y z :
  l !! i = Some x -> k !! i = Some y -> m !! i = Some z ->
  zip (zip l k) m !! i = Some (x, y, z).
Proof.
  revert k m i. induction l as [|x0 l IH]; intros [|y0 k] [|z0 m] [|i]; simpl;
    try done; [by intros [= ->] [= ->] [= ->]|apply IH].
Qed.

Lemma batch_at_index (df : list bar) rsi_series atr_series i b x a :
  NoDup (date <$> df) ->
  df !! i = Some b -> rsi_series !! i = Some x -> atr_series !! i = Some a ->
  Views.batch_at (date b) (indicators_df df rsi_series atr_series)
  = if Pd.isna x || Pd.isna a then None else Some (x, a).
Proof.
  intros Hnd Hb Hx Ha. unfold Views.batch_at, indicators_df.
  rewrite filter_comm.
  rewrite (filter_key_NoDup (fun row : Z * float * float => row.1.1) _ i (date b, x, a)).
  - simpl. by destruct (Pd.isna x), (Pd.isna a).
  - by apply NoDup_zip_dates.
  - apply lookup_zip3; [|done..]. by rewrite list_lookup_fmap, Hb.
Qed.

(** A date the frame does not hold is not in the batch. *)
Lemma batch_at_absent (df : list bar) rsi_series atr_series d :
  d ∉ date <$> df ->
  Views.batch_at d (indicators_df df rsi_series atr_series) = None.
Proof.
  intros Hd. unfold Views.batch_at, indicators_df. rewrite filter_comm.
  assert (List.filter (fun row : Z * float * float => bool_decide (row.1.1 = d))
            (zip (zip (date <$> df) rsi_series) atr_series) = []) as ->; [|done].
  generalize dependent (date <$> df). intros dates Hd.
  revert rsi_series atr_series.
  induction dates as [|d0 dates IH]; intros [|x xs] [|a as_]; simpl; try done.
  apply not_elem_of_cons in Hd as [Hne Hd].
  rewrite bool_decide_eq_false_2 by done. by apply IH.
Qed.

(** The table after [save_indicators], when it writes. *)
Lemma save_indicators_fold clk symbol df rsi_series atr_series f :
  indicators (save_indicators clk symbol df rsi_series atr_series f)
  = (foldl (insert_or_replace (now clk) symbol) (indicators f, indicators_seq f)
       (indicators_df df rsi_series atr_series)).1 /\
  prices (save_indicators clk symbol df rsi_series atr_series f) = prices f /\
  scan_results (save_indicators clk symbol df rsi_series atr_series f)
  = scan_results f /\
  scan_seq (save_indicators clk symbol df rsi_series atr_series f) = scan_seq f.
Proof.
  unfold save_indicators, indicators_df.
  destruct df as [|b df]; [done|]. destruct rsi_series as [|x xs]; [done|].
  destruct atr_series as [|a as_]; [done|].
  cbn [Pd.empty orb].
  destruct (List.filter _ _) as [|row rows]; [done|]. cbn [Pd.empty].
  by destruct (foldl _ _ _).
Qed.

(** Rows whose values are numbers. *)
Lemma insert_or_replace_keys ts symbol acc row :
  NoDup (Views.indicator_keys acc.1) ->
  NoDup (Views.indicator_keys (insert_or_replace ts symbol acc row).1).
Proof.
  destruct acc as [tbl seq], row as [[d x] a]. unfold insert_or_replace.
  cbn [fst snd]. intros Hnd. unfold Views.indicator_keys. rewrite fmap_app.
  apply NoDup_app. split; [by apply NoDup_fmap_filter|]. split; [|apply NoDup_singleton].
  intros k (r & -> & [_ Hr]%list_elem_of_In%filter_In)%list_elem_of_fmap
    [= Hsym Hdate]%list_elem_of_singleton.
  apply negb_true_iff in Hr. unfold same_indicator in Hr.
  by rewrite !bool_decide_eq_true_2 in Hr.
Qed.

Lemma foldl_insert_or_replace_keys ts symbol rows : forall acc,
  NoDup (Views.indicator_keys acc.1) ->
  NoDup (Views.indicator_keys (foldl (insert_or_replace ts symbol) acc rows).1).
Proof.
  induction rows as [|row rows IH]; intros acc Hnd; [done|].
  simpl. by apply IH, insert_or_replace_keys.
Qed.

Lemma foldl_insert_or_replace_valid ts symbol rows : forall acc,
  Forall (fun row : Z * float * float =>
            Pd.isna row.1.2 = false /\ Pd.isna row.2 = false) rows ->
  Forall Views.valid_indicator acc.1 ->
  Forall Views.valid_indicator (foldl (insert_or_replace ts symbol) acc rows).1.
Proof.
  induction rows as [|row rows IH]; intros [tbl seq] Hrows Hacc; [done|].
  apply Forall_cons in Hrows as [Hrow Hrows]. simpl. apply IH; [done|].
  simpl. apply Forall_app. split; [|by apply Forall_singleton].
  apply Forall_forall. intros r [Hr _]%list_elem_of_In%filter_In.
  rewrite Forall_forall in Hacc. by apply Hacc, list_elem_of_In.
Qed.

Lemma indicators_df_valid df rsi_series atr_series :
  Forall (fun row : Z * float * float =>
            Pd.isna row.1.2 = false /\ Pd.isna row.2 = false)
    (indicators_df df rsi_series atr_series).
Proof.
  apply Forall_forall. intros row [_ Hrow]%list_elem_of_In%filter_In.
  apply andb_true_iff in Hrow as [H1%negb_true_iff H2%negb_true_iff]. done.
Qed.

(** The fold keeps the rows outside the batch, in their order, and appends
    what it makes of the batch from an empty table. *)
Lemma foldl_insert_or_replace_split ts symbol rows tbl seq :
  (foldl (insert_or_replace ts symbol) (tbl, seq) rows).1
  = List.filter (fun r => negb (Views.in_batch symbol rows r)) tbl
    ++ (foldl (insert_or_replace ts symbol) ([], seq) rows).1 /\
  (foldl (insert_or_replace ts symbol) (tbl, seq) rows).2
  = (foldl (insert_or_replace ts symbol) ([], seq) rows).2.
Proof.
  induction rows as [|row rows IH] using rev_ind.
  - simpl. split; [|done]. rewrite app_nil_r. symmetry.
    apply forallb_filter_id, forallb_forall. intros r _. unfold Views.in_batch.
    rewrite (bool_decide_eq_false_2 (_ ∈ _)) by apply not_elem_of_nil.
    by rewrite andb_false_r.
  - rewrite !foldl_snoc.
    destruct (foldl _ (tbl, seq) rows) as [t1 s1], (foldl _ ([], seq) rows) as [t0 s0].
    simpl in IH. destruct IH as [-> ->]. unfold insert_or_replace. cbn [fst snd].
    split; [|done]. rewrite List.filter_app, <- app_assoc. f_equal.
    rewrite filter_filter_and. apply List.filter_ext. intros r.
    unfold Views.in_batch, same_indicator. rewrite !fmap_app. simpl.
    destruct (bool_decide (ir_symbol r = symbol)); simpl; [|done].
    rewrite <- negb_orb. f_equal.
    destruct (bool_decide (ir_date r = row.1.1)) eqn:Hd.
    + apply bool_decide_eq_true in Hd. rewrite orb_true_r. symmetry.
      apply bool_decide_eq_true_2, elem_of_app. right. rewrite Hd.
      apply list_elem_of_here.
    + apply bool_decide_eq_false in Hd. rewrite orb_false_r. apply bool_decide_ext.
      rewrite elem_of_app, list_elem_of_singleton. tauto.
Qed.

(** What the fold makes of a batch from an empty table holds keys of the
    batch only. *)
Lemma foldl_insert_or_replace_in_batch ts symbol rows seq :
  Forall (fun r => Views.in_batch symbol rows r = true)
    (foldl (insert_or_replace ts symbol) ([], seq) rows).1.
Proof.
  induction rows as [|row rows IH] using rev_ind; [by constructor|].
  rewrite foldl_snoc. destruct (foldl _ ([], seq) rows) as [t0 s0].
  unfold insert_or_replace. cbn [fst snd] in *. apply Forall_app. split.
  - apply Forall_forall. intros r [Hr _]%list_elem_of_In%filter_In.
    rewrite Forall_forall in IH. apply list_elem_of_In, IH in Hr.
    unfold Views.in_batch in *. apply andb_true_iff in Hr as [-> Hr]. simpl.
    apply bool_decide_eq_true in Hr. apply bool_decide_eq_true_2.
    rewrite !fmap_app. apply elem_of_app. by left.
  - apply Forall_singleton. unfold Views.in_batch. simpl.
    rewrite bool_decide_eq_true_2 by done. apply bool_decide_eq_true_2.
    rewrite !fmap_app. apply elem_of_app. right. apply list_elem_of_here.
Qed.

(** The values of the rows a deletion by key keeps are found from the
    values of the table. *)
Lemma indicator_values_filter symbol d tbl :
  Views.indicator_values (List.filter (fun r => negb (same_indicator symbol d r)) tbl)
  = List.filter
      (fun v : string * Z * float * float =>
         negb (bool_decide (v.1.1.1 = symbol) && bool_decide (v.1.1.2 = d)))
      (Views.indicator_values tbl).
Proof.
  induction tbl as [|r tbl IH]; simpl; [done|].
  unfold same_indicator at 1.
  destruct (negb _); simpl; by rewrite IH.
Qed.

Lemma indicator_values_app t1 t2 :
  Views.indicator_values (t1 ++ t2)
  = Views.indicator_values t1 ++ Views.indicator_values t2.
Proof. apply fmap_app. Qed.

(** The values the fold leaves depend on the values it finds, not on the
    row counter or the clock. *)
Lemma foldl_insert_or_replace_values ts ts' symbol rows : forall acc acc',
  Views.indicator_values acc.1 = Views.indicator_values acc'.1 ->
  Views.indicator_values (foldl (insert_or_replace ts symbol) acc rows).1
  = Views.indicator_values (foldl (insert_or_replace ts' symbol) acc' rows).1.
Proof.
  induction rows as [|row rows IH]; intros [t1 s1] [t2 s2] Hvalues; [done|].
  cbn [foldl]. apply IH. unfold insert_or_replace. cbn [fst snd] in *.
  rewrite !indicator_values_app. f_equal.
  by rewrite !indicator_values_filter, Hvalues.
Qed.

End indicator_store.

Section indicator_store_extras.
Import Database Store.

(** X25.  What [save_indicators] stores can be read back: the values at an
    index of the three columns are the ones the table holds for the date of
    that index when both are numbers; when one of them is missing nothing is
    written for that date, and what the table held for it stays. *)
Theorem save_indicators_reads_back clk symbol df rsi_series atr_series f i b x a :
  NoDup (date <$> df) ->
  df !! i = Some b -> rsi_series !! i = Some x -> atr_series !! i = Some a ->
  Views.indicator_at symbol (date b)
    (indicators (save_indicators clk symbol df rsi_series atr_series f))
  = if Pd.isna x || Pd.isna a
    then Views.indicator_at symbol (date b) (indicators f)
    else Some (x, a).
Proof.
  intros Hnd Hb Hx Ha.
  destruct (save_indicators_fold clk symbol df rsi_series atr_series f) as [-> _].
  rewrite filter_foldl_insert_or_replace.
  rewrite (batch_at_index _ _ _ _ _ _ _ Hnd Hb Hx Ha).
  destruct (Pd.isna x || Pd.isna a); [done|]. by rewrite bool_decide_eq_true_2.
Qed.

(** X26.  [save_indicators] keeps the table sound: it leaves the price tables
    and the scan results alone, the rows of every other symbol and of every
    date the frame does not hold as they were, no two rows with one [(symbol,
    date)], and no row with a value that is not a number. *)
Theorem save_indicators_keeps clk symbol df rsi_series atr_series f :
  let f' := save_indicators clk symbol df rsi_series atr_series f in
  prices f' = prices f /\ scan_results f' = scan_results f /\
  (forall symbol' d, symbol' <> symbol \/ d ∉ date <$> df ->
     Views.indicator_at symbol' d (indicators f')
     = Views.indicator_at symbol' d (indicators f)) /\
  (NoDup (Views.indicator_keys (indicators f)) ->
   NoDup (Views.indicator_keys (indicators f'))) /\
  (Forall Views.valid_indicator (indicators f) ->
   Forall Views.valid_indicator (indicators f')).
Proof.
  intros f'. subst f'.
  destruct (save_indicators_fold clk symbol df rsi_series atr_series f)
    as (-> & -> & -> & _).
  split; [done|]. split; [done|]. split; [|split].
  - intros symbol' d Hother. rewrite filter_foldl_insert_or_replace.
    destruct Hother as [Hsym|Hdate].
    + rewrite bool_decide_eq_false_2 by done. by destruct (Views.batch_at _ _).
    + by rewrite batch_at_absent.
  - apply (foldl_insert_or_replace_keys _ _ _ (indicators f, indicators_seq f)).
  - apply (foldl_insert_or_replace_valid _ _ _ (indicators f, indicators_seq f)),
      indicators_df_valid.
Qed.

(** X27.  Saving the same indicators a second time leaves the values of the
    table as the first save left them: the rows of the batch are replaced by
    rows with the same values (and new ids). *)
Theorem save_indicators_idempotent clk clk' symbol df rsi_series atr_series f :
  let f1 := save_indicators clk symbol df rsi_series atr_series f in
  let f2 := save_indicators clk' symbol df rsi_series atr_series f1 in
  Views.indicator_values (indicators f2) = Views.indicator_values (indicators f1).
Proof.
  intros f1 f2. subst f1 f2.
  destruct (save_indicators_fold clk' symbol df rsi_series atr_series
              (save_indicators clk symbol df rsi_series atr_series f)) as [-> _].
  destruct (save_indicators_fold clk symbol df rsi_series atr_series f) as [-> _].
  generalize (indicators_seq (save_indicators clk symbol df rsi_series atr_series f)).
  generalize (indicators_df df rsi_series atr_series) (indicators f) (indicators_seq f).
  intros rows tbl seq seq1.
  destruct (foldl_insert_or_replace_split (now clk) symbol rows tbl seq) as [Hfirst _].
  destruct (foldl_insert_or_replace_split (now clk') symbol rows
              (foldl (insert_or_replace (now clk) symbol) (tbl, seq) rows).1 seq1)
    as [-> _].
  rewrite Hfirst at 1. rewrite List.filter_app.
  rewrite (filter_nothing _ (foldl _ ([], seq) rows).1); cycle 1.
  { eapply Forall_impl; [apply foldl_insert_or_replace_in_batch|].
    by intros r ->. }
  rewrite app_nil_r, filter_filter_and, Hfirst.
  rewrite !indicator_values_app. f_equal.
  - f_equal. apply List.filter_ext. intros r. by rewrite andb_diag.
  - by apply foldl_insert_or_replace_values.
Qed.

End indicator_store_extras.

(** ** Cleaning the cache *)

Section clean_facts.
Import Database CacheManager Store.

(** [date < ?] against the text of a [datetime.date]: the rows of the
    days before, in both forms of the text. *)
Lemma text_ltb_date_param t d :
  negb (text_ltb t (date_param d)) = (d <=? day t).
Proof.
  unfold text_ltb, text_leb, date_param. simpl. rewrite negb_involutive.
  destruct (Z.ltb_spec d (day t)), (Z.eqb_spec d (day t)), (Z.leb_spec d (day t));
    simpl; try done; lia.
Qed.

(** The tables after [clean_old_cache]. *)
Lemma clean_old_cache_rows now_ days_to_keep f symbol :
  rows_of symbol (prices (clean_old_cache now_ days_to_keep f).2)
  = List.filter (fun r => dt_date now_ - days_to_keep <=? day (pr_date r))
      (rows_of symbol (prices f)).
Proof.
  unfold clean_old_cache, rows_of. simpl. rewrite filter_comm.
  apply List.filter_ext. intros r. apply text_ltb_date_param.
Qed.

Lemma clean_old_cache_metadata now_ days_to_keep f symbol :
  cache_metadata (prices (clean_old_cache now_ days_to_keep f).2) !! symbol
  = if Pd.empty (rows_of symbol (prices (clean_old_cache now_ days_to_keep f).2))
    then None else cache_metadata (prices f) !! symbol.
Proof.
  unfold clean_old_cache, rows_of. simpl.
  set (kept := List.filter _ (price_data (prices f))).
  destruct (List.filter _ kept) as [|r rest] eqn:Hrows; simpl.
  - apply map_lookup_filter_None_2.
    destruct (cache_metadata (prices f) !! symbol) as [m|]; [right|by left].
    intros ? _ (r & Hsym & Hr)%list_elem_of_fmap. simpl in Hsym.
    assert (r ∈ List.filter (fun r => bool_decide (pr_symbol r = symbol)) kept) as Hin.
    { apply list_elem_of_In, filter_In. split; [by apply list_elem_of_In|].
      by apply bool_decide_eq_true_2. }
    rewrite Hrows in Hin. inversion Hin.
  - assert (symbol ∈ pr_symbol <$> kept) as Hin.
    { assert (r ∈ List.filter (fun r => bool_decide (pr_symbol r = symbol)) kept)
        as [Hr Hsym%bool_decide_eq_true]%list_elem_of_In%filter_In
        by (rewrite Hrows; apply list_elem_of_here).
      rewrite <- Hsym. by apply list_elem_of_fmap_2, list_elem_of_In. }
    destruct (cache_metadata (prices f) !! symbol) as [m|] eqn:Hm.
    + by apply map_lookup_filter_Some_2.
    + apply map_lookup_filter_None_2. by left.
Qed.

End clean_facts.

Section clean_extras.
Import Database CacheManager Store.

(** X28.  Cleaning does not disturb the reads of recent windows: a window that
    starts on or after the cutoff day is read as before, and for a clock whose
    required window starts on or after the cutoff day the decision to fetch is
    the same, also for a symbol whose freshness record the cleaning has
    deleted. *)
Theorem clean_old_cache_recent_reads now_ days_to_keep f symbol :
  let s' := prices (clean_old_cache now_ days_to_keep f).2 in
  (forall start_date end_date,
     dt_date now_ - days_to_keep <= dt_date start_date ->
     get_cached_price_data symbol start_date end_date s'
     = get_cached_price_data symbol start_date end_date (prices f)) /\
  (forall t,
     dt_date now_ - days_to_keep <= dt_date t - Settings.HIST_DAYS ->
     should_fetch_data t symbol s' = should_fetch_data t symbol (prices f)).
Proof.
  intros s'.
  assert (forall start_date end_date,
     dt_date now_ - days_to_keep <= dt_date start_date ->
     get_cached_price_data symbol start_date end_date s'
     = get_cached_price_data symbol start_date end_date (prices f)) as Hread.
  { intros start_date end_date Hstart. unfold get_cached_price_data. subst s'.
    rewrite clean_old_cache_rows, filter_filter_implied; [done|].
    intros r Hr. rewrite in_range_spec in Hr.
    apply andb_true_iff in Hr as [H1%Z.leb_le _]. apply Z.leb_le. lia. }
  split; [done|]. intros t Ht. unfold should_fetch_data. simpl.
  rewrite Hread by (simpl; lia). unfold is_data_fresh. subst s'.
  rewrite clean_old_cache_metadata, clean_old_cache_rows.
  destruct (Pd.empty _) eqn:Hempty; [|done]. simpl.
  assert (get_cached_price_data symbol (Time.minus_days t Settings.HIST_DAYS) t
            (prices f) = None) as ->.
  { unfold get_cached_price_data.
    rewrite <- (filter_filter_implied _
                  (fun r => dt_date now_ - days_to_keep <=? day (pr_date r))).
    - destruct (List.filter _ (rows_of symbol (prices f))); [done|discriminate].
    - intros r Hr. rewrite in_range_spec in Hr.
      apply andb_true_iff in Hr as [H1%Z.leb_le _].
      apply Z.leb_le. simpl in H1. lia. }
  by destruct (negb _).
Qed.

(** X29.  The number [clean_old_cache] returns is the number of freshness
    records it has deleted, not of bars: the bars and indicators before the
    cutoff day are gone, a freshness record is kept exactly for the symbols
    that still have a bar, and the number is zero when, and only when, every
    symbol with a record still has one. *)
Theorem clean_old_cache_rowcount now_ days_to_keep f :
  let n := (clean_old_cache now_ days_to_keep f).1 in
  let f' := (clean_old_cache now_ days_to_keep f).2 in
  let cutoff := dt_date now_ - days_to_keep in
  Forall (fun r => cutoff <= day (pr_date r)) (price_data (prices f')) /\
  Forall (fun r => cutoff <= ir_date r) (indicators f') /\
  (forall symbol,
     cache_metadata (prices f') !! symbol
     = if Pd.empty (rows_of symbol (prices f')) then None
       else cache_metadata (prices f) !! symbol) /\
  n + Z.of_nat (size (cache_metadata (prices f')))
  = Z.of_nat (size (cache_metadata (prices f))) /\
  (n = 0 <-> cache_metadata (prices f') = cache_metadata (prices f)).
Proof.
  intros n f' cutoff.
  assert (n + Z.of_nat (size (cache_metadata (prices f')))
          = Z.of_nat (size (cache_metadata (prices f)))) as Hsum.
  { subst n f'. unfold clean_old_cache. simpl.
    set (symbols := pr_symbol <$> List.filter _ (price_data (prices f))).
    rewrite <- (map_filter_union_complement
                  (fun kv : string * cache_row => kv.1 ∈ symbols)
                  (cache_metadata (prices f))) at 3.
    rewrite map_size_disj_union by apply map_disjoint_filter_complement. lia. }
  split; [|split; [|split; [|split]]].
  - apply Forall_forall. intros r [_ Hr]%list_elem_of_In%filter_In.
    rewrite text_ltb_date_param in Hr. apply Z.leb_le in Hr. simpl in Hr.
    subst cutoff. lia.
  - apply Forall_forall. intros r [_ Hr]%list_elem_of_In%filter_In.
    apply negb_true_iff, Z.ltb_ge in Hr. simpl in Hr. subst cutoff. lia.
  - intros symbol. apply clean_old_cache_metadata.
  - done.
  - split; [|intros Heq; rewrite Heq in Hsum; lia].
    intros Hn. subst n f'. unfold clean_old_cache in *. simpl in *.
    set (symbols := pr_symbol <$> List.filter _ (price_data (prices f))) in *.
    rewrite <- (map_filter_union_complement
                  (fun kv : string * cache_row => kv.1 ∈ symbols)
                  (cache_metadata (prices f))) at 2.
    assert (filter (fun kv : string * cache_row => kv.1 ∉ symbols)
              (cache_metadata (prices f)) = ∅) as ->.
    { apply map_size_empty_iff. lia. }
    by rewrite (right_id_L ∅ (∪)).
Qed.

End clean_extras.

(** ** A scan on the database file *)

Section file_facts.
Import Database CacheManager Store.

Variable reqHistoricalData : string -> Z -> outcome (date_column * list bar).
Variable ta_rsi : list float -> Z -> outcome (list float).
Variable ta_atr : list float -> list float -> list float -> Z -> outcome (list float).
Variable clk : clock.

(** Whatever [get_historical_data] answers, the database afterwards is the
    one before or the one a save of the payload has left. *)
Lemma get_historical_data_state symbol days s o s1 :
  RSIScanner.get_historical_data reqHistoricalData clk symbol days s = (o, s1) ->
  s1 = s \/
  exists dates bars, s1 = (save_price_data clk symbol dates bars s).2.
Proof.
  destruct (get_fetch_strategy (now clk) symbol s) as [r|e] eqn:Hrange.
  - destruct (get_historical_data_cached reqHistoricalData clk symbol days s r Hrange)
      as [->| ->]; [intros [= _ <-]; by left|].
    rewrite try_fetch_outcome.
    destruct (reqHistoricalData symbol days) as [[dates bars]|e].
    + destruct (Pd.empty bars); [intros [= _ <-]; by left|].
      destruct (save_price_data clk symbol dates bars s) as [[[]|e] s'] eqn:Hsave;
        intros [= _ <-]; right; exists dates, bars; by rewrite Hsave.
    + destruct (is_Exception e); intros [= _ <-]; by left.
  - rewrite (get_historical_data_strategy_raises _ _ _ _ _ _ Hrange).
    intros [= _ <-]. by left.
Qed.

(** It leaves the bars and the freshness record of every other symbol. *)
Lemma get_historical_data_elsewhere symbol symbol' days s o s1 :
  symbol' <> symbol ->
  RSIScanner.get_historical_data reqHistoricalData clk symbol days s = (o, s1) ->
  rows_of symbol' s1 = rows_of symbol' s /\
  cache_metadata s1 !! symbol' = cache_metadata s !! symbol'.
Proof.
  intros Hne [->|(dates & bars & ->)]%get_historical_data_state; [done|].
  unfold save_price_data. destruct (Pd.empty bars); [done|].
  destruct (to_sql_append _ _ _ _ _ _) as [[tbl seq]|] eqn:Happ; [|done].
  apply to_sql_append_bars in Happ as (new & -> & Hsym & _).
  assert (rows_of symbol' (Db (price_data s ++ new) seq (cache_metadata s))
          = rows_of symbol' s) as Hrows.
  { unfold rows_of. simpl.
    rewrite List.filter_app, (filter_symbol_none symbol symbol' new) by done.
    by rewrite app_nil_r. }
  destruct dates; simpl; (split; [exact Hrows|]); [done|].
  by apply lookup_insert_ne.
Qed.

(** The write of the indicators leaves the other tables, and the
    indicators of the other symbols. *)
Lemma save_indicators_call_quiet symbol df rsi_series atr_series f o f1 :
  save_indicators_call clk symbol df rsi_series atr_series f = (o, f1) ->
  prices f1 = prices f /\ scan_results f1 = scan_results f /\
  scan_seq f1 = scan_seq f /\
  forall symbol' d, symbol' <> symbol ->
    Views.indicator_at symbol' d (indicators f1)
    = Views.indicator_at symbol' d (indicators f).
Proof.
  unfold save_indicators_call. destruct atr_series as [atr_series|].
  - intros [= _ <-].
    destruct (save_indicators_fold clk symbol df rsi_series atr_series f)
      as (-> & -> & -> & ->).
    repeat split. intros symbol' d Hne. rewrite filter_foldl_insert_or_replace.
    rewrite bool_decide_eq_false_2 by done. by destruct (Views.batch_at _ _).
  - destruct (Pd.empty df || Pd.empty rsi_series); by intros [= _ <-].
Qed.

(** What the [try] block of a scan does to the database file. *)
Lemma scan_body_file symbol_ f o f' :
  Scanner.scan_body (collaborators reqHistoricalData ta_rsi ta_atr clk) symbol_ f
  = (o, f') ->
  Views.elsewhere_kept symbol_ f f' /\
  match o with
  | Returned r =>
    Views.recorded clk f f' r /\
    forall d, Scanner.extra r = Some d ->
      Scanner.cached d = negb (should_fetch_data (now clk) symbol_ (prices f'))
  | Raised _ => scan_results f' = scan_results f
  end.
Proof.
  unfold Scanner.scan_body, bind. cbn [Scanner.get_historical_data collaborators].
  unfold on_prices at 1.
  destruct (RSIScanner.get_historical_data _ _ _ _ (prices f)) as [o1 s1] eqn:Hdata.
  assert (Views.elsewhere_kept symbol_ f
            (File s1 (indicators f) (indicators_seq f) (scan_results f) (scan_seq f)))
    as Hkept.
  { intros symbol' Hne.
    destruct (get_historical_data_elsewhere _ _ _ _ _ _ Hne Hdata) as [? ?]. done. }
  destruct o1 as [df|e]; [|by intros [= <- <-]].
  destruct (Pd.empty df || _); [by intros [= <- <-]|].
  unfold lift at 1.
  destruct (Indicators.compute_indicators _ _ df)
    as [[[rsi_series atr_series] [latest_rsi_ latest_atr_]]|e];
    [|by intros [= <- <-]].
  destruct rsi_series as [rsi_series|], latest_rsi_ as [latest_rsi_|];
    try by intros [= <- <-].
  cbn [Scanner.save_indicators collaborators].
  destruct (save_indicators_call _ _ _ _ _ _) as [o2 f2] eqn:Hind.
  apply save_indicators_call_quiet in Hind as (Hprices & Hscans & Hseq & Hothers).
  simpl in Hprices, Hscans, Hseq, Hothers.
  assert (Views.elsewhere_kept symbol_ f f2) as Hkept2.
  { intros symbol' Hne. destruct (Hkept symbol' Hne) as (? & ? & ?). simpl in *.
    rewrite Hprices. split; [done|]. split; [done|].
    intros d. by rewrite Hothers. }
  destruct o2 as [[]|e]; [|by intros [= <- <-]].
  destruct (Indicators.check_rsi_extremes _ _ _ _) as [[[hh hl] mx] mn].
  unfold lift at 1. destruct latest_atr_ as [latest_atr_|]; simpl;
    [|by intros [= <- <-]].
  intros [= <- <-]. split.
  - intros symbol' Hne. destruct (Hkept2 symbol' Hne) as (? & ? & ?). done.
  - split; [|by intros d [= <-]].
    unfold Views.recorded. simpl. eexists _, _. split; [done|]. split; [done|].
    unfold save_scan_result, Views.scan_row_of. simpl. by rewrite Hscans, Hseq.
Qed.

End file_facts.

Section file_extras.
Import Database CacheManager Store.

Variable reqHistoricalData : string -> Z -> outcome (date_column * list bar).
Variable ta_rsi : list float -> Z -> outcome (list float).
Variable ta_atr : list float -> list float -> list float -> Z -> outcome (list float).
Variable clk : clock.

(** X30.  What a scan of a symbol leaves in the database file. A complete
    result is recorded as one new row of [scan_results] that carries its
    values; a blank result (too few bars, a failed calculation, an error)
    leaves no row. The bars, the freshness record and the indicators of every
    other symbol are untouched. The [cached] flag of a complete result is read
    off the database as the scan leaves it, after what the scan has fetched is
    stored. *)
Theorem scan_symbol_records symbol_ f r f' :
  Scanner.scan_symbol (collaborators reqHistoricalData ta_rsi ta_atr clk) symbol_ f
  = (Returned r, f') ->
  Views.recorded clk f f' r /\ Views.elsewhere_kept symbol_ f f' /\
  (forall d, Scanner.extra r = Some d ->
     Scanner.cached d = negb (should_fetch_data (now clk) symbol_ (prices f'))).
Proof.
  rewrite scan_symbol_outcome.
  destruct (Scanner.scan_body _ symbol_ f) as [o f1] eqn:Hbody.
  apply scan_body_file in Hbody as [Hkept Hrec].
  destruct o as [r0|e].
  - intros [= <- <-]. by destruct Hrec.
  - destruct (is_Exception e); [|done]. by intros [= <- <-].
Qed.

End file_extras.

Section store_witnesses.
Import Database CacheManager Store.

Lemma save_indicators_reads_back_witness :
  Views.indicator_at "X" 4
    (indicators (save_indicators Scenarios.day_100 "X" Scenarios.six_days
                   Scenarios.six_rsi Scenarios.six_atr empty_file))
  = Some (60%float, 1%float) /\
  Views.indicator_at "X" 3
    (indicators (save_indicators Scenarios.day_100 "X" Scenarios.six_days
                   Scenarios.six_rsi Scenarios.six_atr empty_file))
  = Views.indicator_at "X" 3 (indicators empty_file).
Proof.
  split.
  - apply (save_indicators_reads_back Scenarios.day_100 "X" Scenarios.six_days
             Scenarios.six_rsi Scenarios.six_atr empty_file 3
             (Bar 4 93 94 92 93 1000) 60%float 1%float).
    + apply (bool_decide_unpack _). vm_compute. exact I.
    + reflexivity.
    + reflexivity.
    + reflexivity.
  - apply (save_indicators_reads_back Scenarios.day_100 "X" Scenarios.six_days
             Scenarios.six_rsi Scenarios.six_atr empty_file 2
             (Bar 3 91 92 90 91 1000) 50%float nan).
    + apply (bool_decide_unpack _). vm_compute. exact I.
    + reflexivity.
    + reflexivity.
    + reflexivity.
Defined.

Lemma scan_symbol_records_witness :
  exists r f',
    Scanner.scan_symbol Scenarios.on_file "X" empty_file = (Returned r, f') /\
    Views.recorded Scenarios.day_100 empty_file f' r /\
    Views.elsewhere_kept "X" empty_file f' /\
    (forall d, Scanner.extra r = Some d ->
       Scanner.cached d
       = negb (should_fetch_data (now Scenarios.day_100) "X" (prices f'))).
Proof.
  eexists _, _. split; [vm_compute; reflexivity|].
  apply (scan_symbol_records Scenarios.broker_30_days Scenarios.steady_rsi
           Scenarios.no_volatility Scenarios.day_100 "X" empty_file).
  vm_compute. reflexivity.
Defined.

End store_witnesses.
